(** * Money Balancer: summary and budget warnings

    A shallow embedding of the two server variants of the repository,
    [src/server.py] (module [Server]) and [src/backend/server.py] (module
    [Backend]): the summary route [get_summary], the routes that list,
    create, update and delete expenses and debts, the limit routes and the
    CORS origins, over a model of the MongoDB collections they read and
    write; then the accounts of [src/backend/auth.py] (module [Auth]) and
    the run of [src/tests/backend_test.py] (module [BackendTest]).

    - A stored document is a Python [dict]: a finite map from field names to
      values ([gmap string value]).
    - A collection is the list of its documents in natural order.
    - Python exceptions are the [Raise] results of a small error monad.
    - Amounts are Python [float]s. The arithmetic the code uses is kept behind
      the interface [Number], with the facts about it that the properties
      rely on ([NumberOrder], [NumberMonotone]); [float64] instantiates it
      with IEEE binary64 (Rocq's primitive floats). *)

From Stdlib Require Import ZArith Floats String Ascii Lia.
From stdpp Require Import gmap strings list sorting.

Local Open Scope string_scope.
Local Open Scope Z_scope.

(** ** Arithmetic *)

(** The operations [get_summary] applies to amounts and limits: [+] (inside
    [sum]), [-], [/], [*], and the comparisons [>] and [>=], written here
    through [ltb] and [leb] ([a > b] is [ltb b a], [a >= b] is [leb b a]).
    [of_int] is the conversion Python applies to an [int] operand of a mixed
    [int]/[float] operation. *)
Class Number (num : Type) : Type := {
  of_int : Z → num;
  add : num → num → num;
  sub : num → num → num;
  mul : num → num → num;
  div : num → num → num;
  ltb : num → num → bool;
  leb : num → num → bool
}.

(** The facts about the two comparisons that the warning tiers rely on, as
    they hold for IEEE comparison, where a NaN compares false with
    everything. In the last one a limit that is neither [<= 0] nor [> 0] is
    a NaN, and so is every percentage of it. *)
Class NumberOrder (num : Type) `{Number num} : Prop := {
  leb_zero : leb (of_int 0) (of_int 0) = true;
  leb_not_ltb : ∀ a b, leb a b = true → ltb b a = false;
  ltb_not_leb : ∀ a b, ltb a b = true → leb b a = false;
  leb_trans : ∀ a b c, leb a b = true → leb b c = true → leb a c = true;
  leb_80_100 : leb (of_int 80) (of_int 100) = true;
  percent_unordered : ∀ total limit c,
    leb limit (of_int 0) = false → ltb (of_int 0) limit = false →
    leb c (mul (div total limit) (of_int 100)) = false
    ∧ ltb (mul (div total limit) (of_int 100)) c = false
}.

(** Addition of non-negative numbers that keeps the order of two partial sums
    when the same amount is added to both, and does not decrease a sum when
    an amount is added to it. *)
Class NumberMonotone (num : Type) `{Number num} : Prop := {
  add_mono : ∀ a b x,
    leb (of_int 0) a = true → leb a b = true → leb (of_int 0) x = true →
    leb (add a x) (add b x) = true;
  add_incr : ∀ a b x,
    leb (of_int 0) a = true → leb a b = true → leb (of_int 0) x = true →
    leb a (add b x) = true
}.

(** IEEE binary64, the arithmetic of a Python [float]. An [int] is converted
    with rounding to nearest, ties to even. *)
#[export] Instance float64 : Number float := {
  of_int z := SF2Prim (binary_normalize prec emax z 0 false);
  add := PrimFloat.add;
  sub := PrimFloat.sub;
  mul := PrimFloat.mul;
  div := PrimFloat.div;
  ltb := PrimFloat.ltb;
  leb := PrimFloat.leb
}.

(** ** Exceptions *)

Inductive exn : Type :=
  | KeyError (key : string)
  | TypeError
  | ValueError
  | HTTPException (status_code : Z) (detail : string).

Inductive result (A : Type) : Type :=
  | Ok (a : A)
  | Raise (e : exn).
Arguments Ok {A} a.
Arguments Raise {A} e.

(** Sequencing: the first exception raised ends the computation. *)
Definition bind {A B : Type} (m : result A) (f : A → result B) : result B :=
  match m with
  | Ok a => f a
  | Raise e => Raise e
  end.

Notation "'do' x <- m ;; k" := (bind m (λ x, k))
  (at level 10, x name, m at level 99, k at level 200,
   format "'[v' 'do'  x  <-  m ;;  '/' k ']'").

(** ** Calendar dates

    [datetime] is Python's standard library. Dates are proleptic Gregorian;
    [toordinal] counts days from 0001-01-01 = 1. *)

Record datetime : Type := {
  year : Z; month : Z; day : Z;
  hour : Z; minute : Z; second : Z; microsecond : Z
}.

Definition is_leap (y : Z) : bool :=
  (y mod 4 =? 0) && (negb (y mod 100 =? 0) || (y mod 400 =? 0)).

Definition days_in_month (y m : Z) : Z :=
  if m =? 2 then (if is_leap y then 29 else 28)
  else if (m =? 4) || (m =? 6) || (m =? 9) || (m =? 11) then 30
  else 31.

Definition days_before_year (y : Z) : Z :=
  let y' := y - 1 in y' * 365 + y' / 4 - y' / 100 + y' / 400.

Definition days_before_month (y m : Z) : Z :=
  match m with
  | 1 => 0 | 2 => 31 | 3 => 59 | 4 => 90 | 5 => 120 | 6 => 151
  | 7 => 181 | 8 => 212 | 9 => 243 | 10 => 273 | 11 => 304 | _ => 334
  end + (if (2 <? m) && is_leap y then 1 else 0).

Definition toordinal (d : datetime) : Z :=
  days_before_year (year d) + days_before_month (year d) (month d) + day d.

(** [d.weekday()]: Monday is 0, Sunday is 6. *)
Definition weekday (d : datetime) : Z := (toordinal d + 6) mod 7.

Definition with_date (d : datetime) (y m dd : Z) : datetime :=
  {| year := y; month := m; day := dd;
     hour := hour d; minute := minute d;
     second := second d; microsecond := microsecond d |}.

(** One day back, [d - timedelta(days=1)]: the date whose ordinal is one
    less. *)
Definition yesterday (d : datetime) : datetime :=
  if 1 <? day d then with_date d (year d) (month d) (day d - 1)
  else if 1 <? month d then
    with_date d (year d) (month d - 1) (days_in_month (year d) (month d - 1))
  else with_date d (year d - 1) 12 31.

(** [d - timedelta(days=n)] for a whole number [n] of days: the time of day
    is kept. *)
Definition minus_days (d : datetime) (n : Z) : datetime :=
  Nat.iter (Z.to_nat n) yesterday d.

(** [d.replace(day=1)]. *)
Definition replace_day1 (d : datetime) : datetime :=
  with_date d (year d) (month d) 1.

(** [d.replace(hour=0, minute=0, second=0, microsecond=0)]. *)
Definition replace_midnight (d : datetime) : datetime :=
  {| year := year d; month := month d; day := day d;
     hour := 0; minute := 0; second := 0; microsecond := 0 |}.

Definition digit (n : Z) : ascii := ascii_of_N (48 + Z.to_N (n mod 10)).

Definition pad2 (n : Z) : string :=
  String (digit (n / 10)) (String (digit n) EmptyString).

Definition pad4 (n : Z) : string :=
  String (digit (n / 1000)) (String (digit (n / 100)) (pad2 n)).

(** [d.strftime("%Y-%m-%d")], zero padded: four digits for the year, two for
    the month and the day (below the year 1000 the padding of [%Y] is the
    platform's). *)
Definition strftime_ymd (d : datetime) : string :=
  String.append (pad4 (year d))
    (String "-" (String.append (pad2 (month d)) (String "-" (pad2 (day d))))).

(** A date the [datetime] type can hold. *)
Definition valid_date (d : datetime) : Prop :=
  1 ≤ year d ≤ 9999 ∧ 1 ≤ month d ≤ 12 ∧
  1 ≤ day d ≤ days_in_month (year d) (month d).

(** The order of two dates as (year, month, day). *)
Definition date_le (d1 d2 : datetime) : Prop :=
  year d1 < year d2 ∨
  (year d1 = year d2 ∧
   (month d1 < month d2 ∨ (month d1 = month d2 ∧ day d1 ≤ day d2))).

(** Dates whose fields fill the four and two digits of the format. *)
Definition printable (d : datetime) : Prop :=
  0 ≤ year d ≤ 9999 ∧ 0 ≤ month d ≤ 99 ∧ 0 ≤ day d ≤ 99.

(** The instant as a stored [datetime] value holds it: the microseconds
    since the first instant of the calendar. *)
Definition to_micros (d : datetime) : Z :=
  ((((toordinal d - 1) * 24 + hour d) * 60 + minute d) * 60 + second d)
  * 1000000 + microsecond d.

Definition pad6 (n : Z) : string :=
  String (digit (n / 100000)) (String (digit (n / 10000)) (pad4 n)).

(** [d.isoformat()] of an instant in UTC, as [datetime.now(timezone.utc)]
    gives it: the fraction of the second is left out when it is zero. *)
Definition isoformat (d : datetime) : string :=
  String.append (strftime_ymd d)
    (String "T" (String.append (pad2 (hour d))
      (String ":" (String.append (pad2 (minute d))
        (String ":" (String.append (pad2 (second d))
          (String.append
             (if microsecond d =? 0 then ""
              else String "." (pad6 (microsecond d)))
             "+00:00"))))))).

(** ** Documents and collections *)

(** The values a stored field holds: a string, a number (BSON double or
    integer, a Python [float] or [int]) or a [datetime] (as its ordinal in
    microseconds). *)
Inductive value (num : Type) : Type :=
  | VStr (s : string)
  | VNum (x : num)
  | VDatetime (t : Z).
Arguments VStr {num} s.
Arguments VNum {num} x.
Arguments VDatetime {num} t.

(** The three collections [db.expenses], [db.debts] and [db.limits]. *)
Record database (num : Type) : Type := {
  expenses : list (gmap string (value num));
  debts : list (gmap string (value num));
  limits : list (gmap string (value num))
}.
Arguments expenses {num} d.
Arguments debts {num} d.
Arguments limits {num} d.

(** The response model [Summary]. *)
Record Summary (num : Type) : Type := {
  total_today : num;
  total_week : num;
  total_month : num;
  weekly_limit : num;
  monthly_limit : num;
  remaining_week : num;
  remaining_month : num;
  money_gave : num;
  money_owe : num;
  weekly_warning : string;
  monthly_warning : string
}.
Arguments total_today {num} s.
Arguments total_week {num} s.
Arguments total_month {num} s.
Arguments weekly_limit {num} s.
Arguments monthly_limit {num} s.
Arguments remaining_week {num} s.
Arguments remaining_month {num} s.
Arguments money_gave {num} s.
Arguments money_owe {num} s.
Arguments weekly_warning {num} s.
Arguments monthly_warning {num} s.

(** The request models [ExpenseCreate] and [DebtUpdate]. *)
Record ExpenseCreate (num : Type) : Type := {
  title : string;
  amount : num;
  date : string;
  category : string
}.
Arguments title {num} e.
Arguments amount {num} e.
Arguments date {num} e.
Arguments category {num} e.

Record DebtUpdate : Type := { status : string }.

(** The stored models [Expense], [Debt] and [Limit] with their [model_dump],
    and the request models [DebtCreate] and [LimitCreate]. A [timestamp] is
    held as [to_micros] gives it. *)
Module Expense.
Record t (num : Type) : Type := {
  id : string;
  title : string;
  amount : num;
  date : string;
  category : string;
  timestamp : Z
}.
Arguments id {num} _.
Arguments title {num} _.
Arguments amount {num} _.
Arguments date {num} _.
Arguments category {num} _.
Arguments timestamp {num} _.

Definition model_dump {num : Type} (e : t num) : gmap string (value num) :=
  <["id" := VStr (id e)]>
    (<["title" := VStr (title e)]>
      (<["amount" := VNum (amount e)]>
        (<["date" := VStr (date e)]>
          (<["category" := VStr (category e)]>
            (<["timestamp" := VDatetime (timestamp e)]> ∅))))).
End Expense.

Module DebtCreate.
Record t (num : Type) : Type := {
  name : string;
  amount : num;
  reason : string;
  date : string;
  status : string;
  debt_type : string
}.
Arguments name {num} _.
Arguments amount {num} _.
Arguments reason {num} _.
Arguments date {num} _.
Arguments status {num} _.
Arguments debt_type {num} _.
End DebtCreate.

Module Debt.
Record t (num : Type) : Type := {
  id : string;
  name : string;
  amount : num;
  reason : string;
  date : string;
  status : string;
  debt_type : string;
  timestamp : Z
}.
Arguments id {num} _.
Arguments name {num} _.
Arguments amount {num} _.
Arguments reason {num} _.
Arguments date {num} _.
Arguments status {num} _.
Arguments debt_type {num} _.
Arguments timestamp {num} _.

Definition model_dump {num : Type} (d : t num) : gmap string (value num) :=
  <["id" := VStr (id d)]>
    (<["name" := VStr (name d)]>
      (<["amount" := VNum (amount d)]>
        (<["reason" := VStr (reason d)]>
          (<["date" := VStr (date d)]>
            (<["status" := VStr (status d)]>
              (<["debt_type" := VStr (debt_type d)]>
                (<["timestamp" := VDatetime (timestamp d)]> ∅))))))).
End Debt.

Module LimitCreate.
Record t (num : Type) : Type := {
  weekly_limit : num;
  monthly_limit : num
}.
Arguments weekly_limit {num} _.
Arguments monthly_limit {num} _.
End LimitCreate.

Module Limit.
Record t (num : Type) : Type := {
  id : string;
  weekly_limit : num;
  monthly_limit : num
}.
Arguments id {num} _.
Arguments weekly_limit {num} _.
Arguments monthly_limit {num} _.

Definition model_dump {num : Type} (l : t num) : gmap string (value num) :=
  <["id" := VStr (id l)]>
    (<["weekly_limit" := VNum (weekly_limit l)]>
      (<["monthly_limit" := VNum (monthly_limit l)]> ∅)).
End Limit.

(** What a route that writes a document comes to: it returns, it raises one
    of the exceptions above, or the unique index on [id] refuses the
    document (pymongo's [DuplicateKeyError]). *)
Inductive written (A : Type) : Type :=
  | Written (a : A)
  | Raised (e : exn)
  | DuplicateKeyError.
Arguments Written {A} a.
Arguments Raised {A} e.
Arguments DuplicateKeyError {A}.

(** A query on the [date] field, as [get_expenses] builds it. *)
Inductive date_query : Type :=
  | QAll
  | QGte (lo : string)
  | QGteLte (lo hi : string).

Section Python.
Context {num : Type} `{Number num}.

Abbreviation doc := (gmap string (value num)).

(** [d[key]] *)
Definition getitem (d : doc) (key : string) : result (value num) :=
  match d !! key with
  | Some v => Ok v
  | None => Raise (KeyError key)
  end.

(** [v == s] for a string [s]; [v] is [None] for an absent field. Equality
    between values of different types is [False], never an error. *)
Definition py_eq_str (v : option (value num)) (s : string) : bool :=
  match v with
  | Some (VStr s') => String.eqb s' s
  | _ => false
  end.

(** [v >= s] for a string [s]. *)
Definition py_ge_str (v : value num) (s : string) : result bool :=
  match v with
  | VStr s' => Ok (String.leb s s')
  | _ => Raise TypeError
  end.

(** [a < b], the comparison [list.sort] applies to two keys. *)
Definition py_lt (a b : value num) : result bool :=
  match a, b with
  | VStr s, VStr s' => Ok (String.ltb s s')
  | VNum x, VNum y => Ok (ltb x y)
  | VDatetime t, VDatetime t' => Ok (t <? t')
  | _, _ => Raise TypeError
  end.

(** The operand of an arithmetic operation with a number. *)
Definition as_num (v : value num) : result num :=
  match v with
  | VNum x => Ok x
  | _ => Raise TypeError
  end.

(** [sum(e["amount"] for e in docs if cond(e))], with the running total
    [acc]: the generator tests a document, reads its amount and adds it,
    one document after the other. The total is the plain left-to-right sum
    (CPython from 3.12 on compensates the rounding errors of a sum of
    floats; on amounts whose partial sums are exact the two agree). *)
Fixpoint sum_amounts (cond : doc → result bool) (docs : list doc) (acc : num)
  : result num :=
  match docs with
  | [] => Ok acc
  | e :: docs' =>
      do b <- cond e;;
      if b : bool then
        do v <- getitem e "amount";;
        do x <- as_num v;;
        sum_amounts cond docs' (add acc x)
      else sum_amounts cond docs' acc
  end.

Definition py_sum (cond : doc → result bool) (docs : list doc) : result num :=
  sum_amounts cond docs (of_int 0).

(** The projection [{"_id": 0}]. *)
Definition without_id (d : doc) : doc := delete "_id" d.

(** The filter [{"id": key}]. *)
Definition has_id (key : string) (d : doc) : bool :=
  match d !! "id" with
  | Some (VStr s) => String.eqb s key
  | _ => false
  end.

(** A comparison operator of a query matches only a field of the type of
    its operand: a missing [date] or one that is not a string matches no
    [$gte] or [$lte] on a string. *)
Definition matches (q : date_query) (d : doc) : bool :=
  match q with
  | QAll => true
  | QGte lo =>
      match d !! "date" with
      | Some (VStr s) => String.leb lo s
      | _ => false
      end
  | QGteLte lo hi =>
      match d !! "date" with
      | Some (VStr s) => String.leb lo s && String.leb s hi
      | _ => false
      end
  end.

(** [coll.find(q, {"_id": 0})] *)
Definition find (q : date_query) (coll : list doc) : list doc :=
  without_id <$> filter (λ d, matches q d = true) coll.

(** [cursor.to_list(length)] *)
Definition to_list (length : Z) (cursor : list doc) : list doc :=
  take (Z.to_nat length) cursor.

(** [coll.find_one({"id": key}, {"_id": 0})] *)
Definition find_one (key : string) (coll : list doc) : option doc :=
  without_id <$> List.find (has_id key) coll.

(** [not limit]: [None] and the empty [dict] are falsy. *)
Definition falsy (limit : option doc) : bool :=
  match limit with
  | None => true
  | Some d => bool_decide (dom d = ∅)
  end.

(** [coll.find_one_and_update({"id": key}, {"$set": fields})]: the first
    document with this id gets the fields; the collection after the update
    and the updated document, if there is one. *)
Fixpoint find_one_and_update (key : string) (fields : doc) (coll : list doc)
  : list doc * option doc :=
  match coll with
  | [] => ([], None)
  | d :: coll' =>
      if has_id key d then ((fields ∪ d) :: coll', Some (fields ∪ d))
      else
        let '(coll'', r) := find_one_and_update key fields coll' in
        (d :: coll'', r)
  end.

(** The place of a document in a list sorted by [list.sort(reverse=True)]
    on the keys: behind every document whose key is not smaller, so that
    documents with equal keys keep their order. *)
Fixpoint insert_desc (x : value num * doc) (l : list (value num * doc))
  : result (list (value num * doc)) :=
  match l with
  | [] => Ok [x]
  | y :: l' =>
      do b <- py_lt y.1 x.1;;
      if b : bool then Ok (x :: y :: l')
      else do l'' <- insert_desc x l';; Ok (y :: l'')
  end.

Fixpoint sort_desc (l : list (value num * doc)) (sorted : list (value num * doc))
  : result (list (value num * doc)) :=
  match l with
  | [] => Ok sorted
  | x :: l' => do sorted' <- insert_desc x sorted;; sort_desc l' sorted'
  end.

(** [docs.sort(key=key, reverse=True)]: the keys are computed first. *)
Fixpoint keyed (key : doc → result (value num)) (docs : list doc)
  : result (list (value num * doc)) :=
  match docs with
  | [] => Ok []
  | d :: docs' => do k <- key d;; do l <- keyed key docs';; Ok ((k, d) :: l)
  end.

Definition sort_reverse (key : doc → result (value num)) (docs : list doc)
  : result (list doc) :=
  do l <- keyed key docs;;
  do sorted <- sort_desc l [];;
  Ok (snd <$> sorted).

(** The warning classifier: the threshold test [get_summary] writes out
    once for the week and once for the month,
    [if limit > 0: percent = (total / limit) * 100;
     if percent >= 100: "red" elif percent >= 80: "yellow"],
    from the initial ["none"]. *)
Definition warning (total limit : num) : string :=
  if ltb (of_int 0) limit then
    let percent := mul (div total limit) (of_int 100) in
    if leb (of_int 100) percent then "red"
    else if leb (of_int 80) percent then "yellow"
    else "none"
  else "none".

(** The tiers in the words of the specification: [w] is the warning for the
    spent amount [total] against [limit]. *)
Definition classifies (total limit : num) (w : string) : Prop :=
  (leb limit (of_int 0) = true → w = "none")
  ∧ (leb limit (of_int 0) = false →
     let percent := mul (div total limit) (of_int 100) in
     (leb (of_int 100) percent = true → w = "red")
     ∧ (leb (of_int 80) percent = true → ltb percent (of_int 100) = true →
        w = "yellow")
     ∧ (ltb percent (of_int 80) = true → w = "none")).
(** A value as BSON stores it: a [datetime] keeps its milliseconds. *)
Definition bson_value (v : value num) : value num :=
  match v with
  | VDatetime t => VDatetime (t - t mod 1000)
  | _ => v
  end.

Definition bson (d : doc) : doc := bson_value <$> d.

(** [coll.insert_one(d)] for a document [d] whose [id] is the string [key]:
    the driver adds an [_id] of its own, [object_id], and the document comes
    last in the natural order. Under a unique index on [id] ([unique]) a
    document whose [id] is stored already is refused ([None]). *)
Definition insert_one (unique : bool) (object_id : value num) (key : string)
    (d : doc) (coll : list doc) : option (list doc) :=
  if unique && existsb (has_id key) coll then None
  else Some (coll ++ [<["_id" := object_id]> (bson d)])%list.

(** [coll.delete_one({"id": key})]: the first document with this id goes;
    the collection after it and [deleted_count]. *)
Fixpoint delete_one (key : string) (coll : list doc) : list doc * Z :=
  match coll with
  | [] => ([], 0)
  | d :: coll' =>
      if has_id key d then (coll', 1)
      else
        let '(coll'', deleted_count) := delete_one key coll' in
        (d :: coll'', deleted_count)
  end.

(** [coll.update_one({"id": key}, {"$set": fields}, upsert=True)]: the first
    document with this id gets the fields; without one, a document made of
    the filter and the fields is inserted. *)
Definition update_one (object_id : value num) (key : string) (fields : doc)
    (coll : list doc) : list doc :=
  if existsb (has_id key) coll then
    (find_one_and_update key (bson fields) coll).1
  else (coll ++ [<["_id" := object_id]> (bson (fields ∪ {["id" := VStr key]}))])%list.
End Python.

(** ** [str.strip] and [str.split]

    A [str] is taken as its UTF-8 bytes, a run of them as a list. *)

(** The characters [str.isspace] holds of, each as its bytes: the controls
    U+0009 to U+000D and U+001C to U+001F, the space, U+0085, U+00A0,
    U+1680, U+2000 to U+200A, U+2028, U+2029, U+202F, U+205F and U+3000. *)
Definition whitespace : list (list ascii) :=
  (λ bytes : list N, ascii_of_N <$> bytes) <$>
  [[9]; [10]; [11]; [12]; [13]; [28]; [29]; [30]; [31]; [32];
   [194; 133]; [194; 160]; [225; 154; 128];
   [226; 128; 128]; [226; 128; 129]; [226; 128; 130]; [226; 128; 131];
   [226; 128; 132]; [226; 128; 133]; [226; 128; 134]; [226; 128; 135];
   [226; 128; 136]; [226; 128; 137]; [226; 128; 138];
   [226; 128; 168]; [226; 128; 169]; [226; 128; 175]; [226; 129; 159];
   [227; 128; 128]]%N.

(** [s] without the prefix [p], when it starts with [p]. *)
Fixpoint without_prefix (p s : list ascii) : option (list ascii) :=
  match p, s with
  | [], _ => Some s
  | a :: p, b :: s => if Ascii.eqb a b then without_prefix p s else None
  | _ :: _, [] => None
  end.

(** [s] without the first of the [marks] that it starts with. *)
Definition after_mark (marks : list (list ascii)) (s : list ascii)
  : option (list ascii) :=
  head (omap (λ w, without_prefix w s) marks).

(** [s] without the marks it starts with, one after the other, at most [n]
    of them. *)
Fixpoint without_marks (marks : list (list ascii)) (n : nat) (s : list ascii)
  : list ascii :=
  match n with
  | O => s
  | S n =>
      match after_mark marks s with
      | Some s' => without_marks marks n s'
      | None => s
      end
  end.

Definition lstrip (s : list ascii) : list ascii :=
  without_marks whitespace (length s) s.

Definition rstrip (s : list ascii) : list ascii :=
  reverse (without_marks (reverse <$> whitespace) (length s) (reverse s)).

(** [s.strip()] *)
Definition strip (s : string) : string :=
  string_of_list_ascii (rstrip (lstrip (list_ascii_of_string s))).

(** The pieces of [s] between the occurrences of [sep]; there is always
    one. *)
Fixpoint pieces (sep : ascii) (s : list ascii) : list (list ascii) :=
  match s with
  | [] => [[]]
  | c :: s =>
      if Ascii.eqb c sep then [] :: pieces sep s
      else match pieces sep s with
           | piece :: rest => (c :: piece) :: rest
           | [] => [[c]]
           end
  end.

(** [s.split(sep)] for a separator of one character. *)
Definition str_split (sep : ascii) (s : string) : list string :=
  string_of_list_ascii <$> pieces sep (list_ascii_of_string s).

(** [if o:] on a [str]. *)
Definition nonempty (o : string) : bool := negb (String.eqb o "").

(** ** [src/server.py] *)

Module Server.
Section Routes.
Context {num : Type} `{Number num}.
(** [datetime.fromisoformat], which raises [ValueError] on a string that is
    not an ISO timestamp. *)
Variable fromisoformat : string → result Z.

Abbreviation doc := (gmap string (value num)).

(** [input.model_dump()] of an [ExpenseCreate]. *)
Definition model_dump (input : ExpenseCreate num) : doc :=
  <["title" := VStr (title input)]>
    (<["amount" := VNum (amount input)]>
      (<["date" := VStr (date input)]>
        (<["category" := VStr (category input)]> ∅))).

(** [if isinstance(d.get("timestamp"), str):
       d["timestamp"] = datetime.fromisoformat(d["timestamp"])] *)
Definition parse_timestamp (d : doc) : result doc :=
  match d !! "timestamp" with
  | Some (VStr s) =>
      do t <- fromisoformat s;; Ok (<["timestamp" := VDatetime t]> d)
  | _ => Ok d
  end.

Fixpoint for_each (f : doc → result doc) (docs : list doc) : result (list doc) :=
  match docs with
  | [] => Ok []
  | d :: docs' => do d' <- f d;; do l <- for_each f docs';; Ok (d' :: l)
  end.

(** The query of [get_expenses]; [filter] is [None] when the parameter is
    not given, and [if filter:] also skips the empty string. *)
Definition expenses_query (now : datetime) (filter : option string) : date_query :=
  match filter with
  | None => QAll
  | Some f =>
      if String.eqb f "" then QAll
      else if String.eqb f "day" then
        let start_date := replace_midnight now in
        let start_str := strftime_ymd start_date in
        QGteLte start_str start_str
      else if String.eqb f "week" then
        let start_date := minus_days now (weekday now) in
        let start_str := strftime_ymd start_date in
        QGte start_str
      else if String.eqb f "month" then
        let start_date := replace_day1 now in
        let start_str := strftime_ymd start_date in
        QGte start_str
      else QAll
  end.

Definition get_expenses (now : datetime) (filter : option string)
    (db : database num) : result (list doc) :=
  let query := expenses_query now filter in
  let docs := to_list 10000 (find query (expenses db)) in
  do docs <- for_each parse_timestamp docs;;
  sort_reverse (λ x, Ok (default (VStr "") (x !! "date"))) docs.

Definition update_expense (expense_id : string) (input : ExpenseCreate num)
    (db : database num) : database num * result doc :=
  let expense_dict := model_dump input in
  let '(coll, result) :=
    find_one_and_update expense_id expense_dict (expenses db) in
  let db' := {| expenses := coll; debts := debts db; limits := limits db |} in
  match result with
  | None => (db', Raise (HTTPException 404 "Expense not found"))
  | Some result => (db', parse_timestamp (delete "_id" result))
  end.

Definition update_debt (debt_id : string) (input : DebtUpdate)
    (db : database num) : database num * result doc :=
  let '(coll, result) :=
    find_one_and_update debt_id {["status" := VStr (status input)]} (debts db) in
  let db' := {| expenses := expenses db; debts := coll; limits := limits db |} in
  match result with
  | None => (db', Raise (HTTPException 404 "Debt not found"))
  | Some result => (db', parse_timestamp (delete "_id" result))
  end.

Definition get_summary (now : datetime) (db : database num)
  : result (Summary num) :=
  let today_date := strftime_ymd now in
  let week_start := minus_days now (weekday now) in
  let week_start_date := strftime_ymd week_start in
  let month_start := replace_day1 now in
  let month_start_date := strftime_ymd month_start in

  let all_expenses := to_list 10000 (find QAll (expenses db)) in

  do total_today <-
    py_sum (λ e, Ok (py_eq_str (e !! "date") today_date)) all_expenses;;
  do total_week <-
    py_sum (λ e, py_ge_str (default (VStr "") (e !! "date")) week_start_date)
      all_expenses;;
  do total_month <-
    py_sum (λ e, py_ge_str (default (VStr "") (e !! "date")) month_start_date)
      all_expenses;;

  let limit := find_one "limit_settings" (limits db) in
  let '(weekly_limit, monthly_limit) :=
    if falsy limit then (VNum (of_int 0), VNum (of_int 0))
    else
      let limit := default ∅ limit in
      (default (VNum (of_int 0)) (limit !! "weekly_limit"),
       default (VNum (of_int 0)) (limit !! "monthly_limit")) in

  do weekly_limit <- as_num weekly_limit;;
  let remaining_week := sub weekly_limit total_week in
  do monthly_limit <- as_num monthly_limit;;
  let remaining_month := sub monthly_limit total_month in

  let weekly_warning :=
    if ltb (of_int 0) weekly_limit then
      let weekly_percent := mul (div total_week weekly_limit) (of_int 100) in
      if leb (of_int 100) weekly_percent then "red"
      else if leb (of_int 80) weekly_percent then "yellow"
      else "none"
    else "none" in

  let monthly_warning :=
    if ltb (of_int 0) monthly_limit then
      let monthly_percent := mul (div total_month monthly_limit) (of_int 100) in
      if leb (of_int 100) monthly_percent then "red"
      else if leb (of_int 80) monthly_percent then "yellow"
      else "none"
    else "none" in

  let all_debts := to_list 10000 (find QAll (debts db)) in
  do money_gave <-
    py_sum (λ d, Ok (py_eq_str (d !! "debt_type") "gave"
                     && py_eq_str (d !! "status") "pending")) all_debts;;
  do money_owe <-
    py_sum (λ d, Ok (py_eq_str (d !! "debt_type") "owe"
                     && py_eq_str (d !! "status") "pending")) all_debts;;

  Ok {| total_today := total_today;
        total_week := total_week;
        total_month := total_month;
        weekly_limit := weekly_limit;
        monthly_limit := monthly_limit;
        remaining_week := remaining_week;
        remaining_month := remaining_month;
        money_gave := money_gave;
        money_owe := money_owe;
        weekly_warning := weekly_warning;
        monthly_warning := monthly_warning |}.
(** The [Expense] made of the fields of [input.model_dump()]: the [id] is
    the [uuid4] drawn for it, the [timestamp] the instant of the call. *)
Definition new_expense (uuid4 : string) (now : datetime)
    (input : ExpenseCreate num) : Expense.t num :=
  {| Expense.id := uuid4;
     Expense.title := title input;
     Expense.amount := amount input;
     Expense.date := date input;
     Expense.category := category input;
     Expense.timestamp := to_micros now |}.

(** The [Debt] made of the fields of [input.model_dump()]. *)
Definition new_debt (uuid4 : string) (now : datetime)
    (input : DebtCreate.t num) : Debt.t num :=
  {| Debt.id := uuid4;
     Debt.name := DebtCreate.name input;
     Debt.amount := DebtCreate.amount input;
     Debt.reason := DebtCreate.reason input;
     Debt.date := DebtCreate.date input;
     Debt.status := DebtCreate.status input;
     Debt.debt_type := DebtCreate.debt_type input;
     Debt.timestamp := to_micros now |}.

(** The [Limit] made of [id="limit_settings"] and the fields of
    [input.model_dump()]. *)
Definition new_limit (input : LimitCreate.t num) : Limit.t num :=
  {| Limit.id := "limit_settings";
     Limit.weekly_limit := LimitCreate.weekly_limit input;
     Limit.monthly_limit := LimitCreate.monthly_limit input |}.

(** Whether the collection written has the unique index on [id] that
    [startup_db_client] creates; it logs a failure to create one and goes on
    without. *)
Variable indexed : bool.

Definition create_expense (uuid4 : string) (now : datetime)
    (object_id : value num) (input : ExpenseCreate num) (db : database num)
  : database num * written (Expense.t num) :=
  let expense_obj := new_expense uuid4 now input in
  let doc := Expense.model_dump expense_obj in
  match parse_timestamp doc with
  | Raise e => (db, Raised e)
  | Ok doc =>
      match insert_one indexed object_id uuid4 doc (expenses db) with
      | None => (db, DuplicateKeyError)
      | Some coll =>
          ({| expenses := coll; debts := debts db; limits := limits db |},
           Written expense_obj)
      end
  end.

Definition delete_expense (expense_id : string) (db : database num)
  : database num * result doc :=
  let '(coll, deleted_count) := delete_one expense_id (expenses db) in
  let db' := {| expenses := coll; debts := debts db; limits := limits db |} in
  if deleted_count =? 0 then
    (db', Raise (HTTPException 404 "Expense not found"))
  else (db', Ok {["message" := VStr "Expense deleted successfully"]}).

Definition create_debt (uuid4 : string) (now : datetime)
    (object_id : value num) (input : DebtCreate.t num) (db : database num)
  : database num * written (Debt.t num) :=
  let debt_obj := new_debt uuid4 now input in
  let doc := Debt.model_dump debt_obj in
  match parse_timestamp doc with
  | Raise e => (db, Raised e)
  | Ok doc =>
      match insert_one indexed object_id uuid4 doc (debts db) with
      | None => (db, DuplicateKeyError)
      | Some coll =>
          ({| expenses := expenses db; debts := coll; limits := limits db |},
           Written debt_obj)
      end
  end.

Definition get_debts (db : database num) : result (list doc) :=
  let docs := to_list 10000 (find QAll (debts db)) in
  do docs <- for_each parse_timestamp docs;;
  sort_reverse (λ x, Ok (default (VStr "") (x !! "date"))) docs.

Definition delete_debt (debt_id : string) (db : database num)
  : database num * result doc :=
  let '(coll, deleted_count) := delete_one debt_id (debts db) in
  let db' := {| expenses := expenses db; debts := coll; limits := limits db |} in
  if deleted_count =? 0 then
    (db', Raise (HTTPException 404 "Debt not found"))
  else (db', Ok {["message" := VStr "Debt deleted successfully"]}).

Definition create_or_update_limit (object_id : value num)
    (input : LimitCreate.t num) (db : database num)
  : database num * Limit.t num :=
  let limit_obj := new_limit input in
  let doc := Limit.model_dump limit_obj in
  let coll := update_one object_id "limit_settings" doc (limits db) in
  ({| expenses := expenses db; debts := debts db; limits := coll |},
   limit_obj).

(** [get_limit] returns the stored record as the [dict] it is read as, and a
    [Limit] of zeros when there is none. *)
Inductive limit_response : Type :=
  | LimitModel (l : Limit.t num)
  | LimitDict (d : doc).

Definition get_limit (db : database num) : limit_response :=
  let limit := find_one "limit_settings" (limits db) in
  if falsy limit then
    LimitModel {| Limit.id := "limit_settings";
                  Limit.weekly_limit := of_int 0;
                  Limit.monthly_limit := of_int 0 |}
  else LimitDict (default ∅ limit).

(** The origins handed to the CORS middleware, from the environment. *)
Definition CORS_ORIGINS (environ : gmap string string) : list string :=
  let CORS_ORIGINS_STR := default "*" (environ !! "CORS_ORIGINS") in
  if String.eqb (strip CORS_ORIGINS_STR) "*"
     || String.eqb (strip CORS_ORIGINS_STR) ""
  then ["*"]
  else
    strip <$> List.filter (λ o, nonempty (strip o))
                (str_split "," CORS_ORIGINS_STR).
End Routes.
End Server.

(** ** [src/backend/server.py] *)

Module Backend.
Section Routes.
Context {num : Type} `{Number num}.
Variable fromisoformat : string → result Z.

Abbreviation doc := (gmap string (value num)).

(** [if isinstance(expense['timestamp'], str):
       expense['timestamp'] = datetime.fromisoformat(expense['timestamp'])] *)
Definition parse_timestamp (d : doc) : result doc :=
  do ts <- getitem d "timestamp";;
  match ts with
  | VStr s => do t <- fromisoformat s;; Ok (<["timestamp" := VDatetime t]> d)
  | _ => Ok d
  end.

(** The start date of [get_expenses], [None] for an unknown filter. *)
Definition start_date (now : datetime) (f : string) : option datetime :=
  if String.eqb f "day" then Some (replace_midnight now)
  else if String.eqb f "week" then
    let start_date := minus_days now (weekday now) in
    Some (replace_midnight start_date)
  else if String.eqb f "month" then
    Some (replace_midnight (replace_day1 now))
  else None.

Definition expenses_query (now : datetime) (filter : option string) : date_query :=
  match filter with
  | None => QAll
  | Some f =>
      if String.eqb f "" then QAll
      else
        match start_date now f with
        | Some start_date => QGte (strftime_ymd start_date)
        | None => QAll
        end
  end.

Definition get_expenses (now : datetime) (filter : option string)
    (db : database num) : result (list doc) :=
  let query := expenses_query now filter in
  let expenses := to_list 10000 (find query (expenses db)) in
  do expenses <- Server.for_each parse_timestamp expenses;;
  sort_reverse (λ x, getitem x "date") expenses.

(** [e['date'] == today_date] and [e['date'] >= start]: the subscript
    raises [KeyError] on a document without the field. *)
Definition date_is (s : string) (e : doc) : result bool :=
  do v <- getitem e "date";; Ok (py_eq_str (Some v) s).

Definition date_from (s : string) (e : doc) : result bool :=
  do v <- getitem e "date";; py_ge_str v s.

Definition pending (debt_type : string) (d : doc) : result bool :=
  do t <- getitem d "debt_type";;
  if py_eq_str (Some t) debt_type then
    do s <- getitem d "status";; Ok (py_eq_str (Some s) "pending")
  else Ok false.

Definition get_summary (now : datetime) (db : database num)
  : result (Summary num) :=
  let today_date := strftime_ymd now in
  let week_start := minus_days now (weekday now) in
  let week_start_date := strftime_ymd week_start in
  let month_start := replace_day1 now in
  let month_start_date := strftime_ymd month_start in

  let all_expenses := to_list 10000 (find QAll (expenses db)) in

  do total_today <- py_sum (date_is today_date) all_expenses;;
  do total_week <- py_sum (date_from week_start_date) all_expenses;;
  do total_month <- py_sum (date_from month_start_date) all_expenses;;

  let limit := find_one "limit_settings" (limits db) in
  do limits <-
    (if falsy limit then Ok (VNum (of_int 0), VNum (of_int 0))
     else
       let limit := default ∅ limit in
       do weekly_limit <- getitem limit "weekly_limit";;
       do monthly_limit <- getitem limit "monthly_limit";;
       Ok (weekly_limit, monthly_limit));;
  let '(weekly_limit, monthly_limit) := limits in

  do weekly_limit <- as_num weekly_limit;;
  let remaining_week := sub weekly_limit total_week in
  do monthly_limit <- as_num monthly_limit;;
  let remaining_month := sub monthly_limit total_month in

  let weekly_warning :=
    if ltb (of_int 0) weekly_limit then
      let weekly_percent := mul (div total_week weekly_limit) (of_int 100) in
      if leb (of_int 100) weekly_percent then "red"
      else if leb (of_int 80) weekly_percent then "yellow"
      else "none"
    else "none" in

  let monthly_warning :=
    if ltb (of_int 0) monthly_limit then
      let monthly_percent := mul (div total_month monthly_limit) (of_int 100) in
      if leb (of_int 100) monthly_percent then "red"
      else if leb (of_int 80) monthly_percent then "yellow"
      else "none"
    else "none" in

  let all_debts := to_list 10000 (find QAll (debts db)) in
  do money_gave <- py_sum (pending "gave") all_debts;;
  do money_owe <- py_sum (pending "owe") all_debts;;

  Ok {| total_today := total_today;
        total_week := total_week;
        total_month := total_month;
        weekly_limit := weekly_limit;
        monthly_limit := monthly_limit;
        remaining_week := remaining_week;
        remaining_month := remaining_month;
        money_gave := money_gave;
        money_owe := money_owe;
        weekly_warning := weekly_warning;
        monthly_warning := monthly_warning |}.
(** What pydantic makes of a string given for a [float] field, and of a
    string and of a number given for a [datetime] field; [None] when it
    refuses them. *)
Variable float_of_str : string → option num.
Variable datetime_of_str : string → option Z.
Variable datetime_of_num : num → option Z.

(** The validation of one field of a model, by the type of the field. The
    [ValidationError] of a refused value is a [ValueError]. *)
Definition validate_str (v : option (value num)) : result string :=
  match v with
  | Some (VStr s) => Ok s
  | _ => Raise ValueError
  end.

Definition validate_float (v : option (value num)) : result num :=
  match v with
  | Some (VNum x) => Ok x
  | Some (VStr s) =>
      match float_of_str s with
      | Some x => Ok x
      | None => Raise ValueError
      end
  | _ => Raise ValueError
  end.

Definition validate_datetime (v : value num) : result Z :=
  match v with
  | VDatetime t => Ok t
  | VStr s =>
      match datetime_of_str s with
      | Some t => Ok t
      | None => Raise ValueError
      end
  | VNum x =>
      match datetime_of_num x with
      | Some t => Ok t
      | None => Raise ValueError
      end
  end.

(** A field with a default: the default stands in for an absent field. *)
Definition with_default {A : Type} (validate : value num → result A)
    (fallback : A) (v : option (value num)) : result A :=
  match v with
  | Some v => validate v
  | None => Ok fallback
  end.

(** The three models made of the fields of a stored document, as keyword
    arguments: a field the model does not have is ignored. *)
Definition validate_expense (uuid4 : string) (now : datetime) (kwargs : doc)
  : result (Expense.t num) :=
  do id <- with_default (λ v, validate_str (Some v)) uuid4 (kwargs !! "id");;
  do title <- validate_str (kwargs !! "title");;
  do amount <- validate_float (kwargs !! "amount");;
  do date <- validate_str (kwargs !! "date");;
  do category <- validate_str (kwargs !! "category");;
  do timestamp <-
    with_default validate_datetime (to_micros now) (kwargs !! "timestamp");;
  Ok {| Expense.id := id;
        Expense.title := title;
        Expense.amount := amount;
        Expense.date := date;
        Expense.category := category;
        Expense.timestamp := timestamp |}.

Definition validate_debt (uuid4 : string) (now : datetime) (kwargs : doc)
  : result (Debt.t num) :=
  do id <- with_default (λ v, validate_str (Some v)) uuid4 (kwargs !! "id");;
  do name <- validate_str (kwargs !! "name");;
  do amount <- validate_float (kwargs !! "amount");;
  do reason <- validate_str (kwargs !! "reason");;
  do date <- validate_str (kwargs !! "date");;
  do status <- validate_str (kwargs !! "status");;
  do debt_type <- validate_str (kwargs !! "debt_type");;
  do timestamp <-
    with_default validate_datetime (to_micros now) (kwargs !! "timestamp");;
  Ok {| Debt.id := id;
        Debt.name := name;
        Debt.amount := amount;
        Debt.reason := reason;
        Debt.date := date;
        Debt.status := status;
        Debt.debt_type := debt_type;
        Debt.timestamp := timestamp |}.

Definition validate_limit (limit : doc) : result (Limit.t num) :=
  do id <-
    with_default (λ v, validate_str (Some v)) "limit_settings" (limit !! "id");;
  do weekly_limit <- validate_float (limit !! "weekly_limit");;
  do monthly_limit <- validate_float (limit !! "monthly_limit");;
  Ok {| Limit.id := id;
        Limit.weekly_limit := weekly_limit;
        Limit.monthly_limit := monthly_limit |}.

(** The collections of this variant have no index on [id]; the timestamp is
    stored as its ISO string. *)
Definition create_expense (uuid4 : string) (now : datetime)
    (object_id : value num) (input : ExpenseCreate num) (db : database num)
  : database num * written (Expense.t num) :=
  let expense_obj := Server.new_expense uuid4 now input in
  let doc := Expense.model_dump expense_obj in
  let doc := <["timestamp" := VStr (isoformat now)]> doc in
  match insert_one false object_id uuid4 doc (expenses db) with
  | None => (db, DuplicateKeyError)
  | Some coll =>
      ({| expenses := coll; debts := debts db; limits := limits db |},
       Written expense_obj)
  end.

Definition update_expense (uuid4 : string) (now : datetime)
    (expense_id : string) (input : ExpenseCreate num) (db : database num)
  : database num * result (Expense.t num) :=
  let expense_dict := Server.model_dump input in
  let '(coll, result) :=
    find_one_and_update expense_id expense_dict (expenses db) in
  let db' := {| expenses := coll; debts := debts db; limits := limits db |} in
  match result with
  | None => (db', Raise (HTTPException 404 "Expense not found"))
  | Some result =>
      (db', do result <- parse_timestamp (delete "_id" result);;
            validate_expense uuid4 now result)
  end.

Definition delete_expense (expense_id : string) (db : database num)
  : database num * result doc :=
  let '(coll, deleted_count) := delete_one expense_id (expenses db) in
  let db' := {| expenses := coll; debts := debts db; limits := limits db |} in
  if deleted_count =? 0 then
    (db', Raise (HTTPException 404 "Expense not found"))
  else (db', Ok {["message" := VStr "Expense deleted successfully"]}).

Definition create_debt (uuid4 : string) (now : datetime)
    (object_id : value num) (input : DebtCreate.t num) (db : database num)
  : database num * written (Debt.t num) :=
  let debt_obj := Server.new_debt uuid4 now input in
  let doc := Debt.model_dump debt_obj in
  let doc := <["timestamp" := VStr (isoformat now)]> doc in
  match insert_one false object_id uuid4 doc (debts db) with
  | None => (db, DuplicateKeyError)
  | Some coll =>
      ({| expenses := expenses db; debts := coll; limits := limits db |},
       Written debt_obj)
  end.

Definition get_debts (db : database num) : result (list doc) :=
  let debts := to_list 10000 (find QAll (debts db)) in
  do debts <- Server.for_each parse_timestamp debts;;
  sort_reverse (λ x, getitem x "date") debts.

Definition update_debt (uuid4 : string) (now : datetime)
    (debt_id : string) (input : DebtUpdate) (db : database num)
  : database num * result (Debt.t num) :=
  let '(coll, result) :=
    find_one_and_update debt_id {["status" := VStr (status input)]}
      (debts db) in
  let db' := {| expenses := expenses db; debts := coll; limits := limits db |} in
  match result with
  | None => (db', Raise (HTTPException 404 "Debt not found"))
  | Some result =>
      (db', do result <- parse_timestamp (delete "_id" result);;
            validate_debt uuid4 now result)
  end.

Definition delete_debt (debt_id : string) (db : database num)
  : database num * result doc :=
  let '(coll, deleted_count) := delete_one debt_id (debts db) in
  let db' := {| expenses := expenses db; debts := coll; limits := limits db |} in
  if deleted_count =? 0 then
    (db', Raise (HTTPException 404 "Debt not found"))
  else (db', Ok {["message" := VStr "Debt deleted successfully"]}).

Definition create_or_update_limit (object_id : value num)
    (input : LimitCreate.t num) (db : database num)
  : database num * Limit.t num :=
  let limit_obj := Server.new_limit input in
  let doc := Limit.model_dump limit_obj in
  let coll := update_one object_id "limit_settings" doc (limits db) in
  ({| expenses := expenses db; debts := debts db; limits := coll |},
   limit_obj).

Definition get_limit (db : database num) : result (Limit.t num) :=
  let limit := find_one "limit_settings" (limits db) in
  if falsy limit then
    Ok {| Limit.id := "limit_settings";
          Limit.weekly_limit := of_int 0;
          Limit.monthly_limit := of_int 0 |}
  else validate_limit (default ∅ limit).

(** The origins handed to the CORS middleware, from the environment. *)
Definition CORS_ORIGINS (environ : gmap string string) : list string :=
  str_split "," (default "*" (environ !! "CORS_ORIGINS")).
End Routes.
End Backend.

(** ** What the summary is said to compute

    The sums of the specification, over a list of stored documents: a sum
    adds the amounts from zero in the order of the list. *)

Section Totals.
Context {num : Type} `{Number num}.

Abbreviation doc := (gmap string (value num)).

Definition amount_of (d : doc) : num :=
  match d !! "amount" with
  | Some (VNum x) => x
  | _ => of_int 0
  end.

Definition date_of (d : doc) : string :=
  match d !! "date" with
  | Some (VStr s) => s
  | _ => ""
  end.

Definition field_is (key s : string) (d : doc) : bool :=
  match d !! key with
  | Some (VStr s') => String.eqb s' s
  | _ => false
  end.

Definition sum_of (xs : list num) : num := fold_left add xs (of_int 0).

(** The sum of [amount] over the documents that satisfy [p]. *)
Definition total_where (p : doc → bool) (docs : list doc) : num :=
  sum_of (amount_of <$> List.filter p docs).

(** The three windows on the date string of an expense. *)
Definition on_day (day : string) (e : doc) : bool :=
  String.eqb (date_of e) day.

Definition since (start : string) (e : doc) : bool :=
  String.leb start (date_of e).

(** A pending debt of one direction. *)
Definition pending_debt (debt_type : string) (d : doc) : bool :=
  field_is "debt_type" debt_type d && field_is "status" "pending" d.

(** The Monday of the current week and the first day of the current month,
    as date strings. *)
Definition week_start_of (now : datetime) : string :=
  strftime_ymd (minus_days now (weekday now)).

Definition month_start_of (now : datetime) : string :=
  strftime_ymd (replace_day1 now).

(** The documents a stored expense, debt and limit record are made of, as
    far as the summary reads them. *)
Definition is_expense (d : doc) : bool :=
  match d !! "date", d !! "amount" with
  | Some (VStr _), Some (VNum _) => true
  | _, _ => false
  end.

Definition is_debt (d : doc) : bool :=
  match d !! "debt_type", d !! "status", d !! "amount" with
  | Some (VStr _), Some (VStr _), Some (VNum _) => true
  | _, _, _ => false
  end.

Definition is_limit (d : doc) : bool :=
  match d !! "weekly_limit", d !! "monthly_limit" with
  | Some (VNum _), Some (VNum _) => true
  | _, _ => false
  end.

(** The limit record of the store, if there is one. *)
Definition limit_record (db : database num) : option doc :=
  List.find (has_id "limit_settings") (limits db).

(** A store whose documents have the shape the routes write. *)
Definition stored_ok (db : database num) : bool :=
  forallb is_expense (expenses db) && forallb is_debt (debts db)
  && match limit_record db with
     | Some d => is_limit d
     | None => true
     end.

(** The limits of the store: those of the record, zero without one. *)
Definition limit_of (key : string) (db : database num) : num :=
  match limit_record db with
  | Some d => match d !! key with Some (VNum x) => x | _ => of_int 0 end
  | None => of_int 0
  end.

(** The cap of [to_list] on a collection. *)
Definition first_10000 (coll : list doc) : list doc :=
  take (Z.to_nat 10000) coll.

(** The store as [to_list] lets the summary see it. *)
Definition capped (db : database num) : database num :=
  {| expenses := first_10000 (expenses db);
     debts := first_10000 (debts db);
     limits := limits db |}.

(** The summary of a store of well-shaped documents, in the words of the
    specification, over the documents [to_list] returns. *)
Definition summary_of (now : datetime) (db : database num) : Summary num :=
  let es := first_10000 (expenses db) in
  let ds := first_10000 (debts db) in
  let week := total_where (since (week_start_of now)) es in
  let month := total_where (since (month_start_of now)) es in
  let weekly := limit_of "weekly_limit" db in
  let monthly := limit_of "monthly_limit" db in
  {| total_today := total_where (on_day (strftime_ymd now)) es;
     total_week := week;
     total_month := month;
     weekly_limit := weekly;
     monthly_limit := monthly;
     remaining_week := sub weekly week;
     remaining_month := sub monthly month;
     money_gave := total_where (pending_debt "gave") ds;
     money_owe := total_where (pending_debt "owe") ds;
     weekly_warning := warning week weekly;
     monthly_warning := warning month monthly |}.

(** A date string of the current calendar month. *)
Definition in_current_month (now : datetime) (s : string) : bool :=
  existsb
    (λ dd, String.eqb s (strftime_ymd (with_date now (year now) (month now) dd)))
    (seqZ 1 (days_in_month (year now) (month now))).

(** An expense with a non-negative amount. *)
Definition non_negative (e : doc) : bool := leb (of_int 0) (amount_of e).

(** An expense whose date matches one of the three windows, and one whose
    date, when it matches, lies in the current calendar month. *)
Definition matching (now : datetime) (e : doc) : bool :=
  on_day (strftime_ymd now) e || since (week_start_of now) e
  || since (month_start_of now) e.

Definition within_month (now : datetime) (e : doc) : bool :=
  implb (matching now e) (in_current_month now (date_of e)).

(** Every debt of the store marked as paid. *)
Definition mark_paid (d : doc) : doc := <["status" := VStr "paid"]> d.

Definition all_paid (db : database num) : database num :=
  {| expenses := expenses db;
     debts := mark_paid <$> debts db;
     limits := limits db |}.

(** The fields of a summary that are computed from its other fields. *)
Definition derived (s : Summary num) : Prop :=
  remaining_week s = sub (weekly_limit s) (total_week s)
  ∧ remaining_month s = sub (monthly_limit s) (total_month s)
  ∧ weekly_warning s = warning (total_week s) (weekly_limit s)
  ∧ monthly_warning s = warning (total_month s) (monthly_limit s).

(** A date string of the fixed-width form [YYYY-MM-DD]. *)
Definition is_digit (c : ascii) : bool :=
  (48 <=? N_of_ascii c)%N && (N_of_ascii c <=? 57)%N.

Definition is_iso_date (s : string) : bool :=
  match s with
  | String y1 (String y2 (String y3 (String y4 (String h1
      (String m1 (String m2 (String h2 (String d1 (String d2 EmptyString))))))))) =>
      is_digit y1 && is_digit y2 && is_digit y3 && is_digit y4
      && Ascii.eqb h1 "-" && is_digit m1 && is_digit m2
      && Ascii.eqb h2 "-" && is_digit d1 && is_digit d2
  | _ => false
  end.
End Totals.

(** ** What the listings are said to return *)

Section Listings.
Context {num : Type} `{Number num}.
Variable fromisoformat : string → result Z.

Abbreviation doc := (gmap string (value num)).

(** A document whose [date] is a string, and one whose [date] is a string or
    is absent. *)
Definition has_date (d : doc) : bool :=
  match d !! "date" with
  | Some (VStr _) => true
  | _ => false
  end.

Definition date_or_none (d : doc) : bool :=
  match d !! "date" with
  | Some (VStr _) | None => true
  | Some _ => false
  end.

(** A document whose [timestamp], when it is a string, is one
    [fromisoformat] reads, and one that has a [timestamp] besides. *)
Definition readable (d : doc) : bool :=
  match d !! "timestamp" with
  | Some (VStr s) =>
      match fromisoformat s with
      | Ok _ => true
      | Raise _ => false
      end
  | _ => true
  end.

Definition has_timestamp (d : doc) : bool :=
  match d !! "timestamp" with
  | Some _ => true
  | None => false
  end.

(** The documents each variant lists without an exception: [src/server.py]
    reads a date and a timestamp that may be absent, [src/backend/server.py]
    subscripts both. *)
Definition server_listable (d : doc) : bool := date_or_none d && readable d.

Definition backend_listable (d : doc) : bool :=
  has_date d && has_timestamp d && readable d.

(** The stored document as a listing shows it: without its [_id], a
    [timestamp] string read as the instant it denotes. *)
Definition shown (d : doc) : doc :=
  match d !! "timestamp" with
  | Some (VStr s) =>
      match fromisoformat s with
      | Ok t => <["timestamp" := VDatetime t]> (without_id d)
      | Raise _ => without_id d
      end
  | _ => without_id d
  end.

(** The expenses a filter of [get_expenses] asks for, as a test on the date
    string of an expense: the expenses of today, those since the Monday of
    the week, those since the first day of the month; every expense under
    another filter and without one. In [src/backend/server.py] the filter
    "day" asks for the expenses since today. *)
Definition window (now : datetime) (filter : option string) (e : doc) : bool :=
  match filter with
  | None => true
  | Some f =>
      if String.eqb f "day" then on_day (strftime_ymd now) e
      else if String.eqb f "week" then since (week_start_of now) e
      else if String.eqb f "month" then since (month_start_of now) e
      else true
  end.

Definition backend_window (now : datetime) (filter : option string) (e : doc)
  : bool :=
  match filter with
  | None => true
  | Some f =>
      if String.eqb f "day" then since (strftime_ymd now) e
      else if String.eqb f "week" then since (week_start_of now) e
      else if String.eqb f "month" then since (month_start_of now) e
      else true
  end.

(** The documents a listing is made of: the first 10000 of the stored
    documents that pass the test, as they are shown. *)
Definition listed (w : doc → bool) (coll : list doc) : list doc :=
  shown <$> first_10000 (List.filter w coll).

(** A list of documents in the order of their date strings, the latest
    first. *)
Definition newest_first (l : list doc) : Prop :=
  StronglySorted (λ a b, String.leb (date_of b) (date_of a) = true) l.

(** Two lists that hold the documents of each date in the same order. *)
Definition same_order_by_date (l l' : list doc) : Prop :=
  ∀ s, List.filter (on_day s) l = List.filter (on_day s) l'.

(** The pairs [list.sort] works on, a document with its key, when the key
    is a string; and the order of two documents by their keys, the larger
    key first. *)
Definition paired (key : doc → string) (p : value num * doc) : Prop :=
  p.1 = VStr (key p.2).

Definition not_after (key : doc → string) (a b : doc) : Prop :=
  String.leb (key b) (key a) = true.

(** No document of the collection has this id. *)
Definition fresh (key : string) (coll : list doc) : bool :=
  negb (existsb (has_id key) coll).
End Listings.

(** ** What the writes are said to leave in the store *)

Section Writes.
Context {num : Type} `{Number num}.

Abbreviation doc := (gmap string (value num)).

(** An instant with the precision a stored [datetime] has. *)
Definition cut_to_millis (t : Z) : Z := t - t mod 1000.

(** The document [create_expense] and [create_debt] of [src/server.py]
    leave in the store, but for its [_id]. *)
Definition stored_expense (e : Expense.t num) : doc :=
  <["timestamp" := VDatetime (cut_to_millis (Expense.timestamp e))]>
    (Expense.model_dump e).

Definition stored_debt (d : Debt.t num) : doc :=
  <["timestamp" := VDatetime (cut_to_millis (Debt.timestamp d))]>
    (Debt.model_dump d).

(** The store with other expenses, other debts, other limit records. *)
Definition with_expenses (coll : list doc) (db : database num)
  : database num :=
  {| expenses := coll; debts := debts db; limits := limits db |}.

Definition with_debts (coll : list doc) (db : database num) : database num :=
  {| expenses := expenses db; debts := coll; limits := limits db |}.

Definition with_limits (coll : list doc) (db : database num) : database num :=
  {| expenses := expenses db; debts := debts db; limits := coll |}.
End Writes.

(** * Accounts and tokens: [src/backend/auth.py]

    The router of [auth.py] keeps its users in a collection of their own and
    hands out signed tokens. The password hashing of [passlib], the token
    codec of [jose] and the clock are outside the module; they are the
    variables of the section. *)
Module Auth.

(** The values of a user document and of the claims of a token. *)
Inductive field : Type :=
  | Null
  | Str (s : string)
  | Int (i : Z)
  | Time (t : Z)
  | ObjectId (oid : string).

#[global] Instance field_eq_dec : EqDecision field.
Proof. solve_decision. Defined.

Definition document : Type := gmap string field.

(** The exceptions of the module. [JWTError] stands for the class with its
    subclasses, [OtherError] for what a library raises besides. *)
Inductive error : Type :=
  | HTTPException (status_code : Z) (detail : string)
      (headers : list (string * string))
  | JWTError
  | KeyError (key : string)
  | OverflowError
  | RuntimeError (message : string)
  | AttributeError (name : string)
  | OtherError (name : string).

Inductive outcome (A : Type) : Type :=
  | Returns (a : A)
  | Raises (e : error).
Arguments Returns {A} a.
Arguments Raises {A} e.

Definition and_then {A B : Type} (m : outcome A) (f : A → outcome B)
  : outcome B :=
  match m with
  | Returns a => f a
  | Raises e => Raises e
  end.

Notation "'try' x <- m ;; k" := (and_then m (λ x, k))
  (at level 10, x name, m at level 99, k at level 200,
   format "'[v' 'try'  x  <-  m ;;  '/' k ']'").

Record UserIn : Type := {
  email : string;
  password : string;
  full_name : option string
}.

Record Token : Type := {
  access_token : string;
  token_type : string;
  expires_in : Z
}.

(** An [Optional[str]] as a value. *)
Definition optional (s : option string) : field :=
  match s with
  | Some s => Str s
  | None => Null
  end.

(** ** Dates and durations

    An instant is counted in microseconds from the first instant of the
    calendar, a [timedelta] in microseconds. *)

(** [datetime.max] *)
Definition datetime_max : Z := 315537897599999999.

(** [timedelta(minutes=m)]: the days of a [timedelta] are at most
    999999999 in magnitude. *)
Definition timedelta_minutes (m : Z) : outcome Z :=
  let us := m * 60000000 in
  let days := us / 86400000000 in
  if (-999999999 <=? days) && (days <=? 999999999) then Returns us
  else Raises OverflowError.

(** [t + delta] on a [datetime]. *)
Definition plus (t delta : Z) : outcome Z :=
  if (0 <=? t + delta) && (t + delta <=? datetime_max)
  then Returns (t + delta)
  else Raises OverflowError.

(** ** The collection of users *)

(** The filter [{"email": v}]: a query for [None] matches a document
    without the field as well. *)
Definition has_email (v : field) (d : document) : bool :=
  match d !! "email" with
  | Some w => bool_decide (w = v)
  | None => bool_decide (v = Null)
  end.

(** [users_col.find_one({"email": v})] *)
Definition find_one (v : field) (users : list document) : option document :=
  List.find (has_email v) users.

(** The projection [{"password": 0}]. *)
Definition without_password (d : document) : document := delete "password" d.

(** [users_col.insert_one(doc)]: the driver adds an [_id] of its own and the
    document comes last in the natural order. *)
Definition insert_one (object_id : string) (d : document)
    (users : list document) : list document :=
  (users ++ [<["_id" := ObjectId object_id]> d])%list.

(** The truth value of the result of [find_one]: [None] and the empty
    [dict] are falsy. *)
Definition truthy (d : option document) : bool :=
  match d with
  | None => false
  | Some d => negb (bool_decide (d = ∅))
  end.

(** [d[key]] *)
Definition subscript (d : document) (key : string) : outcome field :=
  match d !! key with
  | Some v => Returns v
  | None => Raises (KeyError key)
  end.

(** [get_db]: the database that the application of the request carries in
    its state, if it carries one; [request] is the state of that
    application when a request is given. *)
Definition get_db (request : option (option (list document)))
  : outcome (list document) :=
  match request with
  | Some (Some db) => Returns db
  | Some None => Raises (AttributeError "db")
  | None => Raises (RuntimeError "DB not found")
  end.

Section Routes.
(** The settings read from the environment. *)
Variable SECRET_KEY : string.
Variable ALGORITHM : string.
Variable ACCESS_TOKEN_EXPIRE_MINUTES : Z.

(** [pwd_context.hash] with the salt it draws, and [pwd_context.verify]
    of a password against what the document holds as its hash. *)
Variable pwd_hash : string → string → outcome string.
Variable pwd_verify : string → field → outcome bool.

(** [jwt.encode(claims, key, algorithm)], and [jwt.decode(token, key,
    algorithms)] at an instant of the clock. *)
Variable jwt_encode : document → string → string → outcome string.
Variable jwt_decode : Z → string → string → list string → outcome document.

(** [int(d.total_seconds())] of a [timedelta] of that many microseconds. *)
Variable whole_seconds : Z → Z.

Definition verify_password (plain_password : string)
    (hashed_password : field) : outcome bool :=
  pwd_verify plain_password hashed_password.

Definition get_password_hash (salt password : string) : outcome string :=
  pwd_hash salt password.

(** [create_access_token(data, expires_delta)]. The clock is read twice,
    [utcnow] for the expiry and [utcnow'] for the seconds left. A
    [timedelta] of zero is falsy, as [None] is. *)
Definition create_access_token (data : document)
    (expires_delta : option Z) (utcnow utcnow' : Z)
  : outcome (string * Z) :=
  let to_encode := data in
  try expire <-
    match expires_delta with
    | Some delta =>
        if delta =? 0 then
          try default_delta <- timedelta_minutes ACCESS_TOKEN_EXPIRE_MINUTES;;
          plus utcnow default_delta
        else plus utcnow delta
    | None =>
        try default_delta <- timedelta_minutes ACCESS_TOKEN_EXPIRE_MINUTES;;
        plus utcnow default_delta
    end;;
  let to_encode := <["exp" := Time expire]> to_encode in
  try encoded_jwt <- jwt_encode to_encode SECRET_KEY ALGORITHM;;
  Returns (encoded_jwt, whole_seconds (expire - utcnow')).

(** [register]: the answer and the collection after the call. *)
Definition register (user : UserIn) (salt object_id : string)
    (users_col : list document) : outcome (document * list document) :=
  let existing := find_one (Str (email user)) users_col in
  if truthy existing then
    Raises (HTTPException 400 "Email already registered" [])
  else
    try hashed <- get_password_hash salt (password user);;
    let doc : document :=
      {[ "email" := Str (email user);
         "password" := Str hashed;
         "full_name" := optional (full_name user) ]} in
    let users_col := insert_one object_id doc users_col in
    Returns ({[ "email" := Str (email user);
                "full_name" := optional (full_name user) ]}, users_col).

(** [login] with the two fields of the form. *)
Definition login (username password : string) (utcnow utcnow' : Z)
    (users_col : list document) : outcome Token :=
  let user_doc := find_one (Str username) users_col in
  if negb (truthy user_doc) then
    Raises (HTTPException 400 "Incorrect username or password" [])
  else
    let user_doc := default ∅ user_doc in
    try verified <-
      verify_password password (default Null (user_doc !! "password"));;
    if negb verified then
      Raises (HTTPException 400 "Incorrect username or password" [])
    else
      try sub <- subscript user_doc "email";;
      let token_payload : document := {[ "sub" := sub ]} in
      try expires_delta <- timedelta_minutes ACCESS_TOKEN_EXPIRE_MINUTES;;
      try created <-
        create_access_token token_payload (Some expires_delta)
          utcnow utcnow';;
      Returns {| access_token := fst created;
                 token_type := "bearer";
                 expires_in := snd created |}.

Definition credentials_exception : error :=
  HTTPException 401 "Could not validate credentials"
    [("WWW-Authenticate", "Bearer")].

(** [get_current_user]: only a [JWTError] of the decoding is turned into
    the 401. *)
Definition get_current_user (token : string) (utcnow : Z)
    (users : list document) : outcome document :=
  try email <-
    match jwt_decode utcnow token SECRET_KEY [ALGORITHM] with
    | Returns payload =>
        let email := default Null (payload !! "sub") in
        if bool_decide (email = Null) then Raises credentials_exception
        else Returns email
    | Raises JWTError => Raises credentials_exception
    | Raises e => Raises e
    end;;
  let user_doc := without_password <$> find_one email users in
  match user_doc with
  | None => Raises credentials_exception
  | Some user_doc => Returns user_doc
  end.
End Routes.

(** ** What the properties of the accounts speak of *)

(** The users registered under an address. *)
Definition registered (e : string) (users : list document) : list document :=
  List.filter (has_email (Str e)) users.

(** No address is registered twice. *)
Definition one_account_each (users : list document) : Prop :=
  ∀ e, (length (registered e users) ≤ 1)%nat.

(** The document [register] stores for a user. *)
Definition account (user : UserIn) (hashed object_id : string) : document :=
  {[ "_id" := ObjectId object_id;
     "email" := Str (email user);
     "password" := Str hashed;
     "full_name" := optional (full_name user) ]}.

(** What [register] answers. *)
Definition user_out (user : UserIn) : document :=
  {[ "email" := Str (email user);
     "full_name" := optional (full_name user) ]}.

(** The error of [login] *)
Definition incorrect : error :=
  HTTPException 400 "Incorrect username or password" [].
End Auth.

(** * The test script: [src/tests/backend_test.py]

    The script sends its requests to a server over HTTP and reads the
    answers. Here it runs against the routes themselves: a request is the
    call of its route, served with what the server draws for it, and it has
    succeeded when the route has returned. *)
Module BackendTest.

(** The routes the script writes through and the summary it reads. *)
Record server : Type := {
  create_expense :
    string → datetime → value float → ExpenseCreate float →
    database float → database float * written (Expense.t float);
  create_debt :
    string → datetime → value float → DebtCreate.t float →
    database float → database float * written (Debt.t float);
  update_debt :
    string → datetime → string → DebtUpdate →
    database float → database float * bool;
  create_or_update_limit :
    value float → LimitCreate.t float →
    database float → database float * Limit.t float;
  get_summary : datetime → database float → result (Summary float)
}.

(** What the server draws to serve a request: a reading of its clock, a
    [uuid4] and the [_id] of the driver. *)
Record drawn : Type := {
  clock : datetime;
  uuid4 : string;
  object_id : value float
}.

(** A run of [main] up to the summary of its 80% check: the two readings
    of the script's own clock, what the server draws for each request that
    writes, and the server's clock at that summary. *)
Record run : Type := {
  started : datetime;
  started_again : datetime;
  expense1 : drawn;
  expense2 : drawn;
  expense3 : drawn;
  debt1 : drawn;
  debt2 : drawn;
  debt1_paid : drawn;
  limit_500 : value float;
  limit_100 : value float;
  test_expense1 : drawn;
  test_expense2 : drawn;
  summary_second : datetime
}.

Section Tester.
Variable api : server.

(** The methods of [MoneyBalancerAPITester]: the store after the request
    and what the method returns. *)
Definition test_create_expense (d : drawn) (title : string) (amount : float)
    (date category : string) (db : database float)
  : database float * option string :=
  let '(db, response) :=
    create_expense api (uuid4 d) (clock d) (object_id d)
      {| title := title; amount := amount; date := date;
         category := category |} db in
  (db, match response with
       | Written expense => Some (Expense.id expense)
       | _ => None
       end).

Definition test_create_debt (d : drawn) (name : string) (amount : float)
    (reason date debt_type : string) (db : database float)
  : database float * option string :=
  let '(db, response) :=
    create_debt api (uuid4 d) (clock d) (object_id d)
      {| DebtCreate.name := name; DebtCreate.amount := amount;
         DebtCreate.reason := reason; DebtCreate.date := date;
         DebtCreate.status := "pending";
         DebtCreate.debt_type := debt_type |} db in
  (db, match response with
       | Written debt => Some (Debt.id debt)
       | _ => None
       end).

Definition test_update_debt_status (d : drawn) (debt_id status : string)
    (db : database float) : database float * bool :=
  update_debt api (uuid4 d) (clock d) debt_id {| status := status |} db.

Definition test_create_or_update_limit (object_id : value float)
    (weekly_limit monthly_limit : float) (db : database float)
  : database float :=
  (create_or_update_limit api object_id
     {| LimitCreate.weekly_limit := weekly_limit;
        LimitCreate.monthly_limit := monthly_limit |} db).1.

(** [test_get_summary]: the summary when the request has succeeded. *)
Definition test_get_summary (now : datetime) (db : database float)
  : option (Summary float) :=
  match get_summary api now db with
  | Ok summary => Some summary
  | Raise _ => None
  end.

(** The requests of [main] that write, in its order, up to the summary of
    suite 5 that is read for the 80% check; the requests that only read
    lie between them and leave the store as it is. [today] and [week_ago]
    are the two dates the script computes when it starts, the second one
    for a start after the first week of the calendar. *)
Definition today (r : run) : string := strftime_ymd (started r).

Definition week_ago (r : run) : string :=
  strftime_ymd (minus_days (started_again r) 7).

Definition suites_1_to_3 (r : run) (db : database float) : database float :=
  let '(db, expense1_id) :=
    test_create_expense (expense1 r) "Grocery Shopping" 50%float (today r)
      "Food" db in
  let '(db, expense2_id) :=
    test_create_expense (expense2 r) "Uber Ride" 15.5%float (today r)
      "Travel" db in
  let '(db, expense3_id) :=
    test_create_expense (expense3 r) "Netflix Subscription" 12.99%float
      (week_ago r) "Entertainment" db in
  let '(db, debt1_id) :=
    test_create_debt (debt1 r) "John Doe" 100%float "Lunch money" (today r)
      "gave" db in
  let '(db, debt2_id) :=
    test_create_debt (debt2 r) "Jane Smith" 50%float "Movie tickets"
      (today r) "owe" db in
  let db :=
    match debt1_id with
    | Some debt1_id =>
        if nonempty debt1_id then
          (test_update_debt_status (debt1_paid r) debt1_id "paid" db).1
        else db
    | None => db
    end in
  test_create_or_update_limit (limit_500 r) 500%float 2000%float db.

(** Suite 4: the script's own count of the warning from a summary it has
    read, [Some true] for the line that reports it correct, [Some false] for
    the line that reports it incorrect, [None] when the weekly limit is not
    above zero and nothing is checked. *)
Definition warning_check (summary : Summary float) : option bool :=
  let weekly_limit := weekly_limit summary in
  let total_week := total_week summary in
  if ltb (of_int 0) weekly_limit then
    let percent := mul (div total_week weekly_limit) (of_int 100) in
    let expected_warning :=
      if leb (of_int 100) percent then "red"
      else if leb (of_int 80) percent then "yellow"
      else "none" in
    let actual_warning := weekly_warning summary in
    Some (String.eqb expected_warning actual_warning)
  else None.

(** Suite 5: the low limit, two expenses and the summary read for the 80%
    check. *)
Definition before_summary_80 (r : run) (db : database float)
  : database float :=
  let db := suites_1_to_3 r db in
  let db :=
    test_create_or_update_limit (limit_100 r) 100%float 500%float db in
  let '(db, _) :=
    test_create_expense (test_expense1 r) "Test Expense 1" 40%float (today r)
      "Other" db in
  let '(db, _) :=
    test_create_expense (test_expense2 r) "Test Expense 2" 40%float (today r)
      "Other" db in
  db.

Definition summary_80 (r : run) (db : database float)
  : option (Summary float) :=
  test_get_summary (summary_second r) (before_summary_80 r db).

(** What the check of the 80% summary prints: [Some true] for the line
    that reports the yellow warning as expected, [Some false] for the other
    line, [None] when the summary request has failed. *)
Definition yellow_check (r : run) (db : database float) : option bool :=
  (λ summary, String.eqb (weekly_warning summary) "yellow")
  <$> summary_80 r db.
End Tester.

(** The two servers of the repository behind the requests of the
    script. *)
Section Servers.
Variable fromisoformat : string → result Z.
Variable indexed : bool.
Variable float_of_str : string → option float.
Variable datetime_of_str : string → option Z.
Variable datetime_of_num : float → option Z.

Definition returned {A : Type} (answer : result A) : bool :=
  match answer with
  | Ok _ => true
  | Raise _ => false
  end.

Definition the_server : server :=
  {| create_expense := Server.create_expense fromisoformat indexed;
     create_debt := Server.create_debt fromisoformat indexed;
     update_debt := λ _ _ debt_id input db,
       let '(db, answer) :=
         Server.update_debt fromisoformat debt_id input db in
       (db, returned answer);
     create_or_update_limit := Server.create_or_update_limit;
     get_summary := Server.get_summary |}.

Definition the_backend : server :=
  {| create_expense := Backend.create_expense;
     create_debt := Backend.create_debt;
     update_debt := λ uuid4 now debt_id input db,
       let '(db, answer) :=
         Backend.update_debt fromisoformat float_of_str datetime_of_str
           datetime_of_num uuid4 now debt_id input db in
       (db, returned answer);
     create_or_update_limit := Backend.create_or_update_limit;
     get_summary := Backend.get_summary |}.
End Servers.

(** What the run of the script relies on in its server: a new expense is
    appended with the date and the amount of the request, debts stay
    debts, the limits are set in the one record, and the summary of a
    well-shaped store is returned. *)
Definition serves (api : server) : Prop :=
  (∀ u t oid input db,
     fresh u (expenses db) = true →
     ∃ e, (create_expense api u t oid input db).1
          = with_expenses (expenses db ++ [e])%list db
        ∧ date_of e = date input ∧ amount_of e = amount input
        ∧ is_expense e = true ∧ has_id u e = true)
  ∧ (∀ u t oid input db,
       ∃ ds, (create_debt api u t oid input db).1 = with_debts ds db
           ∧ (forallb is_debt (debts db) = true → forallb is_debt ds = true))
  ∧ (∀ u t debt_id input db,
       ∃ ds, (update_debt api u t debt_id input db).1 = with_debts ds db
           ∧ (forallb is_debt (debts db) = true → forallb is_debt ds = true))
  ∧ (∀ oid input db,
       (create_or_update_limit api oid input db).1
       = with_limits
           (update_one oid "limit_settings"
              (Limit.model_dump (Server.new_limit input)) (limits db)) db)
  ∧ (∀ now db,
       stored_ok db = true → get_summary api now db = Ok (summary_of now db)).

(** The days of a run that fall in the week of the summary: the script's
    today is on or after the Monday of the server's week, its day a week
    ago before that Monday. *)
Definition in_the_week (r : run) : Prop :=
  let now := summary_second r in
  let monday := toordinal now - weekday now in
  valid_date now ∧ valid_date (started r) ∧ valid_date (started_again r)
  ∧ 7 < toordinal (started_again r)
  ∧ monday ≤ toordinal (started r)
  ∧ toordinal (started_again r) - 7 < monday.

(** An expense stored with a date and an amount. *)
Definition booked (date : string) (amount : float)
    (e : gmap string (value float)) : Prop :=
  date_of e = date ∧ amount_of e = amount ∧ is_expense e = true.

(** The ids drawn for the five expenses are new to the store and differ
    from each other. *)
Definition new_ids (r : run) (db : database float) : Prop :=
  let ids := uuid4 <$> [expense1 r; expense2 r; expense3 r;
                        test_expense1 r; test_expense2 r] in
  NoDup ids ∧ Forall (λ u, fresh u (expenses db) = true) ids.
End BackendTest.

(** ** Rounding in binary64

    The specification of IEEE addition ([SpecFloat]) reads on non-negative
    numbers as an addition of integers followed by a rounding to 53 bits;
    these are the integers and the rounding. *)

(** The record [mrs] of a right shift of [v] by [k] bits: the quotient, the
    round bit (the bits shifted out are at least half) and the sticky bit
    (they are neither nothing nor exactly half). *)
Definition shifted (v k : Z) (mrs : shr_record) : Prop :=
  shr_m mrs = v / 2 ^ k
  ∧ (shr_r mrs = true ↔ 2 ^ k ≤ 2 * (v mod 2 ^ k))
  ∧ (shr_s mrs = true ↔ v mod 2 ^ k ≠ 0 ∧ 2 * (v mod 2 ^ k) ≠ 2 ^ k).

(** Rounding to nearest, ties to even, of [q + rem / p]: one more when the
    remainder is above half, or is half and [q] is odd. *)
Definition round_up (q rem p : Z) : Z :=
  if (p <? 2 * rem) || ((p =? 2 * rem) && Z.odd q) then 1 else 0.

(** [v / 2 ^ k] rounded to nearest, ties to even. *)
Definition round_at (v k : Z) : Z :=
  v / 2 ^ k + round_up (v / 2 ^ k) (v mod 2 ^ k) (2 ^ k).

(** The number of bits dropped to keep 53. *)
Definition shift_of (v : Z) : Z := Z.max (Z.log2 v + 1 - 53) 0.

(** Rounding of a non-negative integer to 53 significant bits, to nearest
    and ties to even, saturated at [2 ^ 2098]. *)
Definition round53 (v : Z) : Z :=
  Z.min (round_at v (shift_of v) * 2 ^ shift_of v) (2 ^ 2098).

(** The number of mantissa [q] and exponent [F], the infinity when the
    exponent is beyond the format. *)
Definition finite_or_inf (q F : Z) : spec_float :=
  if F <=? 971 then S754_finite false (Z.to_pos q) F else S754_infinity false.

(** The exponent the number [m * 2 ^ e] is rounded at. *)
Definition target (m : positive) (e : Z) : Z :=
  Z.max (Z.log2 (Zpos m) + 1 + e - 53) (-1074).

(** The order of the non-negative numbers of the format, as integers: the
    multiple of [2 ^ -1074] a finite number is, and [2 ^ 2098] for the
    infinity. *)
Definition rank (x : spec_float) : Z :=
  match x with
  | S754_zero _ => 0
  | S754_finite false m e => Zpos m * 2 ^ (e + 1074)
  | S754_infinity false => 2 ^ 2098
  | _ => -1
  end.

(** Neither negative nor NaN. *)
Definition nonneg (x : spec_float) : bool :=
  match x with
  | S754_zero _ => true
  | S754_finite s _ _ => negb s
  | S754_infinity s => negb s
  | S754_nan => false
  end.

(** The numbers of the format that have a rank. *)
Definition ranked (x : spec_float) : Prop :=
  valid_binary x = true ∧ nonneg x = true.

(** ** Sample stores

    Documents as the routes write them and an instant: Thursday 2024-06-20,
    13:05 UTC. *)

Module Samples.
Definition thursday : datetime :=
  {| year := 2024; month := 6; day := 20;
     hour := 13; minute := 5; second := 0; microsecond := 0 |}.

Definition expense {num : Type} (id date : string) (amount : num)
  : gmap string (value num) :=
  {[ "id" := VStr id; "title" := VStr "lunch"; "amount" := VNum amount;
     "date" := VStr date; "category" := VStr "food";
     "timestamp" := VDatetime 0 ]}.

Definition debt {num : Type} (id debt_type status : string) (amount : num)
  : gmap string (value num) :=
  {[ "id" := VStr id; "name" := VStr "Asha"; "amount" := VNum amount;
     "reason" := VStr "rent"; "date" := VStr "2024-06-01";
     "status" := VStr status; "debt_type" := VStr debt_type;
     "timestamp" := VDatetime 0 ]}.

Definition limit {num : Type} (weekly monthly : num)
  : gmap string (value num) :=
  {[ "id" := VStr "limit_settings"; "weekly_limit" := VNum weekly;
     "monthly_limit" := VNum monthly ]}.

(** Two expenses of today and one of last week, limits 100 and 500, one debt
    in each direction; amounts in IEEE arithmetic. *)
Definition db : database float :=
  {| expenses := [expense "e1" "2024-06-20" 40%float;
                  expense "e2" "2024-06-20" 70%float;
                  expense "e3" "2024-06-11" 12%float];
     debts := [debt "d1" "gave" "pending" 100%float;
               debt "d2" "owe" "pending" 50%float];
     limits := [limit 100%float 500%float] |}.

Definition db_summary : Summary float :=
  {| total_today := 110%float; total_week := 110%float;
     total_month := 122%float;
     weekly_limit := 100%float; monthly_limit := 500%float;
     remaining_week := (-10)%float; remaining_month := 378%float;
     money_gave := 100%float; money_owe := 50%float;
     weekly_warning := "red"; monthly_warning := "none" |}.

(** The same store without a limit record. *)
Definition db_no_limit : database float :=
  {| expenses := expenses db; debts := debts db; limits := [] |}.

(** More documents than [to_list] returns: 10000 expenses of January and
    behind them one of today; 10000 paid debts and behind them a pending
    one. *)
Definition crowded : database float :=
  {| expenses := replicate (Z.to_nat 10000) (expense "old" "2024-01-15" 1%float)
                 ++ [expense "new" "2024-06-20" 5%float];
     debts := replicate (Z.to_nat 10000) (debt "old" "gave" "paid" 1%float)
              ++ [debt "new" "gave" "pending" 7%float];
     limits := [] |}.

Definition crowded_summary : Summary float :=
  {| total_today := 0%float; total_week := 0%float; total_month := 0%float;
     weekly_limit := 0%float; monthly_limit := 0%float;
     remaining_week := 0%float; remaining_month := 0%float;
     money_gave := 0%float; money_owe := 0%float;
     weekly_warning := "none"; monthly_warning := "none" |}.

(** One expense whose date is no date, and the store without it. *)
Definition malformed : database float :=
  {| expenses := [expense "bad" "not-a-date" 5%float];
     debts := []; limits := [] |}.

Definition malformed_summary : Summary float :=
  {| total_today := 0%float; total_week := 5%float; total_month := 5%float;
     weekly_limit := 0%float; monthly_limit := 0%float;
     remaining_week := (-5)%float; remaining_month := (-5)%float;
     money_gave := 0%float; money_owe := 0%float;
     weekly_warning := "none"; monthly_warning := "none" |}.

Definition empty : database float :=
  {| expenses := []; debts := []; limits := [] |}.

(** An expense document without a [date] field, before one of today. *)
Definition undated : gmap string (value float) :=
  {[ "id" := VStr "u"; "title" := VStr "cash"; "amount" := VNum 9%float;
     "category" := VStr "misc"; "timestamp" := VDatetime 0 ]}.

Definition with_undated : database float :=
  {| expenses := [undated; expense "e1" "2024-06-20" 40%float];
     debts := []; limits := [] |}.

Definition without_undated : database float :=
  {| expenses := [expense "e1" "2024-06-20" 40%float];
     debts := []; limits := [] |}.

(** An expense of today and one planned for tomorrow. *)
Definition planned : database float :=
  {| expenses := [expense "today" "2024-06-20" 40%float;
                  expense "ahead" "2024-06-21" 25%float];
     debts := []; limits := [] |}.

(** A replacement for an expense and a new status for a debt. *)
Definition dinner : ExpenseCreate float :=
  {| title := "dinner"; amount := 55%float; date := "2024-06-19";
     category := "food" |}.

Definition paid : DebtUpdate := {| status := "paid" |}.

(** An expense without a [timestamp] field, behind a well-shaped one. *)
Definition unstamped_expense : gmap string (value float) :=
  {[ "id" := VStr "u"; "title" := VStr "cash"; "amount" := VNum 9%float;
     "date" := VStr "2024-06-19"; "category" := VStr "misc" ]}.

Definition unstamped : database float :=
  {| expenses := [expense "e1" "2024-06-20" 40%float; unstamped_expense];
     debts := []; limits := [] |}.

(** The same Thursday a little later, 13:07:09 and 123456 microseconds, and
    a reader of ISO strings that knows the string of this instant. *)
Definition a_little_later : datetime :=
  {| year := 2024; month := 6; day := 20;
     hour := 13; minute := 7; second := 9; microsecond := 123456 |}.

Definition reads_a_little_later (s : string) : result Z :=
  if String.eqb s "2024-06-20T13:07:09.123456+00:00"
  then Ok (to_micros a_little_later)
  else Raise ValueError.

(** A request for a new debt. *)
Definition loan : DebtCreate.t float :=
  {| DebtCreate.name := "Ravi"; DebtCreate.amount := 30%float;
     DebtCreate.reason := "taxi"; DebtCreate.date := "2024-06-20";
     DebtCreate.status := "pending"; DebtCreate.debt_type := "owe" |}.

(** A request for new limits. *)
Definition budget : LimitCreate.t float :=
  {| LimitCreate.weekly_limit := 250%float;
     LimitCreate.monthly_limit := 900%float |}.

(** The sample store with a limit record that holds a monthly limit only,
    and with an expense whose date is a number. *)
Definition monthly_only : database float :=
  {| expenses := expenses db; debts := debts db;
     limits := [{[ "id" := VStr "limit_settings";
                   "monthly_limit" := VNum 500%float ]}] |}.

Definition numbered : database float :=
  {| expenses := [expense "e1" "2024-06-20" 40%float;
                  <["date" := VNum 20240620%float]>
                    (expense "n" "2024-06-20" 3%float)];
     debts := []; limits := [] |}.
(** Stand-ins for the hashing of passwords and for the token codec: the hash
    wraps the password, the token names its subject. *)
Definition wrap (salt password : string) : Auth.outcome string :=
  Auth.Returns (String.append salt (String.append "$" password)).

Definition unwrap (password : string) (hashed : Auth.field)
  : Auth.outcome bool :=
  match hashed with
  | Auth.Str h =>
      Auth.Returns (String.eqb h (String.append "pepper$" password))
  | _ => Auth.Returns false
  end.

Definition sign (claims : Auth.document) (key algorithm : string)
  : Auth.outcome string :=
  match claims !! "sub" with
  | Some (Auth.Str s) => Auth.Returns (String.append "token of " s)
  | _ => Auth.Raises (Auth.OtherError "JWSError")
  end.

Definition read_token (utcnow : Z) (token key : string)
    (algorithms : list string) : Auth.outcome Auth.document :=
  if String.eqb token "token of ann@example.org"
  then Auth.Returns {[ "sub" := Auth.Str "ann@example.org";
                       "exp" := Auth.Int 1718892429 ]}
  else Auth.Raises Auth.JWTError.

Definition seconds (micros : Z) : Z := micros / 1000000.

(** A new user, and a collection that holds another one. *)
Definition ann : Auth.UserIn :=
  {| Auth.email := "ann@example.org"; Auth.password := "correct horse";
     Auth.full_name := None |}.

Definition members : list Auth.document :=
  [{[ "_id" := Auth.ObjectId "65f0";
      "email" := Auth.Str "bob@example.org";
      "password" := Auth.Str "pepper$battery staple";
      "full_name" := Auth.Str "Bob" ]}].

(** 2024-06-20 13:07:09 on the clock, and a third of a second later. *)
Definition noon : Z := 63854485629000000.
Definition after_noon : Z := 63854485629333333.
(** A run of the test script on a Thursday, the server's clock a few
    minutes behind at the summary. *)
Definition served (id object_id : string) : BackendTest.drawn :=
  {| BackendTest.clock := a_little_later; BackendTest.uuid4 := id;
     BackendTest.object_id := VStr object_id |}.

Definition first_run : BackendTest.run :=
  {| BackendTest.started := a_little_later;
     BackendTest.started_again := a_little_later;
     BackendTest.expense1 := served "u1" "o1";
     BackendTest.expense2 := served "u2" "o2";
     BackendTest.expense3 := served "u3" "o3";
     BackendTest.debt1 := served "u4" "o4";
     BackendTest.debt2 := served "u5" "o5";
     BackendTest.debt1_paid := served "u6" "o6";
     BackendTest.limit_500 := VStr "o7";
     BackendTest.limit_100 := VStr "o8";
     BackendTest.test_expense1 := served "u9" "o9";
     BackendTest.test_expense2 := served "u10" "o10";
     BackendTest.summary_second := thursday |}.
End Samples.

(** * Properties *)

(** ** IEEE comparison *)

Lemma SFcompare_swap (x y : spec_float) :
  SFcompare y x = CompOpp <$> SFcompare x y.
Proof.
  destruct x as [sx|sx| |sx mx ex], y as [sy|sy| |sy my ey]; simpl;
    try reflexivity; try (destruct sx; reflexivity);
    try (destruct sy; reflexivity);
    try (destruct sx, sy; reflexivity).
  change (PosDef.Pos.compare_cont Eq my mx) with (Pos.compare my mx).
  change (PosDef.Pos.compare_cont Eq mx my) with (Pos.compare mx my).
  rewrite (Z.compare_antisym ex ey), (Pos.compare_antisym mx my).
  destruct sx, sy; try reflexivity;
    destruct (ex ?= ey); simpl; try reflexivity;
    destruct (mx ?= my)%positive; reflexivity.
Qed.

Lemma SFleb_trans (x y z : spec_float) :
  SFleb x y = true → SFleb y z = true → SFleb x z = true.
Proof.
  unfold SFleb.
  destruct x as [sx|sx| |sx mx ex], y as [sy|sy| |sy my ey],
    z as [sz|sz| |sz mz ez]; simpl; try discriminate; try reflexivity;
    try (destruct sx; discriminate || reflexivity);
    try (destruct sy; discriminate || reflexivity);
    try (destruct sz; discriminate || reflexivity);
    try (destruct sx, sy; discriminate || reflexivity);
    try (destruct sx, sz; discriminate || reflexivity);
    try (destruct sy, sz; discriminate || reflexivity);
    try (destruct sx, sy, sz; discriminate || reflexivity).
  all: change (PosDef.Pos.compare_cont Eq ?a ?b) with (Pos.compare a b).
  all: destruct sx, sy, sz; try discriminate; try reflexivity.
  all: destruct (Z.compare_spec ex ey), (Z.compare_spec ey ez),
         (Z.compare_spec ex ez); try discriminate; try reflexivity; try lia;
       subst.
  all: destruct (Pos.compare_spec mx my), (Pos.compare_spec my mz),
         (Pos.compare_spec mx mz); simpl; try discriminate; try reflexivity;
       try lia.
Qed.

(** IEEE comparison has the order facts the warning tiers need. *)
#[export] Instance float64_order : NumberOrder float.
Proof.
  split; simpl.
  - vm_compute. reflexivity.
  - intros a b. rewrite leb_spec, ltb_spec. unfold SFleb, SFltb.
    rewrite (SFcompare_swap (Prim2SF a) (Prim2SF b)).
    destruct (SFcompare (Prim2SF a) (Prim2SF b)) as [[]|]; simpl;
      discriminate || reflexivity.
  - intros a b. rewrite leb_spec, ltb_spec. unfold SFleb, SFltb.
    rewrite (SFcompare_swap (Prim2SF a) (Prim2SF b)).
    destruct (SFcompare (Prim2SF a) (Prim2SF b)) as [[]|]; simpl;
      discriminate || reflexivity.
  - intros a b c. rewrite !leb_spec. apply SFleb_trans.
  - vm_compute. reflexivity.
  - intros total limit c.
    replace (SF2Prim (binary_normalize prec emax 0 0 false)) with 0%float
      by (vm_compute; reflexivity).
    rewrite !leb_spec, !ltb_spec, mul_spec, div_spec.
    change (Prim2SF 0) with (S754_zero false).
    intros Hle Hlt.
    assert (Prim2SF limit = S754_nan) as ->.
    { revert Hle Hlt. unfold SFleb, SFltb.
      destruct (Prim2SF limit) as [s|s| |s m e]; simpl;
        try destruct s; discriminate || reflexivity. }
    assert (SF64div (Prim2SF total) S754_nan = S754_nan) as ->
      by (destruct (Prim2SF total) as [| | |[]]; reflexivity).
    split; [unfold SFleb | unfold SFltb]; destruct (Prim2SF c); reflexivity.
Qed.

(** ** IEEE addition is monotone on non-negative numbers *)

Lemma digits2_pos_bounds (m : positive) :
  2 ^ (Zpos (digits2_pos m) - 1) ≤ Zpos m < 2 ^ Zpos (digits2_pos m).
Proof.
  induction m as [m IH|m IH|]; simpl digits2_pos.
  - rewrite Pos2Z.inj_succ, Z.pow_succ_r by lia.
    replace (Z.succ (Zpos (digits2_pos m)) - 1)
      with (Z.succ (Zpos (digits2_pos m) - 1)) by lia.
    rewrite Z.pow_succ_r by lia. lia.
  - rewrite Pos2Z.inj_succ, Z.pow_succ_r by lia.
    replace (Z.succ (Zpos (digits2_pos m)) - 1)
      with (Z.succ (Zpos (digits2_pos m) - 1)) by lia.
    rewrite Z.pow_succ_r by lia. lia.
  - simpl. lia.
Qed.

Lemma pow2_pos (k : Z) : 0 ≤ k → 0 < 2 ^ k.
Proof. intros. apply Z.pow_pos_nonneg; lia. Qed.

Lemma pow2_mono (j k : Z) : 0 ≤ j ≤ k → 2 ^ j ≤ 2 ^ k.
Proof. intros. apply Z.pow_le_mono_r; lia. Qed.

Lemma iter_pos_nat {A} (f : A → A) (p : positive) (x : A) :
  SpecFloat.iter_pos f p x = Nat.iter (Pos.to_nat p) f x.
Proof.
  revert x. induction p as [p IH|p IH|]; intros x.
  - rewrite Pos2Nat.inj_xI. cbn [SpecFloat.iter_pos]. rewrite !IH.
    rewrite <- Nat.iter_add.
    replace (Pos.to_nat p + Pos.to_nat p)%nat with (2 * Pos.to_nat p)%nat
      by lia.
    rewrite Nat.iter_succ_r. reflexivity.
  - rewrite Pos2Nat.inj_xO. cbn [SpecFloat.iter_pos]. rewrite !IH.
    rewrite <- Nat.iter_add. f_equal. lia.
  - reflexivity.
Qed.

Lemma shr_1_fields (m : Z) (r s : bool) :
  0 ≤ m →
  shr_1 {| shr_m := m; shr_r := r; shr_s := s |}
  = {| shr_m := m / 2; shr_r := Z.odd m; shr_s := r || s |}.
Proof.
  intros Hm. destruct m as [|[p|p|]|p]; try lia; simpl shr_1; f_equal;
    try reflexivity.
  - change (Zpos p~1) with (2 * Zpos p + 1).
    apply Z.div_unique with 1; lia.
  - change (Zpos p~0) with (2 * Zpos p).
    apply Z.div_unique with 0; lia.
Qed.

Lemma shifted_0 (v : Z) :
  shifted v 0 {| shr_m := v; shr_r := false; shr_s := false |}.
Proof.
  unfold shifted. simpl. rewrite Z.div_1_r, Z.mod_1_r.
  split; [reflexivity |]. split; split; try discriminate; lia.
Qed.

Lemma shifted_succ (v k : Z) (mrs : shr_record) :
  0 ≤ v → 0 ≤ k → shifted v k mrs → shifted v (k + 1) (shr_1 mrs).
Proof.
  intros Hv Hk (Hm & Hr & Hs). destruct mrs as [m r s]. simpl in Hm, Hr, Hs.
  pose proof (pow2_pos k Hk) as Hp.
  assert (0 ≤ m) as Hm0 by (subst m; apply Z.div_pos; lia).
  rewrite (shr_1_fields m r s Hm0). unfold shifted. simpl.
  rewrite Z.pow_add_r, Z.pow_1_r by lia.
  rewrite <- Z.div_div by lia. rewrite <- Hm.
  rewrite Z.rem_mul_r by lia. rewrite <- Hm.
  pose proof (Z.mod_pos_bound v (2 ^ k) Hp) as Hrem.
  set (rem := v mod 2 ^ k) in *. set (p := 2 ^ k) in *.
  assert (Z.odd m = true ↔ m mod 2 = 1) as Hodd.
  { rewrite Zodd_mod. apply Z.eqb_eq. }
  pose proof (Z.mod_pos_bound m 2 ltac:(lia)) as Hm2.
  split; [reflexivity |]. rewrite Hodd, orb_true_iff, Hr, Hs.
  assert (m mod 2 = 0 ∨ m mod 2 = 1) as [-> | ->] by lia;
    rewrite ?Z.mul_0_r, ?Z.mul_1_r, ?Z.add_0_r; split; lia.
Qed.

Lemma shifted_iter (v : Z) (n : nat) :
  0 ≤ v →
  shifted v (Z.of_nat n)
    (Nat.iter n shr_1 {| shr_m := v; shr_r := false; shr_s := false |}).
Proof.
  intros Hv. induction n as [|n IH]; [apply shifted_0 |].
  rewrite Nat2Z.inj_succ. simpl. apply shifted_succ; [lia | lia | exact IH].
Qed.

(** [shr] by [k] bits of an exact record. *)
Lemma shr_shifted (v e k : Z) :
  0 ≤ v → 0 ≤ k →
  let '(mrs, e') := shr {| shr_m := v; shr_r := false; shr_s := false |} e k in
  shifted v k mrs ∧ e' = e + k.
Proof.
  intros Hv Hk. unfold shr. destruct k as [|p|p]; try lia.
  - split; [apply shifted_0 | lia].
  - split; [| reflexivity]. rewrite iter_pos_nat.
    rewrite <- positive_nat_Z. apply shifted_iter, Hv.
Qed.

Lemma rne_shifted (v k : Z) (mrs : shr_record) :
  shifted v k mrs →
  round_nearest_even (shr_m mrs) (loc_of_shr_record mrs) = round_at v k.
Proof.
  intros (Hm & Hr & Hs). destruct mrs as [m r s]. simpl in Hm, Hr, Hs.
  unfold round_at, round_up. rewrite <- Hm. simpl.
  destruct r, s; simpl.
  - destruct Hr as [Hr _], Hs as [Hs _]. specialize (Hr eq_refl).
    specialize (Hs eq_refl).
    destruct (Z.ltb_spec (2 ^ k) (2 * (v mod 2 ^ k))); [reflexivity | lia].
  - destruct Hr as [Hr _]. specialize (Hr eq_refl).
    assert (2 * (v mod 2 ^ k) = 2 ^ k) as Heq.
    { destruct (Z.eq_dec (2 * (v mod 2 ^ k)) (2 ^ k)) as [E|E]; [exact E |].
      destruct Hs as [_ Hs].
      assert (false = true); [apply Hs; lia | discriminate]. }
    destruct (Z.ltb_spec (2 ^ k) (2 * (v mod 2 ^ k))); [lia |].
    destruct (Z.eqb_spec (2 ^ k) (2 * (v mod 2 ^ k))); [| lia]. simpl.
    rewrite <- Z.negb_odd. destruct (Z.odd m); simpl; lia.
  - assert (¬ 2 ^ k ≤ 2 * (v mod 2 ^ k)) as Hlt
      by (intros H; apply Hr in H; discriminate).
    destruct (Z.ltb_spec (2 ^ k) (2 * (v mod 2 ^ k))); [lia |].
    destruct (Z.eqb_spec (2 ^ k) (2 * (v mod 2 ^ k))); [lia |]. simpl. lia.
  - assert (¬ 2 ^ k ≤ 2 * (v mod 2 ^ k)) as Hlt
      by (intros H; apply Hr in H; discriminate).
    destruct (Z.ltb_spec (2 ^ k) (2 * (v mod 2 ^ k))); [lia |].
    destruct (Z.eqb_spec (2 ^ k) (2 * (v mod 2 ^ k))); [lia |]. simpl. lia.
Qed.

Lemma round_up_bounds (q rem p : Z) : 0 ≤ round_up q rem p ≤ 1.
Proof. unfold round_up. destruct (_ || _); lia. Qed.

Lemma round_at_0 (v : Z) : round_at v 0 = v.
Proof.
  unfold round_at, round_up. rewrite Z.pow_0_r, Z.div_1_r, Z.mod_1_r. simpl. lia.
Qed.

(** Scaling the number and the shift together scales nothing. *)
Lemma round_at_scale (m k j : Z) :
  0 ≤ k → 0 ≤ j → round_at (m * 2 ^ j) (k + j) = round_at m k.
Proof.
  intros Hk Hj. unfold round_at.
  pose proof (pow2_pos k Hk) as Hpk. pose proof (pow2_pos j Hj) as Hpj.
  rewrite Z.pow_add_r by lia.
  rewrite Z.div_mul_cancel_r by lia.
  rewrite Z.mul_mod_distr_r by lia.
  f_equal. unfold round_up.
  set (rem := m mod 2 ^ k). set (P := 2 ^ k) in *. set (J := 2 ^ j) in *.
  assert ((P * J <? 2 * (rem * J)) = (P <? 2 * rem)) as ->.
  { destruct (Z.ltb_spec (P * J) (2 * (rem * J))), (Z.ltb_spec P (2 * rem));
      try reflexivity; nia. }
  assert ((P * J =? 2 * (rem * J)) = (P =? 2 * rem)) as ->.
  { destruct (Z.eqb_spec (P * J) (2 * (rem * J))), (Z.eqb_spec P (2 * rem));
      try reflexivity; nia. }
  reflexivity.
Qed.

Lemma shift_of_nonneg (v : Z) : 0 ≤ shift_of v.
Proof. unfold shift_of. lia. Qed.

Lemma shift_of_mono (u v : Z) : u ≤ v → shift_of u ≤ shift_of v.
Proof.
  intros Huv. unfold shift_of. pose proof (Z.log2_le_mono u v Huv). lia.
Qed.

Lemma round_at_mono_same (u v k : Z) :
  0 ≤ k → u ≤ v → round_at u k ≤ round_at v k.
Proof.
  intros Hk Huv. unfold round_at. pose proof (pow2_pos k Hk) as Hp.
  pose proof (Z.div_le_mono u v (2 ^ k) Hp Huv) as Hq.
  pose proof (round_up_bounds (u / 2 ^ k) (u mod 2 ^ k) (2 ^ k)).
  pose proof (round_up_bounds (v / 2 ^ k) (v mod 2 ^ k) (2 ^ k)).
  destruct (Z.eq_dec (u / 2 ^ k) (v / 2 ^ k)) as [Heq|Hne]; [| lia].
  rewrite <- Heq. apply Z.add_le_mono_l.
  assert (u mod 2 ^ k ≤ v mod 2 ^ k) as Hrem.
  { pose proof (Z.div_mod u (2 ^ k) ltac:(lia)).
    pose proof (Z.div_mod v (2 ^ k) ltac:(lia)). rewrite Heq in *. lia. }
  unfold round_up.
  set (P := 2 ^ k) in *. set (ru := u mod P) in *. set (rv := v mod P) in *.
  destruct (Z.ltb_spec P (2 * ru)), (Z.ltb_spec P (2 * rv)),
    (Z.eqb_spec P (2 * ru)), (Z.eqb_spec P (2 * rv)); simpl;
    try lia; destruct (Z.odd (u / P)); simpl; lia.
Qed.

Lemma shift_of_quot (v : Z) :
  0 < v →
  v / 2 ^ shift_of v < 2 ^ 53
  ∧ (0 < shift_of v → 2 ^ 52 ≤ v / 2 ^ shift_of v).
Proof.
  intros Hv. pose proof (Z.log2_spec v Hv) as [Hlo Hhi].
  pose proof (Z.log2_nonneg v) as HL.
  pose proof (shift_of_nonneg v) as Hn.
  pose proof (pow2_pos (shift_of v) Hn) as Hp. split.
  - apply Z.div_lt_upper_bound; [exact Hp |].
    rewrite <- Z.pow_add_r by lia.
    eapply Z.lt_le_trans; [exact Hhi |]. apply pow2_mono.
    unfold shift_of in *. lia.
  - intros Hpos. apply Z.div_le_lower_bound; [exact Hp |].
    rewrite <- Z.pow_add_r by lia.
    eapply Z.le_trans; [| exact Hlo]. apply pow2_mono.
    unfold shift_of in *. lia.
Qed.

Lemma round_at_ge (v k : Z) : 0 ≤ k → v / 2 ^ k ≤ round_at v k.
Proof.
  intros Hk. unfold round_at.
  pose proof (round_up_bounds (v / 2 ^ k) (v mod 2 ^ k) (2 ^ k)). lia.
Qed.

Lemma round_at_le (v k : Z) : 0 ≤ k → round_at v k ≤ v / 2 ^ k + 1.
Proof.
  intros Hk. unfold round_at.
  pose proof (round_up_bounds (v / 2 ^ k) (v mod 2 ^ k) (2 ^ k)). lia.
Qed.

(** Rounding to 53 bits is monotone. *)
Lemma round53_mono (u v : Z) : 0 < u → u ≤ v → round53 u ≤ round53 v.
Proof.
  intros Hu Huv. unfold round53. apply Z.min_le_compat_r.
  pose proof (shift_of_mono u v Huv) as Hn.
  pose proof (shift_of_nonneg u) as Hnu.
  destruct (Z.eq_dec (shift_of u) (shift_of v)) as [Heq|Hne].
  - rewrite <- Heq. apply Z.mul_le_mono_nonneg_r;
      [apply Z.lt_le_incl, pow2_pos, Hnu | apply round_at_mono_same; lia].
  - assert (shift_of u < shift_of v) as Hlt by lia.
    destruct (shift_of_quot u Hu) as [Hqu _].
    destruct (shift_of_quot v ltac:(lia)) as [_ Hqv].
    specialize (Hqv ltac:(lia)).
    pose proof (round_at_le u (shift_of u) Hnu) as H1.
    pose proof (round_at_ge v (shift_of v) ltac:(lia)) as H2.
    pose proof (pow2_pos (shift_of u) Hnu) as Hpu.
    pose proof (pow2_pos (shift_of v) ltac:(lia)) as Hpv.
    apply Z.le_trans with (2 ^ 53 * 2 ^ shift_of u); [nia |].
    apply Z.le_trans with (2 ^ 52 * 2 ^ shift_of v); [| nia].
    rewrite <- !Z.pow_add_r by lia. apply pow2_mono. lia.
Qed.

Lemma round53_0 : round53 0 = 0.
Proof. reflexivity. Qed.

Lemma round53_nonneg (v : Z) : 0 ≤ v → 0 ≤ round53 v.
Proof.
  intros Hv. unfold round53.
  apply Z.min_glb; [| apply Z.lt_le_incl, pow2_pos; lia].
  pose proof (shift_of_nonneg v) as Hn.
  pose proof (round_at_ge v (shift_of v) Hn).
  pose proof (pow2_pos (shift_of v) Hn).
  pose proof (Z.div_pos v (2 ^ shift_of v) Hv ltac:(lia)). nia.
Qed.

Lemma round53_mono0 (u v : Z) : 0 ≤ u → u ≤ v → round53 u ≤ round53 v.
Proof.
  intros Hu Huv. destruct (Z.eq_dec u 0) as [->|Hne].
  - rewrite round53_0. apply round53_nonneg. lia.
  - apply round53_mono; lia.
Qed.

Lemma fexp64 (e : Z) : fexp prec emax e = Z.max (e - 53) (-1074).
Proof. reflexivity. Qed.

Lemma Zdigits2_log2 (v : Z) : 0 < v → Zdigits2 v = Z.log2 v + 1.
Proof.
  intros Hv. destruct v as [|m|m]; try lia. simpl Zdigits2.
  pose proof (digits2_pos_bounds m) as [Hlo Hhi].
  rewrite (Z.log2_unique (Zpos m) (Zpos (digits2_pos m) - 1)); [lia | lia |].
  split; [exact Hlo |]. replace (Z.succ (Zpos (digits2_pos m) - 1))
    with (Zpos (digits2_pos m)) by lia. exact Hhi.
Qed.

Lemma log2_lt_pow2 (v k : Z) : 0 < v → 0 ≤ k → v < 2 ^ k → Z.log2 v + 1 ≤ k.
Proof.
  intros Hv Hk Hlt. pose proof (Z.log2_lt_pow2 v k Hv) as [H _].
  specialize (H Hlt). lia.
Qed.

Lemma log2_ge_pow2 (v k : Z) : 0 ≤ k → 2 ^ k ≤ v → k ≤ Z.log2 v.
Proof.
  intros Hk Hle. apply Z.log2_le_pow2; [| exact Hle].
  pose proof (pow2_pos k Hk). lia.
Qed.

(** A second shift does nothing to a number of at most 53 bits. *)
Lemma shr_fexp_small (q F : Z) :
  0 < q < 2 ^ 53 → -1074 ≤ F →
  shr_fexp prec emax q F loc_Exact
  = ({| shr_m := q; shr_r := false; shr_s := false |}, F).
Proof.
  intros [Hq0 Hq] HF. unfold shr_fexp.
  rewrite fexp64, Zdigits2_log2 by exact Hq0.
  pose proof (log2_lt_pow2 q 53 Hq0 ltac:(lia) Hq) as Hd.
  simpl shr_record_of_loc. unfold shr.
  destruct (Z.max (Z.log2 q + 1 + F - 53) (-1074) - F) eqn:Hn; try reflexivity.
  lia.
Qed.

(** It halves [2 ^ 53]. *)
Lemma shr_fexp_carry (F : Z) :
  -1074 ≤ F →
  shr_fexp prec emax (2 ^ 53) F loc_Exact
  = ({| shr_m := 2 ^ 52; shr_r := false; shr_s := false |}, F + 1).
Proof.
  intros HF. unfold shr_fexp. rewrite fexp64.
  change (Zdigits2 (2 ^ 53)) with 54.
  replace (Z.max (54 + F - 53) (-1074) - F) with 1 by lia.
  reflexivity.
Qed.

Lemma round_at_target (m : positive) (e : Z) :
  -1074 ≤ e → e ≤ target m e →
  let q := round_at (Zpos m) (target m e - e) in
  0 < q ≤ 2 ^ 53 ∧ (-1074 < target m e → 2 ^ 52 ≤ q).
Proof.
  intros He HF q. unfold target in *.
  pose proof (Z.log2_spec (Zpos m) ltac:(lia)) as [Hlo Hhi].
  pose proof (Z.log2_nonneg (Zpos m)) as HL.
  remember (Z.max (Z.log2 (Zpos m) + 1 + e - 53) (-1074) - e) as k eqn:Hk.
  assert (0 ≤ k) as Hk0 by lia.
  pose proof (pow2_pos k Hk0) as Hp.
  pose proof (round_at_ge (Zpos m) k Hk0) as Hge.
  pose proof (round_at_le (Zpos m) k Hk0) as Hle. fold q in Hge, Hle.
  assert (Zpos m / 2 ^ k < 2 ^ 53) as Hq.
  { apply Z.div_lt_upper_bound; [exact Hp |]. rewrite <- Z.pow_add_r by lia.
    eapply Z.lt_le_trans; [exact Hhi |]. apply pow2_mono. lia. }
  destruct (Z.eq_dec k 0) as [Hz|Hnz].
  - assert (q = Zpos m) as Hqm by (unfold q; rewrite Hz; apply round_at_0).
    rewrite Hz, Z.pow_0_r, Z.div_1_r in Hq. rewrite Hqm.
    split; [lia |]. intros Hmin.
    eapply Z.le_trans; [| exact Hlo]. apply pow2_mono. lia.
  - assert (2 ^ 52 ≤ Zpos m / 2 ^ k); [| lia].
    apply Z.div_le_lower_bound; [exact Hp |]. rewrite <- Z.pow_add_r by lia.
    eapply Z.le_trans; [| exact Hlo]. apply pow2_mono. lia.
Qed.

(** What [binary_round_aux] returns on an exact positive number whose
    exponent is not above its target. *)
Lemma binary_round_aux_exact (m : positive) (e : Z) :
  -1074 ≤ e → e ≤ target m e →
  let q := round_at (Zpos m) (target m e - e) in
  binary_round_aux prec emax false (Zpos m) e loc_Exact
  = if q =? 2 ^ 53 then finite_or_inf (2 ^ 52) (target m e + 1)
    else finite_or_inf q (target m e).
Proof.
  intros He HF q.
  pose proof (round_at_target m e He HF) as [[Hq0 Hq53] _].
  fold q in Hq0, Hq53.
  assert (-1074 ≤ target m e) as HFmin by (unfold target; lia).
  unfold binary_round_aux.
  assert (shr_fexp prec emax (Zpos m) e loc_Exact
          = shr {| shr_m := Zpos m; shr_r := false; shr_s := false |} e
              (target m e - e)) as ->.
  { unfold shr_fexp. rewrite fexp64, Zdigits2_log2 by lia. reflexivity. }
  pose proof (shr_shifted (Zpos m) e (target m e - e) ltac:(lia) ltac:(lia))
    as Hshr.
  destruct (shr _ e (target m e - e)) as [mrs e']. destruct Hshr as [Hsh ->].
  rewrite (rne_shifted _ _ _ Hsh). fold q.
  replace (e + (target m e - e)) with (target m e) by lia.
  destruct (Z.eqb_spec q (2 ^ 53)) as [Heq|Hne].
  - rewrite Heq, shr_fexp_carry by exact HFmin. reflexivity.
  - rewrite shr_fexp_small by lia. simpl shr_m.
    destruct q as [|p|p]; try lia. reflexivity.
Qed.

Lemma log2_mul_pow2 (a j : Z) :
  0 < a → 0 ≤ j → Z.log2 (a * 2 ^ j) = Z.log2 a + j.
Proof. intros Ha Hj. rewrite Z.log2_mul_pow2 by lia. lia. Qed.

Lemma canonical_iff (q F : Z) :
  0 < q →
  canonical_mantissa prec emax (Z.to_pos q) F = true
  ↔ Z.max (Z.log2 q + 1 + F - 53) (-1074) = F.
Proof.
  intros Hq. unfold canonical_mantissa. rewrite fexp64.
  change (Zpos (digits2_pos (Z.to_pos q))) with (Zdigits2 (Zpos (Z.to_pos q))).
  rewrite Z2Pos.id by exact Hq. rewrite Zdigits2_log2 by exact Hq.
  apply Z.eqb_eq.
Qed.

Lemma finite_or_inf_rank (q F : Z) :
  0 < q < 2 ^ 53 → -1074 ≤ F → (-1074 < F → 2 ^ 52 ≤ q) →
  ranked (finite_or_inf q F)
  ∧ rank (finite_or_inf q F) = Z.min (q * 2 ^ (F + 1074)) (2 ^ 2098).
Proof.
  intros [Hq0 Hq] HF Hnorm. unfold finite_or_inf, ranked.
  pose proof (log2_lt_pow2 q 53 Hq0 ltac:(lia) Hq) as Hd.
  pose proof (pow2_pos (F + 1074) ltac:(lia)) as Hp.
  destruct (Z.leb_spec F 971) as [Hle|Hgt].
  - split; [split; [| reflexivity] |].
    + simpl. unfold bounded. apply andb_true_intro.
      split; [| apply Z.leb_le; unfold emax, prec; lia].
      apply canonical_iff; [exact Hq0 |].
      destruct (Z.eq_dec F (-1074)) as [->|Hne]; [lia |].
      pose proof (log2_ge_pow2 q 52 ltac:(lia) (Hnorm ltac:(lia))). lia.
    + simpl rank. rewrite Z2Pos.id by exact Hq0.
      rewrite Z.min_l; [reflexivity |].
      apply Z.le_trans with (2 ^ 53 * 2 ^ (F + 1074)); [nia |].
      rewrite <- Z.pow_add_r by lia. apply pow2_mono. lia.
  - split; [split; reflexivity |]. simpl rank.
    rewrite Z.min_r; [reflexivity |].
    apply Z.le_trans with (2 ^ 52 * 2 ^ (F + 1074));
      [| specialize (Hnorm ltac:(lia)); nia].
    rewrite <- Z.pow_add_r by lia. apply pow2_mono. lia.
Qed.

Lemma shift_of_scaled (m : positive) (e : Z) :
  -1074 ≤ e → shift_of (Zpos m * 2 ^ (e + 1074)) = target m e + 1074.
Proof.
  intros He. unfold shift_of, target. rewrite log2_mul_pow2 by lia. lia.
Qed.

(** The rank of a rounded exact number is the rounding of its rank. *)
Lemma binary_round_aux_rank (m : positive) (e : Z) :
  -1074 ≤ e → e ≤ target m e →
  ranked (binary_round_aux prec emax false (Zpos m) e loc_Exact)
  ∧ rank (binary_round_aux prec emax false (Zpos m) e loc_Exact)
    = round53 (Zpos m * 2 ^ (e + 1074)).
Proof.
  intros He HF. rewrite (binary_round_aux_exact m e He HF).
  destruct (round_at_target m e He HF) as [[Hq0 Hq53] Hnorm].
  unfold round53. rewrite shift_of_scaled by exact He.
  replace (target m e + 1074) with ((target m e - e) + (e + 1074)) at 1 by lia.
  rewrite round_at_scale by lia.
  set (q := round_at (Zpos m) (target m e - e)) in *.
  assert (-1074 ≤ target m e) as HFmin by (unfold target; lia).
  destruct (Z.eqb_spec q (2 ^ 53)) as [Heq|Hne].
  - destruct (finite_or_inf_rank (2 ^ 52) (target m e + 1)) as [Hr Hk];
      [lia | lia | lia |].
    split; [exact Hr |]. rewrite Hk, Heq. f_equal.
    replace (target m e + 1 + 1074) with (1 + (target m e + 1074)) by lia.
    rewrite (Z.pow_add_r 2 1) by lia. lia.
  - apply finite_or_inf_rank; [lia | exact HFmin | exact Hnorm].
Qed.

Lemma pos_iter_xO (m d : positive) :
  Zpos (Pos.iter xO m d) = Zpos m * 2 ^ Zpos d.
Proof.
  induction d as [|d IH] using Pos.peano_ind.
  - simpl. lia.
  - rewrite Pos.iter_succ, Pos2Z.inj_succ, Z.pow_succ_r by lia.
    change (Zpos (Pos.iter xO m d)~0) with (2 * Zpos (Pos.iter xO m d)).
    rewrite IH. lia.
Qed.

Lemma shl_align_spec (m : positive) (e e' : Z) :
  e' ≤ e →
  Zpos (fst (shl_align m e e')) = Zpos m * 2 ^ (e - e')
  ∧ snd (shl_align m e e') = e'.
Proof.
  intros Hle. unfold shl_align. destruct (e' - e) as [|d|d] eqn:Hd; try lia.
  - simpl. replace (e - e') with 0 by lia. lia.
  - simpl. rewrite pos_iter_xO. replace (e - e') with (Zpos d) by lia. lia.
Qed.

(** The rank of a rounded positive integer is the rounding of its rank. *)
Lemma binary_round_rank (m : positive) (e : Z) :
  -1074 ≤ e →
  ranked (binary_round prec emax false m e)
  ∧ rank (binary_round prec emax false m e) = round53 (Zpos m * 2 ^ (e + 1074)).
Proof.
  intros He. unfold binary_round. rewrite fexp64.
  change (Zpos (digits2_pos m)) with (Zdigits2 (Zpos m)).
  rewrite Zdigits2_log2 by lia. fold (target m e).
  destruct (Z_le_gt_dec e (target m e)) as [Hle|Hgt].
  - assert (shl_align m e (target m e) = (m, e)) as ->.
    { unfold shl_align. destruct (target m e - e) eqn:Hd; try reflexivity. lia. }
    apply binary_round_aux_rank; assumption.
  - destruct (shl_align_spec m e (target m e) ltac:(lia)) as [Hm Hs].
    destruct (shl_align m e (target m e)) as [mz ez]. simpl in Hm, Hs. subst ez.
    assert (-1074 ≤ target m e) as HF by (unfold target; lia).
    assert (target mz (target m e) = target m e) as Ht.
    { unfold target at 1. rewrite Hm, log2_mul_pow2 by lia. unfold target. lia. }
    destruct (binary_round_aux_rank mz (target m e) HF ltac:(lia)) as [Hr Hk].
    split; [exact Hr |]. rewrite Hk, Hm. f_equal.
    rewrite <- Z.mul_assoc, <- Z.pow_add_r by lia. do 2 f_equal. lia.
Qed.

(** What a valid finite number looks like. *)
Lemma valid_finite (s : bool) (m : positive) (e : Z) :
  valid_binary (S754_finite s m e) = true →
  -1074 ≤ e ≤ 971 ∧ Zpos m < 2 ^ 53 ∧ (-1074 < e → 2 ^ 52 ≤ Zpos m)
  ∧ target m e = e.
Proof.
  intros Hv. simpl in Hv. unfold bounded in Hv.
  apply andb_prop in Hv as [Hc Hb]. apply Z.leb_le in Hb.
  unfold emax, prec in Hb.
  pose proof (canonical_iff (Zpos m) e ltac:(lia)) as Hiff.
  simpl Z.to_pos in Hiff.
  apply Hiff in Hc.
  pose proof (Z.log2_spec (Zpos m) ltac:(lia)) as [Hlo Hhi].
  pose proof (Z.log2_nonneg (Zpos m)) as HL.
  split; [lia |]. split; [| split].
  - eapply Z.lt_le_trans; [exact Hhi |]. apply pow2_mono. lia.
  - intros He. eapply Z.le_trans; [| exact Hlo]. apply pow2_mono. lia.
  - exact Hc.
Qed.

Lemma rank_finite_bounds (m : positive) (e : Z) :
  valid_binary (S754_finite false m e) = true →
  0 < rank (S754_finite false m e) < 2 ^ 2098.
Proof.
  intros Hv. destruct (valid_finite _ _ _ Hv) as (He & Hm & _). simpl.
  pose proof (pow2_pos (e + 1074) ltac:(lia)) as Hp. split; [nia |].
  apply Z.lt_le_trans with (2 ^ 53 * 2 ^ (e + 1074)); [nia |].
  rewrite <- Z.pow_add_r by lia. apply pow2_mono. lia.
Qed.

Lemma rank_nonneg (x : spec_float) : ranked x → 0 ≤ rank x.
Proof.
  intros [Hv Hn]. destruct x as [s|[]| |[] m e]; try discriminate Hn.
  - simpl. lia.
  - apply Z.lt_le_incl, pow2_pos. lia.
  - pose proof (rank_finite_bounds m e Hv). lia.
Qed.

Lemma round_at_exact (m j : Z) : 0 ≤ j → round_at (m * 2 ^ j) j = m.
Proof.
  intros Hj. pose proof (round_at_scale m 0 j ltac:(lia) Hj) as Hs.
  rewrite Z.add_0_l in Hs. rewrite Hs. apply round_at_0.
Qed.

(** A number of the format is its own rounding. *)
Lemma round53_rank (x : spec_float) : ranked x → round53 (rank x) = rank x.
Proof.
  intros [Hv Hn]. destruct x as [s|[]| |[] m e]; try discriminate Hn.
  - reflexivity.
  - vm_compute. reflexivity.
  - destruct (valid_finite _ _ _ Hv) as (He & Hm & _ & Ht).
    pose proof (rank_finite_bounds m e Hv) as Hb. simpl rank in *.
    unfold round53. rewrite shift_of_scaled, Ht by lia.
    rewrite round_at_exact by lia. lia.
Qed.

Lemma round53_saturated (v : Z) : 2 ^ 2098 ≤ v → round53 v = 2 ^ 2098.
Proof.
  intros Hv. apply Z.le_antisymm; [unfold round53; apply Z.le_min_r |].
  assert (round53 (2 ^ 2098) = 2 ^ 2098) as <- by (vm_compute; reflexivity).
  apply round53_mono; [| exact Hv]. apply pow2_pos. lia.
Qed.

(** The comparison of the format is the comparison of the ranks. *)
Lemma SFleb_rank (x y : spec_float) :
  ranked x → ranked y → (SFleb x y = true ↔ rank x ≤ rank y).
Proof.
  intros [Hvx Hnx] [Hvy Hny].
  pose proof (pow2_pos 2098 ltac:(lia)) as Hinf.
  destruct x as [sx|[]| |[] mx ex]; try discriminate Hnx;
    destruct y as [sy|[]| |[] my ey]; try discriminate Hny;
    try pose proof (rank_finite_bounds mx ex Hvx) as Hbx;
    try pose proof (rank_finite_bounds my ey Hvy) as Hby;
    cbn [rank] in *.
  - split; [lia | reflexivity].
  - split; [lia | reflexivity].
  - split; [lia | reflexivity].
  - split; [discriminate | lia].
  - split; [lia | reflexivity].
  - split; [discriminate | lia].
  - split; [discriminate | lia].
  - split; [lia | reflexivity].
  - clear Hinf Hbx Hby.
    destruct (valid_finite _ _ _ Hvx) as (Hex & Hmx & Hnx' & _).
    destruct (valid_finite _ _ _ Hvy) as (Hey & Hmy & Hny' & _).
    unfold SFleb, SFcompare.
    change (PosDef.Pos.compare_cont Eq mx my) with (Pos.compare mx my).
    pose proof (pow2_pos (ex + 1074) ltac:(lia)) as Hpx.
    pose proof (pow2_pos (ey + 1074) ltac:(lia)) as Hpy.
    destruct (Z.compare_spec ex ey) as [Heq|Hlt|Hgt].
    + subst ey. destruct (Pos.compare_spec mx my) as [Hm|Hm|Hm].
      * subst my. split; [intros _; lia | reflexivity].
      * split; [intros _; nia | reflexivity].
      * split; [discriminate | intros Hle; exfalso; nia].
    + split; [intros _ | reflexivity].
      apply Z.le_trans with (2 ^ 53 * 2 ^ (ex + 1074)); [nia |].
      apply Z.le_trans with (2 ^ 52 * 2 ^ (ey + 1074));
        [| specialize (Hny' ltac:(lia)); nia].
      rewrite <- !Z.pow_add_r by lia. apply pow2_mono. lia.
    + split; [discriminate | intros Hle; exfalso].
      assert (Zpos my * 2 ^ (ey + 1074) < Zpos mx * 2 ^ (ex + 1074)); [| lia].
      apply Z.lt_le_trans with (2 ^ 53 * 2 ^ (ey + 1074)); [nia |].
      apply Z.le_trans with (2 ^ 52 * 2 ^ (ex + 1074));
        [| specialize (Hnx' ltac:(lia)); nia].
      rewrite <- !Z.pow_add_r by lia. apply pow2_mono. lia.
Qed.

Lemma SFadd_finite_rank (ma mx : positive) (ea ex : Z) :
  -1074 ≤ ea → -1074 ≤ ex →
  let r := SF64add (S754_finite false ma ea) (S754_finite false mx ex) in
  ranked r
  ∧ rank r = round53 (Zpos ma * 2 ^ (ea + 1074) + Zpos mx * 2 ^ (ex + 1074)).
Proof.
  intros Hea Hex. unfold SF64add, SFadd. cbv zeta.
  destruct (shl_align_spec ma ea (Z.min ea ex) ltac:(lia)) as [Ha _].
  destruct (shl_align_spec mx ex (Z.min ea ex) ltac:(lia)) as [Hx _].
  set (pa := fst (shl_align ma ea (Z.min ea ex))) in *.
  set (px := fst (shl_align mx ex (Z.min ea ex))) in *.
  change (binary_normalize prec emax
            (cond_Zopp false (Zpos pa) + cond_Zopp false (Zpos px))
            (Z.min ea ex) false)
    with (binary_round prec emax false (pa + px) (Z.min ea ex)).
  destruct (binary_round_rank (pa + px) (Z.min ea ex) ltac:(lia)) as [Hr Hk].
  split; [exact Hr |]. rewrite Hk. f_equal.
  rewrite Pos2Z.inj_add, Ha, Hx, Z.mul_add_distr_r.
  rewrite <- !Z.mul_assoc, <- !Z.pow_add_r by lia.
  do 2 f_equal; f_equal; lia.
Qed.

(** Addition of two non-negative numbers of the format: the rank of the sum
    is the rounding of the sum of the ranks. *)
Lemma SFadd_rank (a x : spec_float) :
  ranked a → ranked x →
  ranked (SF64add a x) ∧ rank (SF64add a x) = round53 (rank a + rank x).
Proof.
  intros Ha Hx.
  pose proof (rank_nonneg a Ha) as Hra. pose proof (rank_nonneg x Hx) as Hrx.
  pose proof (round53_rank a Ha) as Hia. pose proof (round53_rank x Hx) as Hix.
  assert (ranked (S754_infinity false)) as Hinf by (split; reflexivity).
  destruct a as [sa|[]| |[] ma ea];
    try (destruct Ha as [_ Ha]; discriminate Ha);
    destruct x as [sx|[]| |[] mx ex];
    try (destruct Hx as [_ Hx]; discriminate Hx).
  - split; [destruct sa, sx; split; reflexivity |].
    destruct sa, sx; reflexivity.
  - split; [exact Hinf |]. rewrite Z.add_0_l. symmetry. exact Hix.
  - split; [exact Hx |]. change (rank (S754_zero sa)) with 0.
    rewrite Z.add_0_l. symmetry. exact Hix.
  - split; [exact Hinf |]. change (rank (S754_zero sx)) with 0.
    rewrite Z.add_0_r. symmetry. exact Hia.
  - split; [exact Hinf |]. symmetry. apply round53_saturated.
    change (rank (S754_infinity false)) with (2 ^ 2098) in *. lia.
  - split; [exact Hinf |]. symmetry. apply round53_saturated.
    change (rank (S754_infinity false)) with (2 ^ 2098) in *. lia.
  - split; [exact Ha |]. change (rank (S754_zero sx)) with 0.
    rewrite Z.add_0_r. symmetry. exact Hia.
  - split; [exact Hinf |]. symmetry. apply round53_saturated.
    change (rank (S754_infinity false)) with (2 ^ 2098) in *. lia.
  - destruct Ha as [Hva _], Hx as [Hvx _].
    destruct (valid_finite _ _ _ Hva) as (Hea & _).
    destruct (valid_finite _ _ _ Hvx) as (Hex & _).
    apply SFadd_finite_rank; lia.
Qed.

Lemma nonneg_of_leb (x : spec_float) :
  SFleb (S754_zero false) x = true → nonneg x = true.
Proof. destruct x as [s|[]| |[] m e]; simpl; discriminate || reflexivity. Qed.

Lemma ranked_of_leb (x : float) :
  PrimFloat.leb 0 x = true → ranked (Prim2SF x).
Proof.
  rewrite leb_spec. intros Hle. split; [apply Prim2SF_valid |].
  apply nonneg_of_leb, Hle.
Qed.

Lemma leb_rank (x y : float) :
  ranked (Prim2SF x) → ranked (Prim2SF y) →
  (PrimFloat.leb x y = true ↔ rank (Prim2SF x) ≤ rank (Prim2SF y)).
Proof. intros Hx Hy. rewrite leb_spec. apply SFleb_rank; assumption. Qed.

Lemma float_zero : SF2Prim (binary_normalize prec emax 0 0 false) = 0%float.
Proof. vm_compute. reflexivity. Qed.

(** IEEE addition of non-negative numbers is monotone. *)
Lemma float_add_mono (a b x : float) :
  PrimFloat.leb 0 a = true → PrimFloat.leb a b = true →
  PrimFloat.leb 0 x = true →
  PrimFloat.leb (a + x) (b + x) = true ∧ PrimFloat.leb a (b + x) = true.
Proof.
  intros Ha Hab Hx.
  assert (PrimFloat.leb 0 b = true) as Hb.
  { revert Ha Hab. rewrite !leb_spec. apply SFleb_trans. }
  apply ranked_of_leb in Ha, Hb, Hx.
  destruct (SFadd_rank _ _ Ha Hx) as [Hax Hrax].
  destruct (SFadd_rank _ _ Hb Hx) as [Hbx Hrbx].
  rewrite <- add_spec in Hax, Hrax, Hbx, Hrbx.
  apply (leb_rank a b Ha Hb) in Hab.
  pose proof (rank_nonneg _ Ha). pose proof (rank_nonneg _ Hx).
  split.
  - apply (leb_rank _ _ Hax Hbx). rewrite Hrax, Hrbx.
    apply round53_mono0; lia.
  - apply (leb_rank _ _ Ha Hbx). rewrite Hrbx.
    rewrite <- (round53_rank _ Hb).
    eapply Z.le_trans; [exact Hab |]. rewrite (round53_rank _ Hb).
    rewrite <- (round53_rank _ Hb) at 1. apply round53_mono0; lia.
Qed.

#[export] Instance float64_monotone : NumberMonotone float.
Proof.
  split; intros a b x Ha Hab Hx;
    change (PrimFloat.leb (SF2Prim (binary_normalize prec emax 0 0 false)) a
            = true) in Ha;
    change (PrimFloat.leb (SF2Prim (binary_normalize prec emax 0 0 false)) x
            = true) in Hx;
    rewrite float_zero in Ha, Hx;
    apply (float_add_mono a b x Ha Hab Hx).
Qed.

(** ** Dates as strings *)

Lemma digit_compare (a b : Z) :
  Ascii.compare (digit a) (digit b) = (a mod 10 ?= b mod 10).
Proof.
  unfold Ascii.compare, digit.
  pose proof (Z.mod_pos_bound a 10 ltac:(lia)).
  pose proof (Z.mod_pos_bound b 10 ltac:(lia)).
  rewrite !N_ascii_embedding by lia.
  rewrite <- N2Z.inj_compare, !N2Z.inj_add, !Z2N.id by lia.
  apply Z.add_compare_mono_l.
Qed.

(** On printable dates the string order is the date order: this is what
    makes the comparison of date strings a comparison of dates. *)
Lemma strftime_ymd_le (d1 d2 : datetime) :
  printable d1 → printable d2 → date_le d1 d2 →
  String.leb (strftime_ymd d1) (strftime_ymd d2) = true.
Proof.
  intros (Hy1 & Hm1 & Hd1) (Hy2 & Hm2 & Hd2) Hle.
  unfold String.leb, strftime_ymd, pad4, pad2. simpl.
  rewrite !digit_compare.
  change (Ascii.compare "-" "-") with Eq. cbv iota.
  unfold date_le in Hle.
  repeat match goal with
  | |- context [?a ?= ?b] =>
      destruct (Z.compare_spec a b); try reflexivity
  end.
  all: exfalso; Z.div_mod_to_equations; lia.
Qed.

(** ** Calendar arithmetic *)

Lemma days_in_month_bounds (y m : Z) : 28 ≤ days_in_month y m ≤ 31.
Proof.
  unfold days_in_month.
  repeat match goal with |- context [if ?b then _ else _] => destruct b end; lia.
Qed.

Lemma valid_date_printable (d : datetime) : valid_date d → printable d.
Proof.
  intros (Hy & Hm & Hd). pose proof (days_in_month_bounds (year d) (month d)).
  unfold printable. lia.
Qed.

Lemma days_before_year_succ (y : Z) :
  days_before_year (y + 1) = days_before_year y + (if is_leap y then 366 else 365).
Proof.
  unfold days_before_year, is_leap. cbv zeta.
  replace (y + 1 - 1) with y by lia.
  destruct (Z.eqb_spec (y mod 4) 0), (Z.eqb_spec (y mod 100) 0),
    (Z.eqb_spec (y mod 400) 0); simpl; Z.div_mod_to_equations; lia.
Qed.

Lemma days_before_year_nonneg (y : Z) : 1 ≤ y → 0 ≤ days_before_year y.
Proof.
  intros Hy. unfold days_before_year. cbv zeta. Z.div_mod_to_equations. lia.
Qed.

Lemma toordinal_pos (d : datetime) : valid_date d → 1 ≤ toordinal d.
Proof.
  intros (Hy & Hm & Hd). unfold toordinal.
  pose proof (days_before_year_nonneg (year d) ltac:(lia)).
  assert (0 ≤ days_before_month (year d) (month d)).
  { unfold days_before_month.
    destruct (month d) as [|[[[[]|[]|]|[[]|[]|]|]|[[[]|[]|]|[[]|[]|]|]|]|];
      destruct (_ && _); lia. }
  lia.
Qed.

(** One day back is one ordinal back, within the calendar. *)
Lemma toordinal_yesterday (d : datetime) :
  valid_date d → 1 < toordinal d →
  valid_date (yesterday d) ∧ toordinal (yesterday d) = toordinal d - 1
  ∧ date_le (yesterday d) d.
Proof.
  intros (Hy & Hm & Hd) Hord. unfold yesterday.
  destruct (Z.ltb_spec 1 (day d)) as [Hday|Hday].
  { unfold valid_date, toordinal, date_le; simpl. lia. }
  assert (day d = 1) as Hd1 by lia.
  destruct (Z.ltb_spec 1 (month d)) as [Hmon|Hmon].
  - unfold valid_date, toordinal, date_le; simpl. rewrite Hd1.
    pose proof (days_in_month_bounds (year d) (month d - 1)).
    assert (month d = 2 ∨ month d = 3 ∨ month d = 4 ∨ month d = 5 ∨
            month d = 6 ∨ month d = 7 ∨ month d = 8 ∨ month d = 9 ∨
            month d = 10 ∨ month d = 11 ∨ month d = 12) as Hcases by lia.
    unfold days_in_month, days_before_month in *.
    destruct (is_leap (year d));
      repeat destruct Hcases as [Hcases|Hcases]; rewrite Hcases in *;
      simpl; lia.
  - assert (month d = 1) as Hm1 by lia.
    assert (year d ≠ 1) as Hy1.
    { intros Hy1. revert Hord. unfold toordinal. rewrite Hy1, Hm1, Hd1.
      vm_compute. discriminate. }
    pose proof (days_before_year_succ (year d - 1)) as Hsucc.
    replace (year d - 1 + 1) with (year d) in Hsucc by lia.
    unfold valid_date, toordinal, date_le; simpl. rewrite Hm1, Hd1, Hsucc.
    unfold days_in_month, days_before_month. simpl.
    destruct (is_leap (year d - 1)), (is_leap (year d)); simpl; lia.
Qed.

Lemma date_le_refl (d : datetime) : date_le d d.
Proof. unfold date_le. lia. Qed.

Lemma date_le_trans (d1 d2 d3 : datetime) :
  date_le d1 d2 → date_le d2 d3 → date_le d1 d3.
Proof. unfold date_le. lia. Qed.

Lemma iter_yesterday_spec (d : datetime) (k : nat) :
  valid_date d → Z.of_nat k < toordinal d →
  valid_date (Nat.iter k yesterday d)
  ∧ toordinal (Nat.iter k yesterday d) = toordinal d - Z.of_nat k
  ∧ date_le (Nat.iter k yesterday d) d.
Proof.
  intros Hd. induction k as [|k IH]; intros Hk.
  - simpl. split; [exact Hd | split; [lia | apply date_le_refl]].
  - destruct IH as (Hv & Ho & Hle); [lia |].
    simpl. destruct (toordinal_yesterday _ Hv) as (Hv' & Ho' & Hle'); [lia |].
    split; [exact Hv' | split; [lia | eapply date_le_trans; eassumption]].
Qed.

(** [n] days back, as long as the calendar reaches that far. *)
Lemma minus_days_spec (d : datetime) (n : Z) :
  valid_date d → 0 ≤ n < toordinal d →
  valid_date (minus_days d n) ∧ toordinal (minus_days d n) = toordinal d - n
  ∧ date_le (minus_days d n) d.
Proof.
  intros Hd Hn. unfold minus_days.
  destruct (iter_yesterday_spec d (Z.to_nat n) Hd) as (Hv & Ho & Hle); [lia |].
  rewrite Z2Nat.id in Ho by lia. auto.
Qed.

(** The weekday index never reaches before the first day of the calendar,
    which is a Monday. *)
Lemma weekday_bounds (d : datetime) :
  1 ≤ toordinal d → 0 ≤ weekday d ≤ 6 ∧ weekday d < toordinal d.
Proof.
  intros Ho. unfold weekday. Z.div_mod_to_equations. lia.
Qed.

(** The Monday of the week is a date of the calendar, [weekday] days before
    today, and its string is not after today's. *)
Lemma week_start_spec (now : datetime) :
  valid_date now →
  let monday := minus_days now (weekday now) in
  valid_date monday ∧ toordinal monday = toordinal now - weekday now
  ∧ weekday monday = 0
  ∧ String.leb (strftime_ymd monday) (strftime_ymd now) = true.
Proof.
  intros Hv monday. pose proof (toordinal_pos now Hv) as Ho.
  destruct (weekday_bounds now Ho) as [Hw Hlt].
  destruct (minus_days_spec now (weekday now) Hv ltac:(lia)) as (Hv' & Ho' & Hle).
  fold monday in Hv', Ho', Hle.
  split; [exact Hv' | split; [exact Ho' | split]].
  - unfold weekday in *. rewrite Ho'. Z.div_mod_to_equations. lia.
  - apply strftime_ymd_le; auto using valid_date_printable.
Qed.

(** The first day of the month is not after any day of the month. *)
Lemma month_start_le (now : datetime) (s : string) :
  valid_date now → in_current_month now s = true →
  String.leb (strftime_ymd (replace_day1 now)) s = true.
Proof.
  intros Hv Hin. unfold in_current_month in Hin.
  apply existsb_exists in Hin as (dd & Hdd & Heq).
  apply String.eqb_eq in Heq. subst s.
  apply list_elem_of_In, elem_of_seqZ in Hdd.
  pose proof (days_in_month_bounds (year now) (month now)).
  destruct Hv as (Hy & Hm & Hd).
  apply strftime_ymd_le; unfold printable, date_le, replace_day1; simpl; lia.
Qed.

(** ** Reading the collections *)

Section Reading.
Context {num : Type} `{Number num}.

Abbreviation doc := (gmap string (value num)).

Lemma lookup_without_id (d : doc) (key : string) :
  key ≠ "_id" → without_id d !! key = d !! key.
Proof. intros Hne. unfold without_id. apply lookup_delete_ne. congruence. Qed.

Lemma find_all (coll : list doc) : find QAll coll = without_id <$> coll.
Proof.
  unfold find. f_equal. induction coll as [|d coll IH]; [reflexivity |].
  rewrite filter_cons_True by reflexivity. f_equal. exact IH.
Qed.

Lemma to_list_find_all (coll : list doc) :
  to_list 10000 (find QAll coll) = without_id <$> first_10000 coll.
Proof. rewrite find_all. unfold to_list, first_10000. symmetry. apply fmap_take. Qed.

Lemma first_10000_idemp (coll : list doc) :
  first_10000 (first_10000 coll) = first_10000 coll.
Proof. unfold first_10000. rewrite take_take, Nat.min_id. reflexivity. Qed.

Lemma first_10000_short (coll : list doc) :
  (length coll ≤ Z.to_nat 10000)%nat → first_10000 coll = coll.
Proof. intros Hlen. unfold first_10000. apply take_ge. exact Hlen. Qed.

(** The generator sum over documents on which the test and the amount are
    well defined is the sum of the specification. *)
Lemma sum_amounts_total (cond : doc → result bool) (p : doc → bool)
    (docs : list doc) (acc : num) :
  Forall (λ d, cond (without_id d) = Ok (p d)
               ∧ (p d = true → ∃ x, d !! "amount" = Some (VNum x))) docs →
  sum_amounts cond (without_id <$> docs) acc
  = Ok (fold_left add (amount_of <$> List.filter p docs) acc).
Proof.
  intros Hall. revert acc.
  induction Hall as [|d docs [Hcond Hamount] _ IH]; intros acc;
    [reflexivity |].
  simpl. rewrite Hcond. simpl. destruct (p d) eqn:Hp.
  - destruct (Hamount eq_refl) as [x Hx].
    unfold getitem. rewrite lookup_without_id by discriminate.
    rewrite Hx. simpl.
    assert (amount_of d = x) as -> by (unfold amount_of; rewrite Hx; reflexivity).
    apply IH.
  - apply IH.
Qed.

Lemma py_sum_total (cond : doc → result bool) (p : doc → bool)
    (docs : list doc) :
  Forall (λ d, cond (without_id d) = Ok (p d)
               ∧ (p d = true → ∃ x, d !! "amount" = Some (VNum x))) docs →
  py_sum cond (without_id <$> docs) = Ok (total_where p docs).
Proof. apply sum_amounts_total. Qed.

(** A document the test rejects adds nothing. *)
Lemma sum_amounts_skip (cond : doc → result bool) (e : doc)
    (before after : list doc) (acc : num) :
  cond e = Ok false →
  sum_amounts cond (before ++ e :: after) acc
  = sum_amounts cond (before ++ after) acc.
Proof.
  intros He. revert acc. induction before as [|d before IH]; intros acc; simpl.
  - rewrite He. reflexivity.
  - destruct (cond d) as [[]|]; simpl; [|apply IH|reflexivity].
    destruct (getitem d "amount") as [v|]; simpl; [|reflexivity].
    destruct (as_num v); simpl; [apply IH|reflexivity].
Qed.

Lemma forallb_first_10000 (p : doc → bool) (coll : list doc) :
  forallb p coll = true → Forall (λ d, p d = true) (first_10000 coll).
Proof.
  intros Hall. apply Forall_take. apply Forall_forall. intros d Hd.
  rewrite forallb_forall in Hall. apply Hall, list_elem_of_In, Hd.
Qed.

(** The limit record as [find_one] returns it. *)
Lemma find_one_limit (db : database num) :
  find_one "limit_settings" (limits db) = without_id <$> limit_record db.
Proof. reflexivity. Qed.

Lemma limit_record_truthy (db : database num) (d : doc) :
  limit_record db = Some d → falsy (Some (without_id d)) = false.
Proof.
  intros Hfind. apply find_some in Hfind as [_ Hid].
  unfold has_id in Hid. simpl. apply bool_decide_eq_false.
  intros Hdom. apply dom_empty_iff_L in Hdom.
  assert (without_id d !! "id" = None) as Hnone by (rewrite Hdom; apply lookup_empty).
  rewrite lookup_without_id in Hnone by discriminate.
  rewrite Hnone in Hid. discriminate.
Qed.
End Reading.

(** ** The summary of a well-shaped store *)

Section Stored.
Context {num : Type} `{Number num}.

Abbreviation doc := (gmap string (value num)).

Lemma py_eq_str_field (d : doc) (key s : string) :
  key ≠ "_id" → py_eq_str (without_id d !! key) s = field_is key s d.
Proof. intros Hne. rewrite lookup_without_id by exact Hne. reflexivity. Qed.

Lemma expense_amount (d : doc) :
  is_expense d = true → ∃ x, d !! "amount" = Some (VNum x).
Proof.
  unfold is_expense. destruct (d !! "date") as [[]|]; try discriminate.
  destruct (d !! "amount") as [[]|]; try discriminate. eauto.
Qed.

Lemma expense_on_day (d : doc) (s : string) :
  is_expense d = true → py_eq_str (without_id d !! "date") s = on_day s d.
Proof.
  rewrite lookup_without_id by discriminate. unfold is_expense, on_day, date_of.
  destruct (d !! "date") as [[]|]; try discriminate. reflexivity.
Qed.

Lemma expense_since (d : doc) (s : string) :
  is_expense d = true →
  py_ge_str (default (VStr "") (without_id d !! "date")) s = Ok (since s d).
Proof.
  rewrite lookup_without_id by discriminate. unfold is_expense, since, date_of.
  destruct (d !! "date") as [[]|]; try discriminate. reflexivity.
Qed.

Lemma debt_amount (d : doc) :
  is_debt d = true → ∃ x, d !! "amount" = Some (VNum x).
Proof.
  unfold is_debt. destruct (d !! "debt_type") as [[]|]; try discriminate.
  destruct (d !! "status") as [[]|]; try discriminate.
  destruct (d !! "amount") as [[]|]; try discriminate. eauto.
Qed.

Lemma stored_ok_parts (db : database num) :
  stored_ok db = true →
  Forall (λ d, is_expense d = true) (first_10000 (expenses db))
  ∧ Forall (λ d, is_debt d = true) (first_10000 (debts db))
  ∧ match limit_record db with
    | Some d => is_limit d = true
    | None => True
    end.
Proof.
  unfold stored_ok. rewrite !andb_true_iff. intros [[He Hd] Hl].
  split; [apply forallb_first_10000, He |].
  split; [apply forallb_first_10000, Hd |].
  destruct (limit_record db); [exact Hl | exact I].
Qed.

(** On a well-shaped store [get_summary] raises nothing and returns the
    summary of the specification. *)
Lemma server_get_summary_stored (now : datetime) (db : database num) :
  stored_ok db = true → Server.get_summary now db = Ok (summary_of now db).
Proof.
  intros Hok. apply stored_ok_parts in Hok as (He & Hd & Hl).
  unfold Server.get_summary. cbv zeta. rewrite !to_list_find_all.
  rewrite (py_sum_total _ (on_day (strftime_ymd now))); cycle 1.
  { eapply Forall_impl; [exact He |]. intros d Hd'. simpl.
    rewrite (expense_on_day d _ Hd'). auto using expense_amount. }
  rewrite (py_sum_total _ (since (week_start_of now))); cycle 1.
  { eapply Forall_impl; [exact He |]. intros d Hd'. simpl.
    split; [apply expense_since, Hd' | auto using expense_amount]. }
  rewrite (py_sum_total _ (since (month_start_of now))); cycle 1.
  { eapply Forall_impl; [exact He |]. intros d Hd'. simpl.
    split; [apply expense_since, Hd' | auto using expense_amount]. }
  rewrite (py_sum_total _ (pending_debt "gave")); cycle 1.
  { eapply Forall_impl; [exact Hd |]. intros d Hd'. simpl.
    rewrite !py_eq_str_field by discriminate. auto using debt_amount. }
  rewrite (py_sum_total _ (pending_debt "owe")); cycle 1.
  { eapply Forall_impl; [exact Hd |]. intros d Hd'. simpl.
    rewrite !py_eq_str_field by discriminate. auto using debt_amount. }
  cbn [bind]. rewrite find_one_limit. unfold summary_of, limit_of.
  destruct (limit_record db) as [d|] eqn:Hlim.
  - cbn [fmap option_fmap option_map]. rewrite (limit_record_truthy db d Hlim).
    cbn [default]. unfold id. rewrite !lookup_without_id by discriminate.
    unfold is_limit in Hl.
    destruct (d !! "weekly_limit") as [[]|]; try discriminate.
    destruct (d !! "monthly_limit") as [[]|]; try discriminate.
    reflexivity.
  - reflexivity.
Qed.

Lemma backend_date_is (d : doc) (s : string) :
  is_expense d = true → Backend.date_is s (without_id d) = Ok (on_day s d).
Proof.
  intros Hd. unfold Backend.date_is, getitem.
  rewrite <- (expense_on_day d s Hd). rewrite lookup_without_id by discriminate.
  unfold is_expense in Hd. destruct (d !! "date") as [[]|]; try discriminate.
  reflexivity.
Qed.

Lemma backend_date_from (d : doc) (s : string) :
  is_expense d = true → Backend.date_from s (without_id d) = Ok (since s d).
Proof.
  intros Hd. unfold Backend.date_from, getitem.
  rewrite <- (expense_since d s Hd). rewrite lookup_without_id by discriminate.
  unfold is_expense in Hd. destruct (d !! "date") as [[]|]; try discriminate.
  reflexivity.
Qed.

Lemma backend_pending (d : doc) (s : string) :
  is_debt d = true → Backend.pending s (without_id d) = Ok (pending_debt s d).
Proof.
  intros Hd. unfold Backend.pending, getitem, pending_debt, field_is.
  rewrite !lookup_without_id by discriminate. unfold is_debt in Hd.
  destruct (d !! "debt_type") as [[]|]; try discriminate.
  destruct (d !! "status") as [[]|]; try discriminate.
  simpl. destruct (String.eqb _ s); reflexivity.
Qed.

Lemma backend_get_summary_stored (now : datetime) (db : database num) :
  stored_ok db = true → Backend.get_summary now db = Ok (summary_of now db).
Proof.
  intros Hok. apply stored_ok_parts in Hok as (He & Hd & Hl).
  unfold Backend.get_summary. cbv zeta. rewrite !to_list_find_all.
  rewrite (py_sum_total _ (on_day (strftime_ymd now))); cycle 1.
  { eapply Forall_impl; [exact He |]. intros d Hd'. simpl.
    split; [apply backend_date_is, Hd' | auto using expense_amount]. }
  rewrite (py_sum_total _ (since (week_start_of now))); cycle 1.
  { eapply Forall_impl; [exact He |]. intros d Hd'. simpl.
    split; [apply backend_date_from, Hd' | auto using expense_amount]. }
  rewrite (py_sum_total _ (since (month_start_of now))); cycle 1.
  { eapply Forall_impl; [exact He |]. intros d Hd'. simpl.
    split; [apply backend_date_from, Hd' | auto using expense_amount]. }
  rewrite (py_sum_total _ (pending_debt "gave")); cycle 1.
  { eapply Forall_impl; [exact Hd |]. intros d Hd'. simpl.
    split; [apply backend_pending, Hd' | auto using debt_amount]. }
  rewrite (py_sum_total _ (pending_debt "owe")); cycle 1.
  { eapply Forall_impl; [exact Hd |]. intros d Hd'. simpl.
    split; [apply backend_pending, Hd' | auto using debt_amount]. }
  cbn [bind]. rewrite find_one_limit. unfold summary_of, limit_of.
  destruct (limit_record db) as [d|] eqn:Hlim.
  - cbn [fmap option_fmap option_map]. rewrite (limit_record_truthy db d Hlim).
    cbn [default]. unfold id, getitem.
    rewrite !lookup_without_id by discriminate.
    unfold is_limit in Hl.
    destruct (d !! "weekly_limit") as [[]|]; try discriminate.
    destruct (d !! "monthly_limit") as [[]|]; try discriminate.
    reflexivity.
  - reflexivity.
Qed.
End Stored.

(** ** What every returned summary satisfies *)

Section Returned.
Context {num : Type} `{Number num}.

Ltac bind_ok H :=
  match type of H with
  | bind ?m _ = Ok _ =>
      let E := fresh "E" in
      destruct m eqn:E; cbn [bind] in H; [|discriminate H]
  end.

Lemma server_get_summary_derived (now : datetime) (db : database num)
    (s : Summary num) :
  Server.get_summary now db = Ok s → derived s.
Proof.
  unfold Server.get_summary. cbv zeta. intros Hs.
  do 3 bind_ok Hs.
  destruct (if falsy _ then _ else _) as [wl ml].
  do 4 bind_ok Hs.
  injection Hs as <-. unfold derived. simpl. auto.
Qed.

Lemma backend_get_summary_derived (now : datetime) (db : database num)
    (s : Summary num) :
  Backend.get_summary now db = Ok s → derived s.
Proof.
  unfold Backend.get_summary. cbv zeta. intros Hs.
  do 4 bind_ok Hs.
  match type of Hs with
  | (let '(_, _) := ?p in _) = _ => destruct p as [wl ml]
  end.
  do 4 bind_ok Hs.
  injection Hs as <-. unfold derived. simpl. auto.
Qed.

Lemma get_summary_derived (now : datetime) (db : database num)
    (s : Summary num) :
  Server.get_summary now db = Ok s ∨ Backend.get_summary now db = Ok s →
  derived s.
Proof.
  intros [Hs|Hs];
    eauto using server_get_summary_derived, backend_get_summary_derived.
Qed.

(** The threshold test sorts a pair into the tiers of the specification. *)
Lemma warning_classifies `{!NumberOrder num} (total limit : num) :
  classifies total limit (warning total limit).
Proof.
  unfold classifies, warning. split.
  - intros Hle. rewrite (leb_not_ltb _ _ Hle). reflexivity.
  - intros Hle. cbv zeta. destruct (ltb (of_int 0) limit) eqn:Hlt.
    + split; [intros ->; reflexivity |]. split.
      * intros H80 H100. rewrite (ltb_not_leb _ _ H100), H80. reflexivity.
      * intros H80. rewrite (ltb_not_leb _ _ H80).
        destruct (leb (of_int 100) _) eqn:H100; [| reflexivity].
        pose proof (leb_trans _ _ _ leb_80_100 H100) as Hge.
        rewrite (ltb_not_leb _ _ H80) in Hge. discriminate.
    + split; [|split]; try reflexivity.
      * intros H100.
        destruct (percent_unordered total limit (of_int 100) Hle Hlt) as [Hn _].
        rewrite Hn in H100. discriminate.
      * intros H80.
        destruct (percent_unordered total limit (of_int 80) Hle Hlt) as [Hn _].
        rewrite Hn in H80. discriminate.
Qed.

(** The summary route looks at the first 10000 documents only. *)
Lemma get_summary_capped (now : datetime) (db : database num) :
  Server.get_summary now (capped db) = Server.get_summary now db
  ∧ Backend.get_summary now (capped db) = Backend.get_summary now db.
Proof.
  unfold Server.get_summary, Backend.get_summary, capped. cbv zeta. simpl.
  rewrite !to_list_find_all, !first_10000_idemp. split; reflexivity.
Qed.
End Returned.

(** ** The warning tiers *)

(** C1. For every spent amount [total >= 0] and every limit, the threshold
    test of [get_summary] gives "none" when [limit <= 0]; otherwise, with
    [percent = (total / limit) * 100], it gives "red" when [percent >= 100],
    "yellow" when [80 <= percent < 100] and "none" when [percent < 80], so
    that each boundary belongs to the higher tier. Both variants of
    [get_summary] apply it to the pair of the week and to the pair of the
    month, each on its own. *)
Theorem warning_tiers {num : Type} `{NumberOrder num} :
  (∀ total limit : num,
     leb (of_int 0) total = true → classifies total limit (warning total limit))
  ∧ (∀ (now : datetime) (db : database num) (s : Summary num),
       Server.get_summary now db = Ok s ∨ Backend.get_summary now db = Ok s →
       classifies (total_week s) (weekly_limit s) (weekly_warning s)
       ∧ classifies (total_month s) (monthly_limit s) (monthly_warning s)).
Proof.
  split.
  - intros total limit _. apply warning_classifies.
  - intros now db s Hs.
    destruct (get_summary_derived now db s Hs) as (_ & _ & -> & ->).
    split; apply warning_classifies.
Qed.

(** At exactly 80% of the limit the warning is "yellow", at exactly 100% it
    is "red", and the sample store, 110 spent of 100, is "red". *)
Lemma warning_tiers_witness :
  warning 80%float 100%float = "yellow"
  ∧ warning 100%float 100%float = "red"
  ∧ classifies 80%float 100%float (warning 80%float 100%float)
  ∧ classifies 110%float 100%float (weekly_warning Samples.db_summary).
Proof.
  split; [reflexivity |]. split; [reflexivity |]. split.
  - apply (proj1 (warning_tiers (num := float))). reflexivity.
  - apply (proj2 (warning_tiers (num := float)) Samples.thursday Samples.db
             Samples.db_summary).
    left. vm_compute. reflexivity.
Defined.

(** ** Remaining budget *)

(** C6. The summary either variant returns has
    [remaining_week = weekly_limit - total_week] and
    [remaining_month = monthly_limit - total_month], whatever the store:
    nothing brings a negative difference back to zero. *)
Theorem remaining_is_limit_minus_total {num : Type} `{Number num}
    (now : datetime) (db : database num) (s : Summary num) :
  Server.get_summary now db = Ok s ∨ Backend.get_summary now db = Ok s →
  remaining_week s = sub (weekly_limit s) (total_week s)
  ∧ remaining_month s = sub (monthly_limit s) (total_month s).
Proof.
  intros Hs. destruct (get_summary_derived now db s Hs) as (Hw & Hm & _).
  auto.
Qed.

(** With 110 spent in the week against a limit of 100 the remaining budget
    of the week is 100 - 110, below zero. *)
Lemma remaining_is_limit_minus_total_witness :
  Server.get_summary Samples.thursday Samples.db = Ok Samples.db_summary
  ∧ ltb (remaining_week Samples.db_summary) (of_int 0) = true
  ∧ remaining_week Samples.db_summary = sub 100%float 110%float
  ∧ remaining_month Samples.db_summary = sub 500%float 122%float.
Proof.
  assert (Server.get_summary Samples.thursday Samples.db = Ok Samples.db_summary)
    as Hs by (vm_compute; reflexivity).
  split; [exact Hs |]. split; [reflexivity |].
  exact (remaining_is_limit_minus_total Samples.thursday Samples.db
           Samples.db_summary (or_introl Hs)).
Defined.

(** ** A store without limits *)

(** C5. When the store holds no limit record, [get_summary] returns a summary
    with both limits zero and both warnings "none", whatever was spent. *)
Theorem no_limit_record {num : Type} `{NumberOrder num}
    (now : datetime) (db : database num) :
  stored_ok db = true → limit_record db = None →
  ∃ s, Server.get_summary now db = Ok s ∧ Backend.get_summary now db = Ok s
       ∧ weekly_limit s = of_int 0 ∧ monthly_limit s = of_int 0
       ∧ weekly_warning s = "none" ∧ monthly_warning s = "none".
Proof.
  intros Hok Hnone. exists (summary_of now db).
  split; [apply server_get_summary_stored, Hok |].
  split; [apply backend_get_summary_stored, Hok |].
  unfold summary_of, limit_of. rewrite Hnone. simpl.
  unfold warning. rewrite (leb_not_ltb _ _ leb_zero). auto.
Qed.

Lemma no_limit_record_witness :
  ∃ s, Server.get_summary Samples.thursday Samples.db_no_limit = Ok s
       ∧ Backend.get_summary Samples.thursday Samples.db_no_limit = Ok s
       ∧ weekly_limit s = of_int 0 ∧ monthly_limit s = of_int 0
       ∧ weekly_warning s = "none" ∧ monthly_warning s = "none".
Proof.
  apply (no_limit_record (num := float) Samples.thursday Samples.db_no_limit);
    reflexivity.
Defined.

(** ** The cap on the documents read *)

(** C10. [get_summary] reads at most 10000 expense documents and at most
    10000 debt documents: on any store it returns what it returns on the
    store cut down to the first 10000 documents of each of the two
    collections, so that every total leaves out the documents behind them. *)
Theorem summary_reads_first_10000 {num : Type} `{Number num}
    (now : datetime) (db : database num) :
  Server.get_summary now db = Server.get_summary now (capped db)
  ∧ Backend.get_summary now db = Backend.get_summary now (capped db).
Proof.
  destruct (get_summary_capped now db) as [Hs Hb]. split; congruence.
Qed.

(** ** The totals *)

Section Totals.
Context {num : Type} `{Number num}.

Abbreviation doc := (gmap string (value num)).

Lemma is_debt_mark_paid (d : doc) :
  is_debt d = true → is_debt (mark_paid d) = true.
Proof.
  unfold is_debt, mark_paid. rewrite lookup_insert_eq.
  rewrite !lookup_insert_ne by discriminate.
  destruct (d !! "debt_type") as [[]|]; try discriminate.
  destruct (d !! "status") as [[]|]; try discriminate. auto.
Qed.

Lemma stored_ok_all_paid (db : database num) :
  stored_ok db = true → stored_ok (all_paid db) = true.
Proof.
  unfold stored_ok, all_paid, limit_record. simpl.
  rewrite !andb_true_iff. intros [[He Hd] Hl].
  split; [split; [exact He |] | exact Hl].
  rewrite forallb_forall in Hd. apply forallb_forall. intros d Hin.
  apply list_elem_of_In, list_elem_of_fmap in Hin as (d' & -> & Hin).
  apply is_debt_mark_paid, Hd, list_elem_of_In, Hin.
Qed.

(** No paid debt is pending. *)
Lemma total_where_paid (debt_type : string) (ds : list doc) :
  total_where (pending_debt debt_type) (mark_paid <$> ds) = of_int 0.
Proof.
  unfold total_where.
  assert (List.filter (pending_debt debt_type) (mark_paid <$> ds) = []) as ->;
    [| reflexivity].
  induction ds as [|d ds IH]; [reflexivity |].
  simpl. unfold pending_debt at 1, field_is, mark_paid.
  rewrite lookup_insert_eq. simpl. rewrite andb_false_r. exact IH.
Qed.

Lemma first_10000_fmap (f : doc → doc) (coll : list doc) :
  first_10000 (f <$> coll) = f <$> first_10000 coll.
Proof. unfold first_10000. symmetry. apply fmap_take. Qed.
End Totals.

Lemma crowded_summary_returned :
  Server.get_summary Samples.thursday Samples.crowded = Ok Samples.crowded_summary
  ∧ Backend.get_summary Samples.thursday Samples.crowded
    = Ok Samples.crowded_summary.
Proof. split; vm_compute; reflexivity. Qed.

(** C2, as stated, on a store whose well-shaped expenses are more than
    [to_list] returns: the expense of today is the 10001st, the summary
    leaves it out of [total_today] (and of the week and the month), the sum
    over the stored expenses counts it. *)
Lemma expense_totals_counterexample :
  stored_ok Samples.crowded = true
  ∧ Server.get_summary Samples.thursday Samples.crowded
    = Ok Samples.crowded_summary
  ∧ Backend.get_summary Samples.thursday Samples.crowded
    = Ok Samples.crowded_summary
  ∧ total_today Samples.crowded_summary
    ≠ total_where (on_day (strftime_ymd Samples.thursday))
        (expenses Samples.crowded).
Proof.
  destruct crowded_summary_returned as [Hs Hb].
  split; [vm_compute; reflexivity |].
  split; [exact Hs |]. split; [exact Hb |].
  intros Heq. apply (f_equal (λ x, PrimFloat.eqb x 0)) in Heq.
  vm_compute in Heq. discriminate.
Qed.

(** C2 (amended). On every store of well-shaped documents and at every
    instant, both variants of [get_summary] return a summary whose
    [total_today] is the sum of [amount] over the expenses whose date string
    equals today's, whose [total_week] is the sum over those whose date
    string is [>=] the string of [now] minus [weekday] days, a Monday, and
    whose [total_month] is the sum over those whose date string is [>=] the
    first day of the month of [now], the strings compared character by
    character; the sums range over the first 10000 stored expenses, which
    are all of them when no more are stored. *)
Theorem expense_totals {num : Type} `{Number num}
    (now : datetime) (db : database num) :
  stored_ok db = true →
  ∃ s, Server.get_summary now db = Ok s ∧ Backend.get_summary now db = Ok s
    ∧ total_today s
      = total_where (on_day (strftime_ymd now)) (first_10000 (expenses db))
    ∧ total_week s
      = total_where (since (strftime_ymd (minus_days now (weekday now))))
          (first_10000 (expenses db))
    ∧ total_month s
      = total_where (since (strftime_ymd (replace_day1 now)))
          (first_10000 (expenses db))
    ∧ (valid_date now → weekday (minus_days now (weekday now)) = 0)
    ∧ (Z.of_nat (length (expenses db)) ≤ 10000 →
       first_10000 (expenses db) = expenses db).
Proof.
  intros Hok. exists (summary_of now db).
  split; [apply server_get_summary_stored, Hok |].
  split; [apply backend_get_summary_stored, Hok |].
  do 3 (split; [reflexivity |]). split.
  - intros Hv. apply (week_start_spec now Hv).
  - intros Hlen. apply first_10000_short. lia.
Qed.

Lemma expense_totals_witness :
  ∃ s, Server.get_summary Samples.thursday Samples.db = Ok s
    ∧ Backend.get_summary Samples.thursday Samples.db = Ok s
    ∧ total_today s
      = total_where (on_day "2024-06-20") (first_10000 (expenses Samples.db))
    ∧ total_week s
      = total_where (since "2024-06-17") (first_10000 (expenses Samples.db))
    ∧ total_month s
      = total_where (since "2024-06-01") (first_10000 (expenses Samples.db))
    ∧ (valid_date Samples.thursday →
       weekday (minus_days Samples.thursday (weekday Samples.thursday)) = 0)
    ∧ (Z.of_nat (length (expenses Samples.db)) ≤ 10000 →
       first_10000 (expenses Samples.db) = expenses Samples.db).
Proof.
  exact (expense_totals Samples.thursday Samples.db eq_refl).
Defined.

(** C4, as stated, on a store with more debts than [to_list] returns: the
    pending debt is the 10001st and [money_gave] leaves it out. *)
Lemma debt_totals_counterexample :
  stored_ok Samples.crowded = true
  ∧ Server.get_summary Samples.thursday Samples.crowded
    = Ok Samples.crowded_summary
  ∧ Backend.get_summary Samples.thursday Samples.crowded
    = Ok Samples.crowded_summary
  ∧ money_gave Samples.crowded_summary
    ≠ total_where (pending_debt "gave") (debts Samples.crowded).
Proof.
  destruct crowded_summary_returned as [Hs Hb].
  split; [vm_compute; reflexivity |].
  split; [exact Hs |]. split; [exact Hb |].
  intros Heq. apply (f_equal (λ x, PrimFloat.eqb x 0)) in Heq.
  vm_compute in Heq. discriminate.
Qed.

(** C4 (amended). On every store of well-shaped documents both variants of
    [get_summary] return [money_gave], the sum of [amount] over the debts
    with [debt_type == "gave"] and [status == "pending"], and [money_owe],
    the same for ["owe"], the sums ranging over the first 10000 stored debts
    (all of them when no more are stored); the instant plays no part in
    them; and once the status of every debt is "paid", both are zero. *)
Theorem debt_totals {num : Type} `{Number num}
    (now now' : datetime) (db : database num) :
  stored_ok db = true →
  ∃ s s' paid,
    Server.get_summary now db = Ok s ∧ Backend.get_summary now db = Ok s
    ∧ money_gave s = total_where (pending_debt "gave") (first_10000 (debts db))
    ∧ money_owe s = total_where (pending_debt "owe") (first_10000 (debts db))
    ∧ (Z.of_nat (length (debts db)) ≤ 10000 →
       first_10000 (debts db) = debts db)
    ∧ Server.get_summary now' db = Ok s' ∧ Backend.get_summary now' db = Ok s'
    ∧ money_gave s' = money_gave s ∧ money_owe s' = money_owe s
    ∧ Server.get_summary now (all_paid db) = Ok paid
    ∧ Backend.get_summary now (all_paid db) = Ok paid
    ∧ money_gave paid = of_int 0 ∧ money_owe paid = of_int 0.
Proof.
  intros Hok.
  exists (summary_of now db), (summary_of now' db), (summary_of now (all_paid db)).
  split; [apply server_get_summary_stored, Hok |].
  split; [apply backend_get_summary_stored, Hok |].
  do 2 (split; [reflexivity |]).
  split; [intros Hlen; apply first_10000_short; lia |].
  split; [apply server_get_summary_stored, Hok |].
  split; [apply backend_get_summary_stored, Hok |].
  do 2 (split; [reflexivity |]).
  split; [apply server_get_summary_stored, stored_ok_all_paid, Hok |].
  split; [apply backend_get_summary_stored, stored_ok_all_paid, Hok |].
  unfold summary_of, all_paid. simpl.
  rewrite first_10000_fmap, !total_where_paid. auto.
Qed.

Lemma debt_totals_witness :
  ∃ s s' paid,
    Server.get_summary Samples.thursday Samples.db = Ok s
    ∧ Backend.get_summary Samples.thursday Samples.db = Ok s
    ∧ money_gave s
      = total_where (pending_debt "gave") (first_10000 (debts Samples.db))
    ∧ money_owe s
      = total_where (pending_debt "owe") (first_10000 (debts Samples.db))
    ∧ (Z.of_nat (length (debts Samples.db)) ≤ 10000 →
       first_10000 (debts Samples.db) = debts Samples.db)
    ∧ Server.get_summary (replace_day1 Samples.thursday) Samples.db = Ok s'
    ∧ Backend.get_summary (replace_day1 Samples.thursday) Samples.db = Ok s'
    ∧ money_gave s' = money_gave s ∧ money_owe s' = money_owe s
    ∧ Server.get_summary Samples.thursday (all_paid Samples.db) = Ok paid
    ∧ Backend.get_summary Samples.thursday (all_paid Samples.db) = Ok paid
    ∧ money_gave paid = of_int 0 ∧ money_owe paid = of_int 0.
Proof.
  exact (debt_totals Samples.thursday (replace_day1 Samples.thursday)
           Samples.db eq_refl).
Defined.

(** ** The three windows are nested *)

Section Nested.
Context {num : Type} `{Number num}.

Abbreviation doc := (gmap string (value num)).

(** A sum over fewer documents, with non-negative amounts, is not larger. *)
Lemma fold_amounts_mono `{!NumberOrder num} `{!NumberMonotone num}
    (p q : doc → bool) (docs : list doc) (a b : num) :
  Forall (λ d, (p d = true → q d = true)
               ∧ (q d = true → non_negative d = true)) docs →
  leb (of_int 0) a = true → leb a b = true →
  leb (fold_left add (amount_of <$> List.filter p docs) a)
      (fold_left add (amount_of <$> List.filter q docs) b) = true.
Proof.
  intros Hall. revert a b.
  induction Hall as [|d docs [Hpq Hpos] _ IH]; intros a b Ha Hab;
    [exact Hab |].
  simpl. destruct (p d) eqn:Hp, (q d) eqn:Hq; simpl.
  - apply IH.
    + apply (add_incr _ _ _ leb_zero Ha), Hpos. reflexivity.
    + apply add_mono; [exact Ha | exact Hab | apply Hpos; reflexivity].
  - specialize (Hpq eq_refl). discriminate.
  - apply IH; [exact Ha |].
    apply add_incr; [exact Ha | exact Hab | apply Hpos; reflexivity].
  - apply IH; assumption.
Qed.

Lemma total_where_mono `{!NumberOrder num} `{!NumberMonotone num}
    (p q : doc → bool) (docs : list doc) :
  Forall (λ d, (p d = true → q d = true)
               ∧ (q d = true → non_negative d = true)) docs →
  leb (total_where p docs) (total_where q docs) = true.
Proof.
  intros Hall. apply fold_amounts_mono; [exact Hall | apply leb_zero ..].
Qed.

(** An expense of today is an expense of the week. *)
Lemma on_day_since_week (now : datetime) (e : doc) :
  valid_date now →
  on_day (strftime_ymd now) e = true → since (week_start_of now) e = true.
Proof.
  intros Hv Hday. unfold on_day in Hday. apply String.eqb_eq in Hday.
  unfold since, week_start_of. rewrite Hday. apply (week_start_spec now Hv).
Qed.

(** An expense of the week dated in the current month is one of the month. *)
Lemma since_week_month (now : datetime) (e : doc) :
  valid_date now → within_month now e = true →
  since (week_start_of now) e = true → since (month_start_of now) e = true.
Proof.
  intros Hv Hin Hweek. unfold within_month, matching in Hin.
  rewrite Hweek, orb_true_r in Hin. simpl in Hin.
  unfold since, month_start_of. apply month_start_le; assumption.
Qed.
End Nested.

(** C7. For every store of well-shaped documents in which the amounts of the
    expenses are non-negative and every expense whose date matches one of
    the windows is dated within the current calendar month, every expense of
    today is one of the week, every expense of the week is one of the month,
    and both variants of [get_summary] return
    [total_today <= total_week <= total_month]. The totals are sums from
    left to right in an arithmetic whose addition of non-negative numbers is
    monotone, as IEEE addition is ([float64_monotone]). *)
Theorem totals_nested {num : Type} `{NumberOrder num} `{!NumberMonotone num}
    (now : datetime) (db : database num) :
  valid_date now → stored_ok db = true →
  forallb non_negative (expenses db) = true →
  forallb (within_month now) (expenses db) = true →
  Forall (λ e, on_day (strftime_ymd now) e = true →
               since (week_start_of now) e = true) (expenses db)
  ∧ Forall (λ e, since (week_start_of now) e = true →
                 since (month_start_of now) e = true) (expenses db)
  ∧ ∃ s, Server.get_summary now db = Ok s ∧ Backend.get_summary now db = Ok s
      ∧ leb (total_today s) (total_week s) = true
      ∧ leb (total_week s) (total_month s) = true.
Proof.
  intros Hv Hok Hpos Hin.
  split; [apply Forall_forall; intros e _; apply on_day_since_week, Hv |].
  split.
  { apply Forall_forall. intros e He. apply since_week_month; [exact Hv |].
    rewrite forallb_forall in Hin. apply Hin, list_elem_of_In, He. }
  exists (summary_of now db).
  split; [apply server_get_summary_stored, Hok |].
  split; [apply backend_get_summary_stored, Hok |].
  apply forallb_first_10000 in Hpos, Hin.
  unfold summary_of. simpl. split; apply total_where_mono.
  - eapply Forall_impl; [exact Hpos |]. intros e He. simpl.
    split; [apply on_day_since_week, Hv | intros _; exact He].
  - assert (Forall (λ e, non_negative e = true ∧ within_month now e = true)
              (first_10000 (expenses db))) as Hboth
      by (apply Forall_and; split; assumption).
    eapply Forall_impl; [exact Hboth |]. intros e [He Hm]. simpl.
    split; [apply since_week_month; assumption | intros _; exact He].
Qed.

(** The sample store: 110 today, 110 in the week, 122 in the month. *)
Lemma totals_nested_witness :
  ∃ s, Server.get_summary Samples.thursday Samples.db = Ok s
    ∧ Backend.get_summary Samples.thursday Samples.db = Ok s
    ∧ leb (total_today s) (total_week s) = true
    ∧ leb (total_week s) (total_month s) = true.
Proof.
  apply (totals_nested Samples.thursday Samples.db);
    [repeat split; vm_compute; discriminate | reflexivity ..].
Defined.

(** ** Dates that are no dates *)

Section Unusable.
Context {num : Type} `{Number num}.

Abbreviation doc := (gmap string (value num)).

(** The three tests of [src/server.py] on a document without a date. *)
Lemma server_tests_missing (e : doc) (d : datetime) :
  e !! "date" = None →
  py_eq_str (without_id e !! "date") (strftime_ymd d) = false
  ∧ py_ge_str (default (VStr "") (without_id e !! "date")) (strftime_ymd d)
    = Ok false.
Proof.
  intros Hnone. rewrite lookup_without_id by discriminate. rewrite Hnone.
  split; reflexivity.
Qed.

(** The tests of both variants on a document whose date is a string. *)
Lemma tests_string (e : doc) (s day : string) :
  e !! "date" = Some (VStr s) →
  py_eq_str (without_id e !! "date") day = on_day day e
  ∧ py_ge_str (default (VStr "") (without_id e !! "date")) day
    = Ok (since day e)
  ∧ Backend.date_is day (without_id e) = Ok (on_day day e)
  ∧ Backend.date_from day (without_id e) = Ok (since day e).
Proof.
  intros Hs. unfold Backend.date_is, Backend.date_from, getitem, on_day, since,
    date_of.
  rewrite lookup_without_id by discriminate. rewrite Hs. auto.
Qed.

Lemma matching_false (now : datetime) (e : doc) :
  matching now e = false →
  on_day (strftime_ymd now) e = false
  ∧ since (strftime_ymd (minus_days now (weekday now))) e = false
  ∧ since (strftime_ymd (replace_day1 now)) e = false.
Proof.
  unfold matching, week_start_of, month_start_of.
  rewrite !orb_false_iff. tauto.
Qed.

Lemma total_where_snoc (p : doc → bool) (docs : list doc) (e : doc) :
  total_where p (docs ++ [e])
  = if p e then add (total_where p docs) (amount_of e) else total_where p docs.
Proof.
  unfold total_where, sum_of. rewrite List.filter_app. simpl.
  destruct (p e); simpl.
  - rewrite fmap_app, fold_left_app. reflexivity.
  - rewrite app_nil_r. reflexivity.
Qed.

Lemma stored_ok_init (docs : list doc) (e : doc) (ds ls : list doc) :
  stored_ok {| expenses := docs ++ [e]; debts := ds; limits := ls |} = true →
  stored_ok {| expenses := docs; debts := ds; limits := ls |} = true.
Proof.
  unfold stored_ok, limit_record. simpl. rewrite forallb_app, !andb_true_iff.
  tauto.
Qed.
End Unusable.

(** C3, as stated, on a well-shaped expense whose date string is malformed:
    "not-a-date" sorts behind every date of this century, and both variants
    count the expense in [total_week] and [total_month]. *)
Lemma malformed_date_counterexample :
  is_iso_date "not-a-date" = false
  ∧ Server.get_summary Samples.thursday Samples.malformed
    = Ok Samples.malformed_summary
  ∧ Backend.get_summary Samples.thursday Samples.malformed
    = Ok Samples.malformed_summary
  ∧ Server.get_summary Samples.thursday Samples.malformed
    ≠ Server.get_summary Samples.thursday Samples.empty
  ∧ total_week Samples.malformed_summary = 5%float
  ∧ total_month Samples.malformed_summary = 5%float.
Proof.
  split; [reflexivity |].
  split; [vm_compute; reflexivity |].
  split; [vm_compute; reflexivity |].
  split; [| split; reflexivity].
  intros Heq.
  apply (f_equal (λ r, match r with
                       | Ok s => PrimFloat.eqb (total_week s) 0
                       | Raise _ => false
                       end)) in Heq.
  vm_compute in Heq. discriminate.
Qed.

(** C3 (amended). Among at most 10000 stored expenses, [get_summary] of
    [src/server.py] leaves an expense without a [date] field out of all
    three sums and raises nothing for it. An expense whose date is a string
    is tested on the string alone, whatever its form: when the string is not
    today's and sorts before the start of the week and of the month, both
    variants leave the expense out of all three sums; and in a store of
    well-shaped documents the last expense adds its amount to each total
    whose test its string passes, the equality with today's date or the
    comparison with the start of the week or month. *)
Theorem unusable_date {num : Type} `{Number num} (now : datetime)
    (before after : list (gmap string (value num)))
    (e : gmap string (value num))
    (ds ls : list (gmap string (value num))) :
  Z.of_nat (length (before ++ e :: after)) ≤ 10000 →
  let db := {| expenses := before ++ e :: after; debts := ds; limits := ls |} in
  let rest := {| expenses := before ++ after; debts := ds; limits := ls |} in
  (e !! "date" = None →
   Server.get_summary now db = Server.get_summary now rest)
  ∧ (∀ s, e !! "date" = Some (VStr s) → matching now e = false →
     Server.get_summary now db = Server.get_summary now rest
     ∧ Backend.get_summary now db = Backend.get_summary now rest)
  ∧ (after = [] → stored_ok db = true →
     ∃ s s',
       Server.get_summary now db = Ok s ∧ Backend.get_summary now db = Ok s
       ∧ Server.get_summary now rest = Ok s'
       ∧ Backend.get_summary now rest = Ok s'
       ∧ total_today s
         = (if String.eqb (date_of e) (strftime_ymd now)
            then add (total_today s') (amount_of e) else total_today s')
       ∧ total_week s
         = (if String.leb (strftime_ymd (minus_days now (weekday now))) (date_of e)
            then add (total_week s') (amount_of e) else total_week s')
       ∧ total_month s
         = (if String.leb (strftime_ymd (replace_day1 now)) (date_of e)
            then add (total_month s') (amount_of e) else total_month s')).
Proof.
  intros Hlen db rest.
  assert (Z.of_nat (length (before ++ after)) ≤ 10000) as Hlen'.
  { revert Hlen. rewrite !length_app. simpl. lia. }
  assert (∀ F : list (gmap string (value num)) → result (Summary num),
            (F (without_id <$> (before ++ e :: after)%list)
             = F (without_id <$> (before ++ after)%list)) →
            F (to_list 10000 (find QAll (expenses db)))
            = F (to_list 10000 (find QAll (expenses rest)))) as Hread.
  { intros F HF. rewrite !to_list_find_all. unfold db, rest. simpl.
    rewrite !first_10000_short by lia. exact HF. }
  split; [| split].
  - intros Hnone.
    destruct (server_tests_missing e now Hnone) as [Htoday _].
    destruct (server_tests_missing e (minus_days now (weekday now)) Hnone)
      as [_ Hweek].
    destruct (server_tests_missing e (replace_day1 now) Hnone) as [_ Hmonth].
    unfold Server.get_summary. cbv zeta.
    apply (Hread (λ docs, bind (py_sum _ docs)
                    (λ t, bind (py_sum _ docs) (λ w, bind (py_sum _ docs) _)))).
    rewrite !fmap_app, !fmap_cons. unfold py_sum.
    rewrite !sum_amounts_skip; [reflexivity | | |]; try assumption.
    rewrite Htoday. reflexivity.
  - intros s Hs Hno. apply matching_false in Hno as (Htoday & Hweek & Hmonth).
    split.
    + destruct (tests_string e s (strftime_ymd now) Hs) as (T1 & _).
      destruct (tests_string e s (strftime_ymd (minus_days now (weekday now))) Hs)
        as (_ & W1 & _).
      destruct (tests_string e s (strftime_ymd (replace_day1 now)) Hs)
        as (_ & M1 & _).
      unfold Server.get_summary. cbv zeta.
      apply (Hread (λ docs, bind (py_sum _ docs)
                      (λ t, bind (py_sum _ docs) (λ w, bind (py_sum _ docs) _)))).
      rewrite !fmap_app, !fmap_cons. unfold py_sum.
      rewrite !sum_amounts_skip; [reflexivity | | |]; congruence.
    + destruct (tests_string e s (strftime_ymd now) Hs) as (_ & _ & T2 & _).
      destruct (tests_string e s (strftime_ymd (minus_days now (weekday now))) Hs)
        as (_ & _ & _ & W2).
      destruct (tests_string e s (strftime_ymd (replace_day1 now)) Hs)
        as (_ & _ & _ & M2).
      unfold Backend.get_summary. cbv zeta.
      apply (Hread (λ docs, bind (py_sum _ docs)
                      (λ t, bind (py_sum _ docs) (λ w, bind (py_sum _ docs) _)))).
      rewrite !fmap_app, !fmap_cons. unfold py_sum.
      rewrite !sum_amounts_skip; [reflexivity | | |]; congruence.
  - intros -> Hok. clear Hread. subst db rest. rewrite app_nil_r in *.
    pose proof (stored_ok_init _ _ _ _ Hok) as Hok'.
    eexists (summary_of now _), (summary_of now _).
    split; [apply server_get_summary_stored, Hok |].
    split; [apply backend_get_summary_stored, Hok |].
    split; [apply server_get_summary_stored, Hok' |].
    split; [apply backend_get_summary_stored, Hok' |].
    unfold summary_of. simpl.
    rewrite !first_10000_short by lia.
    rewrite !total_where_snoc. auto.
Qed.

Lemma unusable_date_witness :
  Samples.undated !! "date" = None
  ∧ Server.get_summary Samples.thursday Samples.with_undated
    = Server.get_summary Samples.thursday Samples.without_undated.
Proof.
  split; [reflexivity |].
  apply (unusable_date Samples.thursday [] [Samples.expense "e1" "2024-06-20" 40%float]
           Samples.undated [] []); [simpl; lia | reflexivity].
Defined.

(** ** The day filter of the two variants *)

(** C8. The two variants disagree on the filter "day" of [get_expenses]:
    on a store with an expense of today and one dated tomorrow,
    [src/server.py] (date [>=] and [<=] today's string) returns the expense
    of today only, [src/backend/server.py] (date [>=] today's string)
    returns both, the later one first. *)
Theorem day_filter_differs (fromisoformat : string → result Z) :
  Server.get_expenses fromisoformat Samples.thursday (Some "day") Samples.planned
  = Ok [Samples.expense "today" "2024-06-20" 40%float]
  ∧ Backend.get_expenses fromisoformat Samples.thursday (Some "day")
      Samples.planned
    = Ok [Samples.expense "ahead" "2024-06-21" 25%float;
          Samples.expense "today" "2024-06-20" 40%float]
  ∧ Server.get_expenses fromisoformat Samples.thursday (Some "day")
      Samples.planned
    ≠ Backend.get_expenses fromisoformat Samples.thursday (Some "day")
        Samples.planned.
Proof.
  assert (Server.get_expenses fromisoformat Samples.thursday (Some "day")
            Samples.planned
          = Ok [Samples.expense "today" "2024-06-20" 40%float]) as Hs
    by (vm_compute; reflexivity).
  assert (Backend.get_expenses fromisoformat Samples.thursday (Some "day")
            Samples.planned
          = Ok [Samples.expense "ahead" "2024-06-21" 25%float;
                Samples.expense "today" "2024-06-20" 40%float]) as Hb
    by (vm_compute; reflexivity).
  split; [exact Hs |]. split; [exact Hb |].
  rewrite Hs, Hb. intros Heq.
  apply (f_equal (λ r, match r with
                       | Ok l => length l
                       | Raise _ => 0%nat
                       end)) in Heq.
  discriminate Heq.
Qed.

(** ** What an update leaves alone *)

Section Updates.
Context {num : Type} `{Number num}.

Abbreviation doc := (gmap string (value num)).

(** An update of one document by id keeps every document in its place and
    changes at most the fields it sets. *)
Lemma find_one_and_update_lookup (key : string) (fields : doc)
    (coll : list doc) (i : nat) (d : doc) :
  coll !! i = Some d →
  ∃ d', (find_one_and_update key fields coll).1 !! i = Some d'
        ∧ ∀ k, fields !! k = None → d' !! k = d !! k.
Proof.
  revert i. induction coll as [|d0 coll IH]; intros i Hi; [discriminate |].
  simpl. destruct (has_id key d0).
  - destruct i as [|i]; simpl in *.
    + injection Hi as ->. eexists. split; [reflexivity |].
      intros k Hk. rewrite lookup_union_r by exact Hk. reflexivity.
    + eauto.
  - destruct (find_one_and_update key fields coll) as [coll' r] eqn:Hupd.
    destruct i as [|i]; simpl in *.
    + injection Hi as ->. eauto.
    + apply IH, Hi.
Qed.

Lemma model_dump_lookup (input : ExpenseCreate num) (k : string) :
  k ≠ "title" → k ≠ "amount" → k ≠ "date" → k ≠ "category" →
  Server.model_dump input !! k = None.
Proof.
  intros Ht Ha Hd Hc. unfold Server.model_dump.
  rewrite !lookup_insert_ne by congruence. apply lookup_empty.
Qed.

Lemma expenses_update_expense (fromisoformat : string → result Z)
    (expense_id : string) (input : ExpenseCreate num) (db : database num) :
  expenses (Server.update_expense fromisoformat expense_id input db).1
  = (find_one_and_update expense_id (Server.model_dump input) (expenses db)).1.
Proof.
  unfold Server.update_expense.
  destruct (find_one_and_update _ _ _) as [coll [r|]]; reflexivity.
Qed.

Lemma debts_update_debt (fromisoformat : string → result Z)
    (debt_id : string) (input : DebtUpdate) (db : database num) :
  debts (Server.update_debt fromisoformat debt_id input db).1
  = (find_one_and_update debt_id {["status" := VStr (status input)]}
       (debts db)).1.
Proof.
  unfold Server.update_debt.
  destruct (find_one_and_update _ _ _) as [coll [r|]]; reflexivity.
Qed.
End Updates.

(** C9. Whatever expense [update_expense] is called on, every stored expense
    keeps its [id] and its [timestamp], and every other field but [title],
    [amount], [date] and [category], the four the update sets; and whatever
    debt [update_debt] is called on, every stored debt keeps every field
    other than [status], its [debt_type] among them. *)
Theorem updates_keep_other_fields {num : Type} `{Number num}
    (fromisoformat : string → result Z) (db : database num)
    (expense_id : string) (input : ExpenseCreate num) (i : nat)
    (e : gmap string (value num))
    (debt_id : string) (update : DebtUpdate) (j : nat)
    (d : gmap string (value num)) :
  expenses db !! i = Some e → debts db !! j = Some d →
  (∃ e',
     expenses (Server.update_expense fromisoformat expense_id input db).1 !! i
     = Some e'
     ∧ e' !! "id" = e !! "id" ∧ e' !! "timestamp" = e !! "timestamp"
     ∧ ∀ k, k ≠ "title" → k ≠ "amount" → k ≠ "date" → k ≠ "category" →
            e' !! k = e !! k)
  ∧ (∃ d',
       debts (Server.update_debt fromisoformat debt_id update db).1 !! j
       = Some d'
       ∧ d' !! "debt_type" = d !! "debt_type"
       ∧ ∀ k, k ≠ "status" → d' !! k = d !! k).
Proof.
  intros He Hd. split.
  - rewrite expenses_update_expense.
    destruct (find_one_and_update_lookup expense_id (Server.model_dump input)
                _ _ _ He) as (e' & He' & Hkeep).
    exists e'. split; [exact He' |].
    split; [apply Hkeep, model_dump_lookup; discriminate |].
    split; [apply Hkeep, model_dump_lookup; discriminate |].
    intros k Ht Ha Hdt Hc. apply Hkeep, model_dump_lookup; assumption.
  - rewrite debts_update_debt.
    destruct (find_one_and_update_lookup debt_id
                {["status" := VStr (status update)]} _ _ _ Hd)
      as (d' & Hd' & Hkeep).
    exists d'. split; [exact Hd' |].
    split; [apply Hkeep, lookup_singleton_ne; discriminate |].
    intros k Hk. apply Hkeep, lookup_singleton_ne. congruence.
Qed.

(** The first expense and the first debt of the sample store, updated by
    their ids. *)
Lemma updates_keep_other_fields_witness :
  (∃ e',
     expenses (Server.update_expense (λ _, Raise ValueError) "e1"
                 Samples.dinner Samples.db).1 !! 0%nat = Some e'
     ∧ e' !! "id" = Some (VStr "e1")
     ∧ e' !! "timestamp" = Some (VDatetime 0)
     ∧ ∀ k, k ≠ "title" → k ≠ "amount" → k ≠ "date" → k ≠ "category" →
            e' !! k = Samples.expense "e1" "2024-06-20" 40%float !! k)
  ∧ (∃ d',
       debts (Server.update_debt (λ _, Raise ValueError) "d1" Samples.paid
                Samples.db).1 !! 0%nat = Some d'
       ∧ d' !! "debt_type" = Some (VStr "gave")
       ∧ ∀ k, k ≠ "status" →
              d' !! k = Samples.debt "d1" "gave" "pending" 100%float !! k).
Proof.
  exact (updates_keep_other_fields (λ _, Raise ValueError) Samples.db
           "e1" Samples.dinner 0%nat
           (Samples.expense "e1" "2024-06-20" 40%float)
           "d1" Samples.paid 0%nat
           (Samples.debt "d1" "gave" "pending" 100%float)
           eq_refl eq_refl).
Defined.

(** * The remaining routes *)

(** ** The order of strings *)

Lemma string_compare_refl (s : string) : String.compare s s = Eq.
Proof.
  induction s as [|c s IH]; [reflexivity |]. simpl.
  unfold Ascii.compare. rewrite N.compare_refl. exact IH.
Qed.

Lemma string_compare_trans (s1 s2 s3 : string) :
  String.compare s1 s2 = Lt → String.compare s2 s3 = Lt →
  String.compare s1 s3 = Lt.
Proof.
  revert s2 s3. induction s1 as [|a1 s1 IH]; intros [|a2 s2] [|a3 s3];
    simpl; try congruence.
  unfold Ascii.compare.
  destruct (N.compare_spec (N_of_ascii a1) (N_of_ascii a2)) as [E12|L12|G12];
    destruct (N.compare_spec (N_of_ascii a2) (N_of_ascii a3)) as [E23|L23|G23];
    try discriminate; intros H12 H23.
  - rewrite E12, E23, N.compare_refl. eapply IH; eassumption.
  - rewrite E12. apply N.compare_lt_iff in L23. rewrite L23. reflexivity.
  - rewrite <- E23. apply N.compare_lt_iff in L12. rewrite L12. reflexivity.
  - assert (N_of_ascii a1 < N_of_ascii a3)%N as L13 by lia.
    apply N.compare_lt_iff in L13. rewrite L13. reflexivity.
Qed.

Lemma string_leb_refl (s : string) : String.leb s s = true.
Proof. unfold String.leb. rewrite string_compare_refl. reflexivity. Qed.

(** [s1 < s2] fails exactly when [s2 <= s1]. *)
Lemma string_ltb_leb (s1 s2 : string) :
  String.ltb s1 s2 = negb (String.leb s2 s1).
Proof.
  unfold String.ltb, String.leb. rewrite (String.compare_antisym s1 s2).
  destruct (String.compare s2 s1); reflexivity.
Qed.

Lemma string_ltb_incl (s1 s2 : string) :
  String.ltb s1 s2 = true → String.leb s1 s2 = true.
Proof.
  unfold String.ltb, String.leb. destruct (String.compare s1 s2);
    congruence.
Qed.

Lemma string_leb_trans (s1 s2 s3 : string) :
  String.leb s1 s2 = true → String.leb s2 s3 = true →
  String.leb s1 s3 = true.
Proof.
  unfold String.leb.
  destruct (String.compare s1 s2) eqn:E12; try discriminate;
    destruct (String.compare s2 s3) eqn:E23; try discriminate; intros _ _.
  - apply String.compare_eq_iff in E12, E23. subst.
    rewrite string_compare_refl. reflexivity.
  - apply String.compare_eq_iff in E12. subst. rewrite E23. reflexivity.
  - apply String.compare_eq_iff in E23. subst. rewrite E12. reflexivity.
  - rewrite (string_compare_trans _ _ _ E12 E23). reflexivity.
Qed.

Lemma string_eqb_leb (s1 s2 : string) :
  String.eqb s1 s2 = String.leb s1 s2 && String.leb s2 s1.
Proof.
  destruct (String.eqb_spec s1 s2) as [->|Hne].
  - rewrite string_leb_refl. reflexivity.
  - symmetry. apply andb_false_iff.
    destruct (String.leb s1 s2) eqn:H12; [| auto].
    destruct (String.leb s2 s1) eqn:H21; [| auto].
    exfalso. apply Hne, String.leb_antisym; assumption.
Qed.

(** ** [list.sort(key=..., reverse=True)] on string keys *)

Section Sorting.
Context {num : Type} `{Number num}.

Abbreviation doc := (gmap string (value num)).

Variable key : doc → string.


Lemma insert_desc_paired (x : value num * doc) (l : list (value num * doc)) :
  paired key x → Forall (paired key) l →
  ∃ l1 l2,
    l = (l1 ++ l2)%list ∧ insert_desc x l = Ok (l1 ++ x :: l2)%list
    ∧ Forall (λ y, not_after key y.2 x.2) l1
    ∧ match l2 with
      | [] => True
      | y :: _ => String.ltb (key y.2) (key x.2) = true
      end.
Proof.
  intros Hx Hl. induction Hl as [|y l Hy Hl IH].
  - exists [], []. simpl. auto.
  - destruct IH as (l1 & l2 & -> & Hins & Hl1 & Hl2).
    unfold paired in Hx, Hy. cbn [insert_desc]. rewrite Hx, Hy.
    cbn [py_lt bind].
    destruct (String.ltb (key y.2) (key x.2)) eqn:Hlt.
    + exists [], (y :: l1 ++ l2)%list. simpl. auto.
    + exists (y :: l1), l2. rewrite Hins. simpl.
      repeat split; [| exact Hl2].
      constructor; [| exact Hl1].
      unfold not_after. rewrite string_ltb_leb in Hlt.
      apply negb_false_iff in Hlt. exact Hlt.
Qed.

Lemma not_after_trans (a b c : doc) :
  not_after key a b → not_after key b c → not_after key a c.
Proof. unfold not_after. eauto using string_leb_trans. Qed.

(** Inserting into a sorted list gives a sorted list with one more pair,
    behind the pairs whose key is not smaller. *)
Lemma insert_desc_sorted (x : value num * doc) (l : list (value num * doc)) :
  paired key x → Forall (paired key) l →
  StronglySorted (λ a b, not_after key a.2 b.2) l →
  ∃ l1 l2,
    l = (l1 ++ l2)%list ∧ insert_desc x l = Ok (l1 ++ x :: l2)%list
    ∧ Forall (λ y, not_after key y.2 x.2) l1
    ∧ Forall (λ y, String.ltb (key y.2) (key x.2) = true) l2
    ∧ StronglySorted (λ a b, not_after key a.2 b.2) (l1 ++ x :: l2).
Proof.
  intros Hx Hl Hs.
  destruct (insert_desc_paired x l Hx Hl) as (l1 & l2 & -> & Hins & Hl1 & Hl2).
  exists l1, l2. split; [reflexivity |]. split; [exact Hins |].
  split; [exact Hl1 |].
  apply StronglySorted_app in Hs as (Hcross & Hs1 & Hs2).
  assert (Forall (λ y, String.ltb (key y.2) (key x.2) = true) l2) as Hlt.
  { destruct l2 as [|y l2]; [constructor |].
    apply StronglySorted_inv in Hs2 as [_ Hy].
    constructor; [exact Hl2 |].
    eapply Forall_impl; [exact Hy |]. intros z Hz. simpl in Hz.
    rewrite string_ltb_leb in *. apply negb_true_iff in Hl2.
    apply negb_true_iff. destruct (String.leb (key x.2) (key z.2)) eqn:Hxz;
      [| reflexivity].
    unfold not_after in Hz. rewrite (string_leb_trans _ _ _ Hxz Hz) in Hl2.
    discriminate. }
  split; [exact Hlt |].
  apply StronglySorted_app. split; [| split; [exact Hs1 |]].
  - intros a b Ha Hb. apply elem_of_cons in Hb as [->|Hb].
    + rewrite Forall_forall in Hl1. apply Hl1, Ha.
    + apply Hcross; assumption.
  - constructor; [exact Hs2 |].
    eapply Forall_impl; [exact Hlt |]. intros z Hz. simpl.
    apply string_ltb_incl, Hz.
Qed.

Lemma filter_key_none (s : string) (x : doc) (l : list (value num * doc)) :
  Forall (λ y, String.ltb (key y.2) (key x) = true) l →
  String.eqb (key x) s = true →
  List.filter (λ y, String.eqb (key y.2) s) l = [].
Proof.
  intros Hl Hs. apply String.eqb_eq in Hs. subst s.
  induction Hl as [|y l Hy _ IH]; [reflexivity |].
  simpl. rewrite IH. rewrite string_ltb_leb in Hy.
  apply negb_true_iff in Hy. rewrite string_eqb_leb, andb_comm, Hy.
  reflexivity.
Qed.

(** The sort keeps the pairs, puts them in descending order of their keys
    and leaves pairs of one key in the order they came in. *)
Lemma sort_desc_spec (l sorted : list (value num * doc)) :
  Forall (paired key) l → Forall (paired key) sorted →
  StronglySorted (λ a b, not_after key a.2 b.2) sorted →
  ∃ r, sort_desc l sorted = Ok r ∧ r ≡ₚ (sorted ++ l)%list
       ∧ Forall (paired key) r
       ∧ StronglySorted (λ a b, not_after key a.2 b.2) r
       ∧ ∀ s, List.filter (λ y, String.eqb (key y.2) s) r
              = (List.filter (λ y, String.eqb (key y.2) s) sorted
                 ++ List.filter (λ y, String.eqb (key y.2) s) l)%list.
Proof.
  intros Hl. revert sorted. induction Hl as [|x l Hx Hl IH];
    intros sorted Hp Hs.
  - exists sorted. simpl. rewrite !app_nil_r.
    split; [reflexivity |]. split; [reflexivity |].
    split; [exact Hp |]. split; [exact Hs |].
    intros s. rewrite app_nil_r. reflexivity.
  - simpl.
    destruct (insert_desc_sorted x sorted Hx Hp Hs)
      as (l1 & l2 & -> & Hins & Hl1 & Hl2 & Hs').
    rewrite Hins. simpl.
    assert (Forall (paired key) (l1 ++ x :: l2)) as Hp'.
    { apply Forall_app in Hp as [Hp1 Hp2]. apply Forall_app.
      split; [exact Hp1 | constructor; assumption]. }
    destruct (IH _ Hp' Hs') as (r & Hr & Hperm & Hpr & Hsr & Hst).
    exists r. split; [exact Hr |]. split.
    { rewrite Hperm. rewrite <- !app_assoc. apply Permutation_app_head.
      apply Permutation_middle. }
    split; [exact Hpr |]. split; [exact Hsr |].
    intros s. rewrite Hst. rewrite !List.filter_app. simpl.
    destruct (String.eqb (key x.2) s) eqn:Hxs; [| reflexivity].
    rewrite (filter_key_none s x.2 l2 Hl2 Hxs). simpl.
    rewrite app_nil_r, <- !app_assoc. reflexivity.
Qed.

(** The keys of [keyed], when the key function returns a string on every
    document. *)
Lemma keyed_paired (kf : doc → result (value num)) (docs : list doc) :
  Forall (λ d, kf d = Ok (VStr (key d))) docs →
  keyed kf docs = Ok ((λ d, (VStr (key d), d)) <$> docs).
Proof.
  intros Hall. induction Hall as [|d docs Hd _ IH]; [reflexivity |].
  simpl. rewrite Hd, IH. reflexivity.
Qed.

Lemma filter_snd (p : doc → bool) (l : list (value num * doc)) :
  List.filter p (snd <$> l) = snd <$> List.filter (λ y, p y.2) l.
Proof.
  induction l as [|y l IH]; [reflexivity |].
  rewrite fmap_cons. cbn [List.filter]. rewrite IH.
  destruct (p y.2); reflexivity.
Qed.

Lemma snd_with_key (docs : list doc) :
  snd <$> ((λ d, (VStr (key d) : value num, d)) <$> docs) = docs.
Proof.
  induction docs as [|d docs IH]; [reflexivity |].
  rewrite !fmap_cons, IH. reflexivity.
Qed.

(** [docs.sort(key=kf, reverse=True)] on documents with string keys: the
    same documents, the largest key first, documents of one key in the
    order they had. *)
Lemma sort_reverse_spec (kf : doc → result (value num)) (docs : list doc) :
  Forall (λ d, kf d = Ok (VStr (key d))) docs →
  ∃ r, sort_reverse kf docs = Ok r ∧ r ≡ₚ docs
       ∧ StronglySorted (not_after key) r
       ∧ ∀ s, List.filter (λ d, String.eqb (key d) s) r
              = List.filter (λ d, String.eqb (key d) s) docs.
Proof.
  intros Hall. unfold sort_reverse. rewrite (keyed_paired kf docs Hall).
  simpl.
  destruct (sort_desc_spec ((λ d, (VStr (key d), d)) <$> docs) [])
    as (r & Hr & Hperm & _ & Hsr & Hst).
  { apply Forall_fmap, Forall_forall. intros d _. reflexivity. }
  { constructor. }
  { constructor. }
  rewrite Hr. simpl. exists (snd <$> r). split; [reflexivity |]. split.
  { rewrite Hperm. simpl. rewrite snd_with_key. reflexivity. }
  split.
  { eapply StronglySorted_fmap; [| exact Hsr]. intros x y Hxy. exact Hxy. }
  intros s. rewrite filter_snd, Hst. cbn [List.filter app].
  rewrite <- (filter_snd (λ d, String.eqb (key d) s)).
  rewrite snd_with_key. reflexivity.
Qed.

(** Sorting one more document puts it into the sorted list of the others. *)
Lemma sort_desc_snoc (l sorted : list (value num * doc))
    (x : value num * doc) :
  sort_desc (l ++ [x]) sorted
  = do r <- sort_desc l sorted;; insert_desc x r.
Proof.
  revert sorted. induction l as [|y l IH]; intros sorted; simpl.
  - destruct (insert_desc x sorted); reflexivity.
  - destruct (insert_desc y sorted); simpl; [apply IH | reflexivity].
Qed.

Lemma keyed_app (kf : doc → result (value num)) (docs : list doc) (x : doc) :
  keyed kf (docs ++ [x])
  = do l <- keyed kf docs;; do k <- kf x;; Ok (l ++ [(k, x)])%list.
Proof.
  induction docs as [|d docs IH]; simpl.
  - destruct (kf x); reflexivity.
  - destruct (kf d); simpl; [| reflexivity]. rewrite IH.
    destruct (keyed kf docs); simpl; [| reflexivity].
    destruct (kf x); reflexivity.
Qed.

(** One more document at the end of the list comes out behind the
    documents whose key is not smaller and before those whose key is. *)
Lemma sort_reverse_snoc (kf : doc → result (value num)) (docs : list doc)
    (x : doc) :
  Forall (λ d, kf d = Ok (VStr (key d))) docs → kf x = Ok (VStr (key x)) →
  ∃ l1 l2,
    sort_reverse kf docs = Ok (l1 ++ l2)%list
    ∧ sort_reverse kf (docs ++ [x]) = Ok (l1 ++ x :: l2)%list
    ∧ Forall (λ d, String.leb (key x) (key d) = true) l1
    ∧ Forall (λ d, String.ltb (key d) (key x) = true) l2.
Proof.
  intros Hall Hx. unfold sort_reverse.
  rewrite keyed_app, (keyed_paired kf docs Hall), Hx. cbn [bind].
  rewrite sort_desc_snoc.
  destruct (sort_desc_spec ((λ d, (VStr (key d), d)) <$> docs) [])
    as (r & Hr & _ & Hpr & Hsr & _).
  { apply Forall_fmap, Forall_forall. intros d _. reflexivity. }
  { constructor. }
  { constructor. }
  rewrite Hr. cbn [bind].
  destruct (insert_desc_sorted (VStr (key x), x) r)
    as (r1 & r2 & -> & Hins & Hr1 & Hr2 & _); [reflexivity | exact Hpr |
      exact Hsr |].
  rewrite Hins. cbn [bind].
  exists (snd <$> r1), (snd <$> r2).
  rewrite !fmap_app, fmap_cons. simpl.
  split; [reflexivity |]. split; [reflexivity |].
  split; apply Forall_fmap.
  - eapply Forall_impl; [exact Hr1 |]. intros y Hy. exact Hy.
  - eapply Forall_impl; [exact Hr2 |]. intros y Hy. exact Hy.
Qed.
End Sorting.

(** ** The listings *)

Section Listing.
Context {num : Type} `{Number num}.
Variable fromisoformat : string → result Z.

Abbreviation doc := (gmap string (value num)).

Lemma for_each_fmap (f : doc → result doc) (g : doc → doc) (docs : list doc) :
  Forall (λ d, f d = Ok (g d)) docs → Server.for_each f docs = Ok (g <$> docs).
Proof.
  intros Hall. induction Hall as [|d docs Hd _ IH]; [reflexivity |].
  simpl. rewrite Hd, IH. reflexivity.
Qed.

Lemma for_each_ext (f g : doc → result doc) (docs : list doc) :
  Forall (λ d, f d = g d) docs → Server.for_each f docs = Server.for_each g docs.
Proof.
  intros Hall. induction Hall as [|d docs Hd _ IH]; [reflexivity |].
  simpl. rewrite Hd, IH. reflexivity.
Qed.

(** What holds of every document before the loop holds of every document
    after it, when one step of the loop keeps it. *)
Lemma for_each_Forall (f : doc → result doc) (P : doc → Prop)
    (docs docs' : list doc) :
  (∀ d d', P d → f d = Ok d' → P d') →
  Forall P docs → Server.for_each f docs = Ok docs' → Forall P docs'.
Proof.
  intros Hstep Hall. revert docs'.
  induction Hall as [|d docs Hd _ IH]; intros docs' Hrun; simpl in Hrun.
  - injection Hrun as <-. constructor.
  - destruct (f d) as [d'|] eqn:Hfd; [| discriminate].
    simpl in Hrun. destruct (Server.for_each f docs); [| discriminate].
    injection Hrun as <-. constructor; eauto.
Qed.

Lemma keyed_ext (kf kg : doc → result (value num)) (docs : list doc) :
  Forall (λ d, kf d = kg d) docs → keyed kf docs = keyed kg docs.
Proof.
  intros Hall. induction Hall as [|d docs Hd _ IH]; [reflexivity |].
  simpl. rewrite Hd, IH. reflexivity.
Qed.

Lemma sort_reverse_ext (kf kg : doc → result (value num)) (docs : list doc) :
  Forall (λ d, kf d = kg d) docs → sort_reverse kf docs = sort_reverse kg docs.
Proof.
  intros Hall. unfold sort_reverse. rewrite (keyed_ext kf kg docs Hall).
  reflexivity.
Qed.

(** The query of a collection as a filter of its list. *)
Lemma find_filter (q : date_query) (w : doc → bool) (coll : list doc) :
  Forall (λ d, matches q d = w d) coll →
  find q coll = without_id <$> List.filter w coll.
Proof.
  intros Hall. unfold find. f_equal.
  induction Hall as [|d coll Hd _ IH]; [reflexivity |].
  cbn [List.filter]. rewrite <- Hd.
  destruct (matches q d) eqn:Hq.
  - rewrite filter_cons_True by exact Hq. f_equal. exact IH.
  - rewrite filter_cons_False by (rewrite Hq; discriminate). exact IH.
Qed.

Lemma to_list_fmap (f : doc → doc) (coll : list doc) :
  to_list 10000 (f <$> coll) = f <$> first_10000 coll.
Proof. unfold to_list, first_10000. symmetry. apply fmap_take. Qed.

Lemma length_first_10000 (coll : list doc) :
  (length (first_10000 coll) ≤ Z.to_nat 10000)%nat.
Proof. unfold first_10000. rewrite length_take. lia. Qed.

Lemma Forall_filter_first (P : doc → Prop) (w : doc → bool) (coll : list doc) :
  Forall P coll → Forall P (first_10000 (List.filter w coll)).
Proof.
  intros Hall. apply Forall_take. apply Forall_forall. intros d Hd.
  apply list_elem_of_In, filter_In in Hd as [Hd _].
  rewrite Forall_forall in Hall. apply Hall, list_elem_of_In, Hd.
Qed.

Lemma shown_without_id (d : doc) :
  shown fromisoformat (without_id d) = shown fromisoformat d.
Proof.
  unfold shown. rewrite lookup_without_id by discriminate.
  assert (without_id (without_id d) = without_id d) as ->
    by (unfold without_id; apply delete_delete_eq).
  reflexivity.
Qed.

(** The date string of a document as it is listed. *)
Lemma date_of_shown (d : doc) : date_of (shown fromisoformat d) = date_of d.
Proof.
  unfold shown, date_of.
  destruct (d !! "timestamp") as [[s| |]|];
    try (rewrite lookup_without_id by discriminate; reflexivity).
  destruct (fromisoformat s).
  - rewrite lookup_insert_ne by discriminate.
    rewrite lookup_without_id by discriminate. reflexivity.
  - rewrite lookup_without_id by discriminate. reflexivity.
Qed.

Lemma lookup_date_shown (d : doc) :
  shown fromisoformat d !! "date" = d !! "date".
Proof.
  unfold shown.
  destruct (d !! "timestamp") as [[s| |]|];
    try (rewrite lookup_without_id by discriminate; reflexivity).
  destruct (fromisoformat s).
  - rewrite lookup_insert_ne by discriminate.
    rewrite lookup_without_id by discriminate. reflexivity.
  - rewrite lookup_without_id by discriminate. reflexivity.
Qed.

Lemma on_day_shown (s : string) (d : doc) :
  on_day s (shown fromisoformat d) = on_day s d.
Proof. unfold on_day. rewrite date_of_shown. reflexivity. Qed.

Lemma filter_on_day_shown (s : string) (docs : list doc) :
  List.filter (on_day s) (shown fromisoformat <$> docs)
  = shown fromisoformat <$> List.filter (on_day s) docs.
Proof.
  induction docs as [|d docs IH]; [reflexivity |].
  rewrite fmap_cons. cbn [List.filter]. rewrite on_day_shown, IH.
  destruct (on_day s d); reflexivity.
Qed.

(** The loop over the timestamps in the two variants. *)
Lemma server_parse_shown (d : doc) :
  readable fromisoformat d = true →
  Server.parse_timestamp fromisoformat (without_id d)
  = Ok (shown fromisoformat d).
Proof.
  unfold readable, Server.parse_timestamp, shown.
  rewrite lookup_without_id by discriminate.
  destruct (d !! "timestamp") as [[s| |]|]; try reflexivity.
  destruct (fromisoformat s); [reflexivity | discriminate].
Qed.

Lemma backend_parse_shown (d : doc) :
  has_timestamp d = true → readable fromisoformat d = true →
  Backend.parse_timestamp fromisoformat (without_id d)
  = Ok (shown fromisoformat d).
Proof.
  unfold has_timestamp, readable, Backend.parse_timestamp, shown, getitem.
  rewrite lookup_without_id by discriminate.
  destruct (d !! "timestamp") as [[s| |]|]; cbn [bind];
    try reflexivity; try discriminate.
  intros _. destruct (fromisoformat s); [reflexivity | discriminate].
Qed.

(** The sort key in the two variants. *)
Lemma server_key_shown (d : doc) :
  date_or_none d = true →
  Ok (default (VStr "") (shown fromisoformat d !! "date"))
  = Ok (VStr (date_of (shown fromisoformat d)) : value num).
Proof.
  unfold date_or_none, date_of. rewrite lookup_date_shown.
  destruct (d !! "date") as [[]|]; try discriminate; reflexivity.
Qed.

Lemma backend_key_shown (d : doc) :
  has_date d = true →
  getitem (shown fromisoformat d) "date"
  = Ok (VStr (date_of (shown fromisoformat d))).
Proof.
  unfold has_date, date_of, getitem. rewrite lookup_date_shown.
  destruct (d !! "date") as [[]|]; try discriminate; reflexivity.
Qed.

(** A listing: the documents a query finds, cut at 10000, their timestamps
    read, sorted by date. *)
Lemma listing_spec (parse : doc → result doc) (kf : doc → result (value num))
    (q : date_query) (w : doc → bool) (coll : list doc) :
  Forall (λ d, matches q d = w d
               ∧ parse (without_id d) = Ok (shown fromisoformat d)
               ∧ kf (shown fromisoformat d)
                 = Ok (VStr (date_of (shown fromisoformat d)))) coll →
  ∃ l, (do docs <- Server.for_each parse (to_list 10000 (find q coll));;
        sort_reverse kf docs) = Ok l
       ∧ l ≡ₚ listed fromisoformat w coll ∧ newest_first l
       ∧ same_order_by_date l (listed fromisoformat w coll)
       ∧ (length l ≤ Z.to_nat 10000)%nat.
Proof.
  intros Hall. set (shown_docs := listed fromisoformat w coll).
  rewrite (find_filter q w coll)
    by (eapply Forall_impl; [exact Hall |]; intros d [Hq _]; exact Hq).
  rewrite to_list_fmap.
  rewrite (for_each_fmap parse (shown fromisoformat) (without_id <$> _)).
  2:{ apply Forall_fmap. eapply Forall_impl.
      - apply (Forall_filter_first _ w coll Hall).
      - simpl. intros d (_ & Hp & _).
        (* the document listed is the stored one without its _id *)
        rewrite shown_without_id. exact Hp. }
  cbn [bind]. rewrite <- list_fmap_compose.
  assert ((shown fromisoformat ∘ without_id) <$> first_10000 (List.filter w coll)
          = shown_docs) as ->.
  { unfold shown_docs, listed. apply list_fmap_ext. intros _ d _. simpl.
    apply shown_without_id. }
  destruct (sort_reverse_spec date_of kf shown_docs) as (l & Hl & Hperm & Hs & Hst).
  { unfold shown_docs, listed. apply Forall_fmap. eapply Forall_impl.
    - apply (Forall_filter_first _ w coll Hall).
    - simpl. intros d (_ & _ & Hk). exact Hk. }
  exists l. split; [exact Hl |]. split; [exact Hperm |].
  split; [exact Hs |]. split; [exact Hst |].
  rewrite (Permutation_length Hperm). unfold shown_docs, listed.
  rewrite length_fmap.
  apply length_first_10000.
Qed.

(** The listing of a collection below the cut and of the collection with one
    more document. *)
Lemma listing_snoc (parse : doc → result doc) (kf : doc → result (value num))
    (coll : list doc) (x : doc) :
  Forall (λ d, parse (without_id d) = Ok (shown fromisoformat d)
               ∧ kf (shown fromisoformat d)
                 = Ok (VStr (date_of (shown fromisoformat d))))
    (coll ++ [x]) →
  (length coll < Z.to_nat 10000)%nat →
  ∃ l1 l2,
    (do docs <- Server.for_each parse (to_list 10000 (find QAll coll));;
     sort_reverse kf docs) = Ok (l1 ++ l2)%list
    ∧ (do docs <- Server.for_each parse
                    (to_list 10000 (find QAll (coll ++ [x])));;
       sort_reverse kf docs) = Ok (l1 ++ shown fromisoformat x :: l2)%list
    ∧ Forall (λ d, String.leb (date_of x) (date_of d) = true) l1
    ∧ Forall (λ d, String.ltb (date_of d) (date_of x) = true) l2.
Proof.
  intros Hall Hlen. rewrite !to_list_find_all.
  rewrite !first_10000_short by (rewrite ?length_app; simpl; lia).
  assert (∀ c, Forall (λ d, parse (without_id d) = Ok (shown fromisoformat d)
                            ∧ kf (shown fromisoformat d)
                              = Ok (VStr (date_of (shown fromisoformat d)))) c →
               Server.for_each parse (without_id <$> c)
               = Ok (shown fromisoformat <$> c)) as Hrun.
  { intros c Hc.
    rewrite (for_each_fmap parse (shown fromisoformat) (without_id <$> c)).
    - rewrite <- list_fmap_compose. f_equal. apply list_fmap_ext.
      intros _ d _. simpl. apply shown_without_id.
    - apply Forall_fmap. eapply Forall_impl; [exact Hc |]. simpl.
      intros d [Hp _]. rewrite shown_without_id. exact Hp. }
  pose proof Hall as Hboth. apply Forall_app in Hboth as [Hcoll Hx].
  apply Forall_singleton in Hx as [_ Hkx].
  rewrite (Hrun _ Hall), (Hrun _ Hcoll). cbn [bind]. rewrite fmap_app.
  destruct (sort_reverse_snoc date_of kf (shown fromisoformat <$> coll)
              (shown fromisoformat x))
    as (l1 & l2 & H1 & H2 & Hl1 & Hl2); [| exact Hkx |].
  { apply Forall_fmap. eapply Forall_impl; [exact Hcoll |]. simpl.
    intros d [_ Hk]. exact Hk. }
  exists l1, l2. rewrite date_of_shown in Hl1, Hl2. auto.
Qed.

Lemma strftime_ymd_not_empty (d : datetime) :
  String.leb (strftime_ymd d) "" = false.
Proof. reflexivity. Qed.

Lemma strftime_ymd_not_empty_eqb (d : datetime) :
  String.eqb "" (strftime_ymd d) = false.
Proof. reflexivity. Qed.

(** The date in a query matches a stored date string as the windows test
    it; a document without a date matches no query on the date. *)
Lemma matches_gte (d : doc) (x : datetime) :
  date_or_none d = true →
  matches (QGte (strftime_ymd x)) d = since (strftime_ymd x) d.
Proof.
  unfold date_or_none, matches, since, date_of.
  destruct (d !! "date") as [[]|]; try discriminate; intros _;
    [reflexivity |].
  symmetry. apply strftime_ymd_not_empty.
Qed.

Lemma matches_gte_lte (d : doc) (x : datetime) :
  date_or_none d = true →
  matches (QGteLte (strftime_ymd x) (strftime_ymd x)) d
  = on_day (strftime_ymd x) d.
Proof.
  unfold date_or_none, matches, on_day, date_of.
  destruct (d !! "date") as [[s| |]|]; try discriminate; intros _.
  - rewrite string_eqb_leb. apply andb_comm.
  - symmetry. apply strftime_ymd_not_empty_eqb.
Qed.

Lemma server_query_window (now : datetime) (filter : option string) (d : doc) :
  date_or_none d = true →
  matches (Server.expenses_query now filter) d = window now filter d.
Proof.
  intros Hd. unfold Server.expenses_query, window.
  destruct filter as [f|]; [| reflexivity].
  destruct (String.eqb_spec f "") as [->|_]; [reflexivity |].
  destruct (String.eqb f "day").
  { apply (matches_gte_lte d (replace_midnight now) Hd). }
  destruct (String.eqb f "week"); [apply matches_gte, Hd |].
  destruct (String.eqb f "month"); [apply matches_gte, Hd | reflexivity].
Qed.

Lemma backend_query_window (now : datetime) (filter : option string) (d : doc) :
  date_or_none d = true →
  matches (Backend.expenses_query now filter) d = backend_window now filter d.
Proof.
  intros Hd. unfold Backend.expenses_query, Backend.start_date, backend_window.
  destruct filter as [f|]; [| reflexivity].
  destruct (String.eqb_spec f "") as [->|_]; [reflexivity |].
  destruct (String.eqb f "day").
  { apply (matches_gte d (replace_midnight now) Hd). }
  destruct (String.eqb f "week").
  { apply (matches_gte d (replace_midnight (minus_days now (weekday now))) Hd). }
  destruct (String.eqb f "month"); [| reflexivity].
  apply (matches_gte d (replace_midnight (replace_day1 now)) Hd).
Qed.

(** But for the filter "day" the two variants build the same query. *)
Lemma expenses_query_alike (now : datetime) (filter : option string) :
  filter ≠ Some "day" →
  Backend.expenses_query now filter = Server.expenses_query now filter.
Proof.
  intros Hday. unfold Backend.expenses_query, Backend.start_date,
    Server.expenses_query.
  destruct filter as [f|]; [| reflexivity].
  destruct (String.eqb f ""); [reflexivity |].
  destruct (String.eqb_spec f "day") as [->|_]; [congruence |].
  destruct (String.eqb f "week"); [reflexivity |].
  destruct (String.eqb f "month"); reflexivity.
Qed.

Lemma has_date_or_none (d : doc) : has_date d = true → date_or_none d = true.
Proof.
  unfold has_date, date_or_none.
  destruct (d !! "date") as [[]|]; congruence.
Qed.

Lemma server_listing (q : date_query) (w : doc → bool) (coll : list doc) :
  Forall (λ d, matches q d = w d) coll →
  forallb (server_listable fromisoformat) coll = true →
  ∃ l, (do docs <- Server.for_each (Server.parse_timestamp fromisoformat)
                     (to_list 10000 (find q coll));;
        sort_reverse (λ x, Ok (default (VStr "") (x !! "date"))) docs) = Ok l
       ∧ l ≡ₚ listed fromisoformat w coll ∧ newest_first l
       ∧ same_order_by_date l (listed fromisoformat w coll)
       ∧ (length l ≤ Z.to_nat 10000)%nat.
Proof.
  intros Hq Hok. apply listing_spec.
  rewrite forallb_forall in Hok. rewrite Forall_forall in Hq.
  apply Forall_forall. intros d Hd.
  specialize (Hok d (proj1 (list_elem_of_In _ _) Hd)).
  unfold server_listable in Hok. apply andb_true_iff in Hok as [Hdate Hts].
  split; [apply Hq, Hd |].
  split; [apply server_parse_shown, Hts | apply server_key_shown, Hdate].
Qed.

Lemma backend_listing (q : date_query) (w : doc → bool) (coll : list doc) :
  Forall (λ d, matches q d = w d) coll →
  forallb (backend_listable fromisoformat) coll = true →
  ∃ l, (do docs <- Server.for_each (Backend.parse_timestamp fromisoformat)
                     (to_list 10000 (find q coll));;
        sort_reverse (λ x, getitem x "date") docs) = Ok l
       ∧ l ≡ₚ listed fromisoformat w coll ∧ newest_first l
       ∧ same_order_by_date l (listed fromisoformat w coll)
       ∧ (length l ≤ Z.to_nat 10000)%nat.
Proof.
  intros Hq Hok. apply listing_spec.
  rewrite forallb_forall in Hok. rewrite Forall_forall in Hq.
  apply Forall_forall. intros d Hd.
  specialize (Hok d (proj1 (list_elem_of_In _ _) Hd)).
  unfold backend_listable in Hok.
  apply andb_true_iff in Hok as [Hok Hts].
  apply andb_true_iff in Hok as [Hdate Hhas].
  split; [apply Hq, Hd |].
  split; [apply backend_parse_shown; assumption |].
  apply backend_key_shown, Hdate.
Qed.

Lemma backend_listable_server (d : doc) :
  backend_listable fromisoformat d = true →
  server_listable fromisoformat d = true.
Proof.
  unfold backend_listable, server_listable. rewrite !andb_true_iff.
  intros [[Hd _] Hr]. auto using has_date_or_none.
Qed.

(** On documents with a date and a timestamp the two variants run the same
    loop and sort on the same keys. *)
Lemma listing_alike (q : date_query) (coll : list doc) :
  forallb (backend_listable fromisoformat) coll = true →
  (do docs <- Server.for_each (Backend.parse_timestamp fromisoformat)
                (to_list 10000 (find q coll));;
   sort_reverse (λ x, getitem x "date") docs)
  = (do docs <- Server.for_each (Server.parse_timestamp fromisoformat)
                  (to_list 10000 (find q coll));;
     sort_reverse (λ x, Ok (default (VStr "") (x !! "date"))) docs).
Proof.
  intros Hok.
  assert (Forall (λ d, backend_listable fromisoformat d = true)
            (first_10000 (filter (λ d, matches q d = true) coll))) as Hall.
  { apply Forall_take. apply Forall_forall. intros d Hd.
    apply list_elem_of_filter in Hd as [_ Hd].
    rewrite forallb_forall in Hok. apply Hok, list_elem_of_In, Hd. }
  unfold find. rewrite to_list_fmap.
  rewrite (for_each_fmap (Backend.parse_timestamp fromisoformat)
             (shown fromisoformat ∘ without_id)).
  2:{ apply Forall_fmap. eapply Forall_impl; [exact Hall |]. simpl.
      intros d Hd. unfold backend_listable in Hd.
      apply andb_true_iff in Hd as [Hd Hr].
      apply andb_true_iff in Hd as [_ Hts].
      rewrite (backend_parse_shown d Hts Hr). unfold compose.
      rewrite !shown_without_id. reflexivity. }
  rewrite (for_each_fmap (Server.parse_timestamp fromisoformat)
             (shown fromisoformat ∘ without_id)).
  2:{ apply Forall_fmap. eapply Forall_impl; [exact Hall |]. simpl.
      intros d Hd. unfold backend_listable in Hd.
      apply andb_true_iff in Hd as [_ Hr].
      rewrite (server_parse_shown d Hr). unfold compose.
      rewrite !shown_without_id. reflexivity. }
  cbn [bind]. apply sort_reverse_ext.
  rewrite <- list_fmap_compose. apply Forall_fmap.
  eapply Forall_impl; [exact Hall |]. simpl. intros d Hd.
  unfold backend_listable in Hd.
  apply andb_true_iff in Hd as [Hd _]. apply andb_true_iff in Hd as [Hdate _].
  rewrite !shown_without_id.
  rewrite (backend_key_shown d Hdate). symmetry.
  apply (server_key_shown d), has_date_or_none, Hdate.
Qed.

(** The loop stops at the first document on which its body raises. *)
Lemma for_each_raise (f : doc → result doc) (l1 l2 : list doc) (x : doc)
    (e : exn) :
  Forall (λ d, ∃ d', f d = Ok d') l1 → f x = Raise e →
  Server.for_each f (l1 ++ x :: l2) = Raise e.
Proof.
  intros Hall Hx. induction Hall as [|d l1 [d' Hd] _ IH]; simpl.
  - rewrite Hx. reflexivity.
  - rewrite Hd, IH. reflexivity.
Qed.

Lemma filter_none (p : doc → bool) (coll : list doc) :
  forallb (λ d, negb (p d)) coll = true → List.filter p coll = [].
Proof.
  induction coll as [|d coll IH]; [reflexivity |]. simpl.
  intros Hall. apply andb_true_iff in Hall as [Hd Hall].
  apply negb_true_iff in Hd. rewrite Hd. apply IH, Hall.
Qed.

Lemma filter_all (coll : list doc) : List.filter (λ _, true) coll = coll.
Proof.
  induction coll as [|d coll IH]; [reflexivity |]. simpl. rewrite IH.
  reflexivity.
Qed.
End Listing.

(** X1. On a store whose expenses have a date that is a string or is absent
    and a timestamp that, when it is a string, [fromisoformat] reads,
    [get_expenses] of [src/server.py] raises nothing, whatever the filter,
    and returns the first 10000 of the stored expenses that pass the date
    test of the filter, each without its [_id] and with its timestamp read:
    sorted by date string, the latest first, and the expenses of one date in
    their stored order. *)
Theorem expenses_listed_newest_first {num : Type} `{Number num}
    (fromisoformat : string → result Z) (now : datetime)
    (filter : option string) (db : database num) :
  forallb (server_listable fromisoformat) (expenses db) = true →
  ∃ l, Server.get_expenses fromisoformat now filter db = Ok l
       ∧ l ≡ₚ listed fromisoformat (window now filter) (expenses db)
       ∧ newest_first l
       ∧ same_order_by_date l
           (listed fromisoformat (window now filter) (expenses db))
       ∧ (length l ≤ Z.to_nat 10000)%nat.
Proof.
  intros Hok. unfold Server.get_expenses. cbv zeta.
  apply server_listing; [| exact Hok].
  apply Forall_forall. intros d Hd. apply server_query_window.
  rewrite forallb_forall in Hok.
  specialize (Hok d (proj1 (list_elem_of_In _ _) Hd)).
  unfold server_listable in Hok. apply andb_true_iff in Hok as [Hdate _].
  exact Hdate.
Qed.

(** The expenses of the week in the sample store: the two of today, in
    their stored order. *)
Lemma expenses_listed_newest_first_witness :
  ∃ l, Server.get_expenses (λ _, Raise ValueError) Samples.thursday
         (Some "week") Samples.db = Ok l
       ∧ l ≡ₚ [Samples.expense "e1" "2024-06-20" 40%float;
               Samples.expense "e2" "2024-06-20" 70%float]
       ∧ newest_first l
       ∧ same_order_by_date l
           [Samples.expense "e1" "2024-06-20" 40%float;
            Samples.expense "e2" "2024-06-20" 70%float]
       ∧ (length l ≤ Z.to_nat 10000)%nat.
Proof.
  apply (expenses_listed_newest_first (λ _, Raise ValueError) Samples.thursday
           (Some "week") Samples.db).
  reflexivity.
Defined.

(** X2. On a store whose expenses have a date string and a timestamp that is
    a datetime or a string [fromisoformat] reads, [get_expenses] of
    [src/backend/server.py] returns the first 10000 of the stored expenses
    that pass its date test, sorted by date string with the latest first,
    the expenses of one date in their stored order; under the filter "day"
    its test takes the expenses dated today or later, and under every other
    filter, and without one, it returns what [src/server.py] returns. *)
Theorem backend_lists_like_server {num : Type} `{Number num}
    (fromisoformat : string → result Z) (now : datetime)
    (filter : option string) (db : database num) :
  forallb (backend_listable fromisoformat) (expenses db) = true →
  (∃ l, Backend.get_expenses fromisoformat now filter db = Ok l
        ∧ l ≡ₚ listed fromisoformat (backend_window now filter) (expenses db)
        ∧ newest_first l
        ∧ same_order_by_date l
            (listed fromisoformat (backend_window now filter) (expenses db))
        ∧ (length l ≤ Z.to_nat 10000)%nat)
  ∧ (filter ≠ Some "day" →
     Backend.get_expenses fromisoformat now filter db
     = Server.get_expenses fromisoformat now filter db).
Proof.
  intros Hok. split.
  - unfold Backend.get_expenses. cbv zeta.
    apply backend_listing; [| exact Hok].
    apply Forall_forall. intros d Hd. apply backend_query_window.
    rewrite forallb_forall in Hok.
    specialize (Hok d (proj1 (list_elem_of_In _ _) Hd)).
    apply backend_listable_server in Hok. unfold server_listable in Hok.
    apply andb_true_iff in Hok as [Hdate _]. exact Hdate.
  - intros Hday. unfold Backend.get_expenses, Server.get_expenses. cbv zeta.
    rewrite (expenses_query_alike now filter Hday).
    apply listing_alike, Hok.
Qed.

(** The expenses of the week of a store with an expense planned for
    tomorrow. *)
Lemma backend_lists_like_server_witness :
  (∃ l, Backend.get_expenses (λ _, Raise ValueError) Samples.thursday
          (Some "week") Samples.planned = Ok l
        ∧ l ≡ₚ [Samples.expense "today" "2024-06-20" 40%float;
                Samples.expense "ahead" "2024-06-21" 25%float]
        ∧ newest_first l
        ∧ same_order_by_date l
            [Samples.expense "today" "2024-06-20" 40%float;
             Samples.expense "ahead" "2024-06-21" 25%float]
        ∧ (length l ≤ Z.to_nat 10000)%nat)
  ∧ (Some "week" ≠ Some "day" →
     Backend.get_expenses (λ _, Raise ValueError) Samples.thursday
       (Some "week") Samples.planned
     = Server.get_expenses (λ _, Raise ValueError) Samples.thursday
         (Some "week") Samples.planned).
Proof.
  apply (backend_lists_like_server (λ _, Raise ValueError) Samples.thursday
           (Some "week") Samples.planned).
  reflexivity.
Defined.

(** X3. On a store whose debts have a date string and a timestamp that is a
    datetime or a string [fromisoformat] reads, [get_debts] returns the same
    list in both variants: the first 10000 stored debts, each without its
    [_id] and with its timestamp read, sorted by date string with the latest
    first, the debts of one date in their stored order. *)
Theorem debts_listed_newest_first {num : Type} `{Number num}
    (fromisoformat : string → result Z) (db : database num) :
  forallb (backend_listable fromisoformat) (debts db) = true →
  ∃ l, Server.get_debts fromisoformat db = Ok l
       ∧ Backend.get_debts fromisoformat db = Ok l
       ∧ l ≡ₚ shown fromisoformat <$> first_10000 (debts db)
       ∧ newest_first l
       ∧ same_order_by_date l (shown fromisoformat <$> first_10000 (debts db))
       ∧ (length l ≤ Z.to_nat 10000)%nat.
Proof.
  intros Hok.
  destruct (server_listing fromisoformat QAll (λ _, true) (debts db))
    as (l & Hl & Hrest).
  { apply Forall_forall. intros d _. reflexivity. }
  { rewrite forallb_forall in Hok. apply forallb_forall. intros d Hd.
    apply backend_listable_server, Hok, Hd. }
  unfold listed in Hrest. rewrite filter_all in Hrest.
  exists l. split; [exact Hl |]. split; [| exact Hrest].
  unfold Backend.get_debts. cbv zeta.
  rewrite (listing_alike fromisoformat QAll (debts db) Hok). exact Hl.
Qed.

Lemma debts_listed_newest_first_witness :
  ∃ l, Server.get_debts (λ _, Raise ValueError) Samples.db = Ok l
       ∧ Backend.get_debts (λ _, Raise ValueError) Samples.db = Ok l
       ∧ l ≡ₚ shown (λ _, Raise ValueError) <$> first_10000 (debts Samples.db)
       ∧ newest_first l
       ∧ same_order_by_date l
           (shown (λ _, Raise ValueError) <$> first_10000 (debts Samples.db))
       ∧ (length l ≤ Z.to_nat 10000)%nat.
Proof.
  apply (debts_listed_newest_first (λ _, Raise ValueError) Samples.db).
  reflexivity.
Defined.

(** X4. The listing cuts at 10000 after the date test, the summary before
    it. When 10000 or more well-shaped expenses, none of them dated today,
    are stored before an expense of today, [get_expenses] of [src/server.py]
    under the filter "day" returns that one expense, while [get_summary]
    returns a [total_today] of zero in both variants. *)
Theorem listing_shows_what_summary_misses {num : Type} `{Number num}
    (fromisoformat : string → result Z) (now : datetime)
    (old : list (gmap string (value num))) (e : gmap string (value num))
    (ds ls : list (gmap string (value num))) :
  let db := {| expenses := old ++ [e]; debts := ds; limits := ls |} in
  stored_ok db = true →
  forallb (readable fromisoformat) (expenses db) = true →
  (Z.to_nat 10000 ≤ length old)%nat →
  forallb (λ d, negb (on_day (strftime_ymd now) d)) old = true →
  on_day (strftime_ymd now) e = true →
  Server.get_expenses fromisoformat now (Some "day") db
  = Ok [shown fromisoformat e]
  ∧ ∃ s, Server.get_summary now db = Ok s ∧ Backend.get_summary now db = Ok s
         ∧ total_today s = of_int 0.
Proof.
  intros db Hok Hread Hlen Hold He. split.
  - assert (forallb (server_listable fromisoformat) (expenses db) = true)
      as Hlist.
    { apply forallb_forall. intros d Hd. unfold server_listable.
      rewrite forallb_forall in Hread. rewrite (Hread d Hd), andb_true_r.
      pose proof Hok as Hexp. unfold stored_ok in Hexp.
      apply andb_true_iff in Hexp as [Hexp _].
      apply andb_true_iff in Hexp as [Hexp _].
      rewrite forallb_forall in Hexp. specialize (Hexp d Hd).
      unfold is_expense in Hexp. unfold date_or_none.
      destruct (d !! "date") as [[]|]; try discriminate. reflexivity. }
    unfold Server.get_expenses. cbv zeta.
    destruct (server_listing fromisoformat
                (Server.expenses_query now (Some "day"))
                (window now (Some "day")) (expenses db))
      as (l & Hl & Hperm & _); [| exact Hlist |].
    { apply Forall_forall. intros d Hd. apply server_query_window.
      rewrite forallb_forall in Hlist.
      specialize (Hlist d (proj1 (list_elem_of_In _ _) Hd)).
      unfold server_listable in Hlist.
      apply andb_true_iff in Hlist as [Hdate _]. exact Hdate. }
    rewrite Hl. f_equal. apply Permutation_singleton_r.
    rewrite Hperm. unfold listed, db. simpl.
    change (window now (Some "day"))
      with (on_day (num := num) (strftime_ymd now)).
    rewrite List.filter_app, (filter_none _ old Hold). simpl. rewrite He.
    reflexivity.
  - exists (summary_of now db).
    split; [apply server_get_summary_stored, Hok |].
    split; [apply backend_get_summary_stored, Hok |].
    unfold summary_of, db. simpl. unfold total_where, first_10000.
    rewrite take_app_le by exact Hlen.
    assert (List.filter (on_day (strftime_ymd now)) (take (Z.to_nat 10000) old)
            = []) as ->; [| reflexivity].
    apply filter_none. apply forallb_forall. intros d Hd.
    rewrite forallb_forall in Hold. apply Hold.
    apply list_elem_of_In. apply list_elem_of_In in Hd.
    apply elem_of_take in Hd as (i & Hi & _).
    eapply list_elem_of_lookup_2, Hi.
Qed.

(** The crowded sample store: 10000 expenses of January before one of
    today. *)
Lemma listing_shows_what_summary_misses_witness :
  Server.get_expenses (λ _, Raise ValueError) Samples.thursday (Some "day")
    Samples.crowded
  = Ok [Samples.expense "new" "2024-06-20" 5%float]
  ∧ ∃ s, Server.get_summary Samples.thursday Samples.crowded = Ok s
         ∧ Backend.get_summary Samples.thursday Samples.crowded = Ok s
         ∧ total_today s = of_int 0.
Proof.
  apply (listing_shows_what_summary_misses (λ _, Raise ValueError)
           Samples.thursday
           (replicate (Z.to_nat 10000)
              (Samples.expense "old" "2024-01-15" 1%float))
           (Samples.expense "new" "2024-06-20" 5%float)
           (debts Samples.crowded) []).
  - vm_compute. reflexivity.
  - vm_compute. reflexivity.
  - rewrite length_replicate. lia.
  - vm_compute. reflexivity.
  - reflexivity.
Defined.

(** X5. [get_expenses] of [src/backend/server.py] subscripts the timestamp
    of every expense it reads: when one of the first 10000 stored expenses
    has no [timestamp] field, and the timestamps stored before it are read
    without an error, the listing without a filter raises
    [KeyError("timestamp")], whatever else is stored, where [src/server.py]
    lists that expense too when the stored expenses are ones it can list. *)
Theorem backend_listing_needs_timestamp {num : Type} `{Number num}
    (fromisoformat : string → result Z) (now : datetime)
    (before after : list (gmap string (value num)))
    (e : gmap string (value num))
    (ds ls : list (gmap string (value num))) :
  let db := {| expenses := before ++ e :: after; debts := ds; limits := ls |} in
  (length before < Z.to_nat 10000)%nat →
  forallb (λ d, has_timestamp d && readable fromisoformat d) before = true →
  e !! "timestamp" = None →
  Backend.get_expenses fromisoformat now None db = Raise (KeyError "timestamp")
  ∧ (forallb (server_listable fromisoformat) (expenses db) = true →
     ∃ l, Server.get_expenses fromisoformat now None db = Ok l
          ∧ without_id e ∈ l).
Proof.
  intros db Hlen Hbefore He. split.
  - unfold Backend.get_expenses. cbv zeta. simpl.
    rewrite to_list_find_all. unfold first_10000, db. simpl.
    rewrite take_app_ge by lia.
    destruct (Z.to_nat 10000 - length before)%nat as [|n] eqn:Hn; [lia |].
    simpl. rewrite fmap_app, fmap_cons.
    rewrite (for_each_raise _ _ _ _ (KeyError "timestamp")); [reflexivity | |].
    + apply Forall_fmap, Forall_forall. intros d Hd. simpl.
      rewrite forallb_forall in Hbefore.
      specialize (Hbefore d (proj1 (list_elem_of_In _ _) Hd)).
      apply andb_true_iff in Hbefore as [Hts Hr].
      exists (shown fromisoformat d). apply backend_parse_shown; assumption.
    + unfold Backend.parse_timestamp, getitem.
      rewrite lookup_without_id by discriminate. rewrite He. reflexivity.
  - intros Hlist. unfold Server.get_expenses. cbv zeta.
    destruct (server_listing fromisoformat (Server.expenses_query now None)
                (window now None) (expenses db))
      as (l & Hl & Hperm & _); [| exact Hlist |].
    { apply Forall_forall. intros d _. reflexivity. }
    exists l. split; [exact Hl |]. rewrite Hperm.
    unfold listed, db. simpl. rewrite filter_all.
    assert (shown fromisoformat e = without_id e) as <-.
    { unfold shown. rewrite He. reflexivity. }
    apply list_elem_of_fmap_2. unfold first_10000.
    rewrite take_app_ge by lia.
    destruct (Z.to_nat 10000 - length before)%nat as [|n] eqn:Hn; [lia |].
    simpl. apply elem_of_app. right. apply elem_of_cons. left. reflexivity.
Qed.

(** An expense without a timestamp before one of today. *)
Lemma backend_listing_needs_timestamp_witness :
  Backend.get_expenses (λ _, Raise ValueError) Samples.thursday None
    Samples.unstamped = Raise (KeyError "timestamp")
  ∧ (forallb (server_listable (λ _, Raise ValueError))
       (expenses Samples.unstamped) = true →
     ∃ l, Server.get_expenses (λ _, Raise ValueError) Samples.thursday None
            Samples.unstamped = Ok l
          ∧ without_id Samples.unstamped_expense ∈ l).
Proof.
  apply (backend_listing_needs_timestamp (λ _, Raise ValueError)
           Samples.thursday [Samples.expense "e1" "2024-06-20" 40%float] []
           Samples.unstamped_expense [] []).
  - simpl. lia.
  - reflexivity.
  - reflexivity.
Defined.

(** ** Writes *)

Section Writing.
Context {num : Type} `{Number num}.

Abbreviation doc := (gmap string (value num)).

Lemma with_expenses_same (db : database num) :
  with_expenses (expenses db) db = db.
Proof. destruct db. reflexivity. Qed.

Lemma with_debts_same (db : database num) : with_debts (debts db) db = db.
Proof. destruct db. reflexivity. Qed.

Lemma with_limits_same (db : database num) : with_limits (limits db) db = db.
Proof. destruct db. reflexivity. Qed.

(** What BSON makes of the documents of the three models. *)
Lemma bson_expense (e : Expense.t num) :
  bson (Expense.model_dump e) = stored_expense e.
Proof.
  unfold bson, stored_expense, Expense.model_dump, cut_to_millis.
  rewrite !fmap_insert, fmap_empty. reflexivity.
Qed.

Lemma bson_debt (d : Debt.t num) : bson (Debt.model_dump d) = stored_debt d.
Proof.
  unfold bson, stored_debt, Debt.model_dump, cut_to_millis.
  rewrite !fmap_insert, fmap_empty. reflexivity.
Qed.

Lemma bson_limit (l : Limit.t num) :
  bson (Limit.model_dump l) = Limit.model_dump l.
Proof.
  unfold bson, Limit.model_dump. rewrite !fmap_insert, fmap_empty.
  reflexivity.
Qed.

Lemma fresh_app (key : string) (l1 l2 : list doc) :
  fresh key (l1 ++ l2) = fresh key l1 && fresh key l2.
Proof. unfold fresh. rewrite existsb_app. apply negb_orb. Qed.

Lemma fresh_cons (key : string) (d : doc) (l : list doc) :
  fresh key (d :: l) = negb (has_id key d) && fresh key l.
Proof. unfold fresh. simpl. apply negb_orb. Qed.

Lemma insert_one_fresh (unique : bool) (object_id : value num) (key : string)
    (d : doc) (coll : list doc) :
  fresh key coll = true →
  insert_one unique object_id key d coll
  = Some (coll ++ [<["_id" := object_id]> (bson d)])%list.
Proof.
  unfold fresh, insert_one. intros Hfresh. apply negb_true_iff in Hfresh.
  rewrite Hfresh, andb_false_r. reflexivity.
Qed.

(** Without a document of this id nothing is deleted and nothing updated. *)
Lemma delete_one_fresh (key : string) (coll : list doc) :
  fresh key coll = true → delete_one key coll = (coll, 0).
Proof.
  induction coll as [|d coll IH]; [reflexivity |].
  rewrite fresh_cons. intros Hfresh. apply andb_true_iff in Hfresh as [Hd Hc].
  apply negb_true_iff in Hd. simpl. rewrite Hd, (IH Hc). reflexivity.
Qed.

Lemma find_one_and_update_fresh (key : string) (fields : doc)
    (coll : list doc) :
  fresh key coll = true → find_one_and_update key fields coll = (coll, None).
Proof.
  induction coll as [|d coll IH]; [reflexivity |].
  rewrite fresh_cons. intros Hfresh. apply andb_true_iff in Hfresh as [Hd Hc].
  apply negb_true_iff in Hd. simpl. rewrite Hd, (IH Hc). reflexivity.
Qed.

(** The first document of this id is the one deleted, and the one
    updated. *)
Lemma delete_one_first (key : string) (before after : list doc) (d : doc) :
  fresh key before = true → has_id key d = true →
  delete_one key (before ++ d :: after) = ((before ++ after)%list, 1).
Proof.
  intros Hfresh Hd. induction before as [|d0 before IH]; simpl.
  - rewrite Hd. reflexivity.
  - rewrite fresh_cons in Hfresh. apply andb_true_iff in Hfresh as [Hd0 Hb].
    apply negb_true_iff in Hd0. rewrite Hd0, (IH Hb). reflexivity.
Qed.

Lemma find_one_and_update_first (key : string) (fields : doc)
    (before after : list doc) (d : doc) :
  fresh key before = true → has_id key d = true →
  find_one_and_update key fields (before ++ d :: after)
  = ((before ++ (fields ∪ d) :: after)%list, Some (fields ∪ d)).
Proof.
  intros Hfresh Hd. induction before as [|d0 before IH]; simpl.
  - rewrite Hd. reflexivity.
  - rewrite fresh_cons in Hfresh. apply andb_true_iff in Hfresh as [Hd0 Hb].
    apply negb_true_iff in Hd0. rewrite Hd0, (IH Hb). reflexivity.
Qed.

(** A collection holds a document of this id or none, and the first one
    splits it. *)
Lemma fresh_or_first (key : string) (coll : list doc) :
  fresh key coll = true
  ∨ ∃ before d after,
      coll = (before ++ d :: after)%list ∧ fresh key before = true
      ∧ has_id key d = true.
Proof.
  induction coll as [|d coll IH]; [left; reflexivity |].
  destruct (has_id key d) eqn:Hd.
  - right. exists [], d, coll. auto.
  - destruct IH as [Hfresh | (before & d' & after & -> & Hfresh & Hd')].
    + left. rewrite fresh_cons, Hd, Hfresh. reflexivity.
    + right. exists (d :: before), d', after. rewrite fresh_cons, Hd, Hfresh.
      auto.
Qed.

(** The document a create route stores carries the id drawn for it. *)
Lemma has_id_stored (key : string) (object_id : value num) (d : doc) :
  d !! "id" = Some (VStr key) →
  has_id key (<["_id" := object_id]> (bson d)) = true.
Proof.
  intros Hd. unfold has_id, bson.
  rewrite lookup_insert_ne by discriminate. rewrite lookup_fmap, Hd. simpl.
  apply String.eqb_refl.
Qed.

Lemma without_id_stored (object_id : value num) (d : doc) :
  d !! "_id" = None → without_id (<["_id" := object_id]> (bson d)) = bson d.
Proof.
  intros Hd. unfold without_id. apply delete_insert_id.
  unfold bson. rewrite lookup_fmap, Hd. reflexivity.
Qed.

(** The expense [create_expense] of [src/server.py] has stored, as a
    listing shows it. *)
Lemma shown_stored_expense (fromisoformat : string → result Z)
    (object_id : value num) (e : Expense.t num) :
  shown fromisoformat (<["_id" := object_id]> (bson (Expense.model_dump e)))
  = stored_expense e.
Proof.
  unfold shown. rewrite lookup_insert_ne by discriminate.
  rewrite without_id_stored by reflexivity. rewrite bson_expense.
  reflexivity.
Qed.

(** What the routes that read find in a collection with one more document
    behind the first 10000. *)
Lemma to_list_beyond (coll : list doc) (x : doc) :
  (Z.to_nat 10000 ≤ length coll)%nat →
  to_list 10000 (find QAll (coll ++ [x])) = to_list 10000 (find QAll coll).
Proof.
  intros Hlen. rewrite !to_list_find_all. f_equal. unfold first_10000.
  apply take_app_le, Hlen.
Qed.
End Writing.

Section Reading_more.
Context {num : Type} `{Number num}.

Abbreviation doc := (gmap string (value num)).

(** The routes that read without a filter see the first 10000 documents
    only. *)
Lemma reads_beyond (fromisoformat : string → result Z) (now : datetime)
    (x : doc) (db : database num) :
  (Z.to_nat 10000 ≤ length (expenses db))%nat →
  let db' := with_expenses (expenses db ++ [x]) db in
  Server.get_expenses fromisoformat now None db'
  = Server.get_expenses fromisoformat now None db
  ∧ Backend.get_expenses fromisoformat now None db'
    = Backend.get_expenses fromisoformat now None db
  ∧ Server.get_summary now db' = Server.get_summary now db
  ∧ Backend.get_summary now db' = Backend.get_summary now db.
Proof.
  intros Hlen db'.
  unfold Server.get_expenses, Backend.get_expenses, Server.get_summary,
    Backend.get_summary, db', with_expenses. cbv zeta. simpl.
  rewrite !(to_list_beyond _ x Hlen). auto.
Qed.
End Reading_more.

(** X6. An expense created by [create_expense] of [src/server.py] comes
    back in the listing. On a store of fewer than 10000 expenses that the
    variant can list, none of them with the id drawn, the route returns the
    new [Expense] and leaves one more document in the store; the listing
    without a filter then holds the expenses it held, in their places, and
    the new one behind those dated the same day or later and before those
    dated earlier. The document listed has the fields of the request, the
    id drawn and the instant of the call cut to its milliseconds. *)
Theorem created_expense_is_listed {num : Type} `{Number num}
    (fromisoformat : string → result Z) (indexed : bool) (uuid4 : string)
    (now now' : datetime) (object_id : value num) (input : ExpenseCreate num)
    (db : database num) :
  fresh uuid4 (expenses db) = true →
  forallb (server_listable fromisoformat) (expenses db) = true →
  (length (expenses db) < Z.to_nat 10000)%nat →
  let expense_obj := Server.new_expense uuid4 now input in
  ∃ db' l1 l2,
    Server.create_expense fromisoformat indexed uuid4 now object_id input db
    = (db', Written expense_obj)
    ∧ debts db' = debts db ∧ limits db' = limits db
    ∧ Server.get_expenses fromisoformat now' None db = Ok (l1 ++ l2)%list
    ∧ Server.get_expenses fromisoformat now' None db'
      = Ok (l1 ++ stored_expense expense_obj :: l2)%list
    ∧ Forall (λ d, String.leb (date input) (date_of d) = true) l1
    ∧ Forall (λ d, String.ltb (date_of d) (date input) = true) l2.
Proof.
  intros Hfresh Hlist Hlen expense_obj.
  set (x := <["_id" := object_id]> (bson (Expense.model_dump expense_obj))).
  exists (with_expenses (expenses db ++ [x]) db).
  destruct (listing_snoc fromisoformat (Server.parse_timestamp fromisoformat)
              (λ x, Ok (default (VStr "") (x !! "date"))) (expenses db) x)
    as (l1 & l2 & H1 & H2 & Hl1 & Hl2); [| exact Hlen |].
  { apply Forall_app. split.
    - apply Forall_forall. intros d Hd. rewrite forallb_forall in Hlist.
      specialize (Hlist d (proj1 (list_elem_of_In _ _) Hd)).
      unfold server_listable in Hlist.
      apply andb_true_iff in Hlist as [Hdate Hr].
      split; [apply server_parse_shown, Hr | apply server_key_shown, Hdate].
    - apply Forall_singleton.
      split; [apply server_parse_shown | apply server_key_shown];
        reflexivity. }
  exists l1, l2. split.
  { unfold Server.create_expense. cbv zeta.
    change (Server.parse_timestamp fromisoformat
              (Expense.model_dump (Server.new_expense uuid4 now input)))
      with (Ok (Expense.model_dump expense_obj) : result _).
    cbv iota beta. rewrite (insert_one_fresh _ _ _ _ _ Hfresh). reflexivity. }
  split; [reflexivity |]. split; [reflexivity |].
  split; [exact H1 |]. split; [| split; [exact Hl1 | exact Hl2]].
  unfold Server.get_expenses, with_expenses. cbv zeta. simpl expenses.
  change (Server.expenses_query now' None) with QAll. rewrite H2.
  unfold x. rewrite shown_stored_expense. reflexivity.
Qed.

(** A dinner of yesterday added to the sample store comes to stand behind
    the two expenses of today; the clock read 123456 microseconds, the
    listing says 123000. *)
Lemma created_expense_is_listed_witness :
  ∃ db' l1 l2,
    Server.create_expense (λ _, Raise ValueError) true "e4"
      Samples.a_little_later (VStr "oid4") Samples.dinner Samples.db
    = (db', Written (Server.new_expense "e4" Samples.a_little_later
                       Samples.dinner))
    ∧ debts db' = debts Samples.db ∧ limits db' = limits Samples.db
    ∧ Server.get_expenses (λ _, Raise ValueError) Samples.thursday None
        Samples.db = Ok (l1 ++ l2)%list
    ∧ Server.get_expenses (λ _, Raise ValueError) Samples.thursday None db'
      = Ok (l1 ++ stored_expense
                    (Server.new_expense "e4" Samples.a_little_later
                       Samples.dinner) :: l2)%list
    ∧ Forall (λ d, String.leb "2024-06-19" (date_of d) = true) l1
    ∧ Forall (λ d, String.ltb (date_of d) "2024-06-19" = true) l2.
Proof.
  apply (created_expense_is_listed (λ _, Raise ValueError) true "e4"
           Samples.a_little_later Samples.thursday (VStr "oid4")
           Samples.dinner Samples.db).
  - reflexivity.
  - reflexivity.
  - simpl. lia.
Defined.

(** X7. An expense created by [create_expense] of [src/backend/server.py]
    comes back in its listing with the instant of the call, which the
    variant stores as its ISO string: when [fromisoformat] reads that string
    back, then on a store of fewer than 10000 expenses that the variant can
    list the listing without a filter holds, after the call, the expenses it
    held, in their places, and the [model_dump] of the [Expense] returned,
    behind the expenses dated the same day or later and before those dated
    earlier. *)
Theorem backend_created_expense_is_listed {num : Type} `{Number num}
    (fromisoformat : string → result Z) (uuid4 : string)
    (now now' : datetime) (object_id : value num) (input : ExpenseCreate num)
    (db : database num) :
  fromisoformat (isoformat now) = Ok (to_micros now) →
  forallb (backend_listable fromisoformat) (expenses db) = true →
  (length (expenses db) < Z.to_nat 10000)%nat →
  let expense_obj := Server.new_expense uuid4 now input in
  ∃ db' l1 l2,
    Backend.create_expense uuid4 now object_id input db
    = (db', Written expense_obj)
    ∧ debts db' = debts db ∧ limits db' = limits db
    ∧ Backend.get_expenses fromisoformat now' None db = Ok (l1 ++ l2)%list
    ∧ Backend.get_expenses fromisoformat now' None db'
      = Ok (l1 ++ Expense.model_dump expense_obj :: l2)%list
    ∧ Forall (λ d, String.leb (date input) (date_of d) = true) l1
    ∧ Forall (λ d, String.ltb (date_of d) (date input) = true) l2.
Proof.
  intros Hiso Hlist Hlen expense_obj.
  set (x := <["_id" := object_id]>
              (bson (<["timestamp" := VStr (isoformat now)]>
                       (Expense.model_dump expense_obj)))).
  assert (shown fromisoformat x = Expense.model_dump expense_obj) as Hshown.
  { unfold shown.
    change (x !! "timestamp") with (Some (VStr (isoformat now) : value num)).
    cbv iota beta. rewrite Hiso. reflexivity. }
  exists (with_expenses (expenses db ++ [x]) db).
  destruct (listing_snoc fromisoformat (Backend.parse_timestamp fromisoformat)
              (λ x, getitem x "date") (expenses db) x)
    as (l1 & l2 & H1 & H2 & Hl1 & Hl2); [| exact Hlen |].
  { apply Forall_app. split.
    - apply Forall_forall. intros d Hd. rewrite forallb_forall in Hlist.
      specialize (Hlist d (proj1 (list_elem_of_In _ _) Hd)).
      unfold backend_listable in Hlist.
      apply andb_true_iff in Hlist as [Hlist Hr].
      apply andb_true_iff in Hlist as [Hdate Hts].
      split; [apply backend_parse_shown; assumption |].
      apply backend_key_shown, Hdate.
    - apply Forall_singleton. split.
      + apply backend_parse_shown; [reflexivity |]. unfold readable.
        change (x !! "timestamp")
          with (Some (VStr (isoformat now) : value num)).
        cbv iota beta. rewrite Hiso. reflexivity.
      + apply backend_key_shown. reflexivity. }
  rewrite Hshown in H2.
  exists l1, l2. split; [reflexivity |].
  split; [reflexivity |]. split; [reflexivity |].
  split; [exact H1 |]. split; [| split; [exact Hl1 | exact Hl2]].
  unfold Backend.get_expenses, with_expenses. cbv zeta. simpl expenses.
  change (Backend.expenses_query now' None) with QAll. exact H2.
Qed.

Lemma backend_created_expense_is_listed_witness :
  ∃ db' l1 l2,
    Backend.create_expense "e4" Samples.a_little_later (VStr "oid4")
      Samples.dinner Samples.db
    = (db', Written (Server.new_expense "e4" Samples.a_little_later
                       Samples.dinner))
    ∧ debts db' = debts Samples.db ∧ limits db' = limits Samples.db
    ∧ Backend.get_expenses Samples.reads_a_little_later Samples.thursday None
        Samples.db = Ok (l1 ++ l2)%list
    ∧ Backend.get_expenses Samples.reads_a_little_later Samples.thursday None
        db'
      = Ok (l1 ++ Expense.model_dump
                    (Server.new_expense "e4" Samples.a_little_later
                       Samples.dinner) :: l2)%list
    ∧ Forall (λ d, String.leb "2024-06-19" (date_of d) = true) l1
    ∧ Forall (λ d, String.ltb (date_of d) "2024-06-19" = true) l2.
Proof.
  apply (backend_created_expense_is_listed Samples.reads_a_little_later "e4"
           Samples.a_little_later Samples.thursday (VStr "oid4")
           Samples.dinner Samples.db).
  - reflexivity.
  - reflexivity.
  - simpl. lia.
Defined.

(** X8. The 10001st expense is stored and is not read. When the store holds
    10000 expenses or more, none with the id drawn, [create_expense] of
    either variant returns the new [Expense] and leaves one more document in
    the store, and the listing without a filter and the summary of both
    variants return after the call what they returned before it. *)
Theorem expense_beyond_the_cut_is_not_read {num : Type} `{Number num}
    (fromisoformat : string → result Z) (indexed : bool) (uuid4 : string)
    (now now' : datetime) (object_id : value num) (input : ExpenseCreate num)
    (db : database num) :
  (Z.to_nat 10000 ≤ length (expenses db))%nat →
  fresh uuid4 (expenses db) = true →
  ∃ server_db backend_db,
    Server.create_expense fromisoformat indexed uuid4 now object_id input db
    = (server_db, Written (Server.new_expense uuid4 now input))
    ∧ Backend.create_expense uuid4 now object_id input db
      = (backend_db, Written (Server.new_expense uuid4 now input))
    ∧ ∀ db', db' = server_db ∨ db' = backend_db →
        length (expenses db') = S (length (expenses db))
        ∧ Server.get_expenses fromisoformat now' None db'
          = Server.get_expenses fromisoformat now' None db
        ∧ Backend.get_expenses fromisoformat now' None db'
          = Backend.get_expenses fromisoformat now' None db
        ∧ Server.get_summary now' db' = Server.get_summary now' db
        ∧ Backend.get_summary now' db' = Backend.get_summary now' db.
Proof.
  intros Hlen Hfresh. eexists _, _. split; [| split].
  - unfold Server.create_expense. cbv zeta.
    change (Server.parse_timestamp fromisoformat
              (Expense.model_dump (Server.new_expense uuid4 now input)))
      with (Ok (Expense.model_dump (Server.new_expense uuid4 now input))
            : result _).
    cbv iota beta. rewrite (insert_one_fresh _ _ _ _ _ Hfresh). reflexivity.
  - unfold Backend.create_expense. cbv zeta.
    rewrite (insert_one_fresh _ _ _ _ _ Hfresh). reflexivity.
  - intros db' [-> | ->].
    + split; [simpl; rewrite length_app; simpl; lia |].
      apply (reads_beyond fromisoformat now' _ db Hlen).
    + split; [simpl; rewrite length_app; simpl; lia |].
      apply (reads_beyond fromisoformat now' _ db Hlen).
Qed.

(** The sample store of 10001 expenses takes one more. *)
Lemma expense_beyond_the_cut_is_not_read_witness :
  ∃ server_db backend_db,
    Server.create_expense (λ _, Raise ValueError) true "e4"
      Samples.a_little_later (VStr "oid4") Samples.dinner Samples.crowded
    = (server_db, Written (Server.new_expense "e4" Samples.a_little_later
                             Samples.dinner))
    ∧ Backend.create_expense "e4" Samples.a_little_later (VStr "oid4")
        Samples.dinner Samples.crowded
      = (backend_db, Written (Server.new_expense "e4" Samples.a_little_later
                                Samples.dinner))
    ∧ ∀ db', db' = server_db ∨ db' = backend_db →
        length (expenses db') = S (length (expenses Samples.crowded))
        ∧ Server.get_expenses (λ _, Raise ValueError) Samples.thursday None db'
          = Server.get_expenses (λ _, Raise ValueError) Samples.thursday None
              Samples.crowded
        ∧ Backend.get_expenses (λ _, Raise ValueError) Samples.thursday None
            db'
          = Backend.get_expenses (λ _, Raise ValueError) Samples.thursday None
              Samples.crowded
        ∧ Server.get_summary Samples.thursday db'
          = Server.get_summary Samples.thursday Samples.crowded
        ∧ Backend.get_summary Samples.thursday db'
          = Backend.get_summary Samples.thursday Samples.crowded.
Proof.
  apply (expense_beyond_the_cut_is_not_read (λ _, Raise ValueError) true "e4"
           Samples.a_little_later Samples.thursday (VStr "oid4")
           Samples.dinner Samples.crowded).
  - change (expenses Samples.crowded)
      with (replicate (Z.to_nat 10000)
              (Samples.expense "old" "2024-01-15" 1%float)
            ++ [Samples.expense "new" "2024-06-20" 5%float])%list.
    rewrite length_app, length_replicate. lia.
  - vm_compute. reflexivity.
Defined.

(** X9. Deleting what was just created gives the store back. When no stored
    expense has the id drawn, [delete_expense] on that id, after
    [create_expense], returns its message and leaves the store exactly as it
    was before the two calls; and so do [create_debt] and [delete_debt] on a
    store in which no debt has the id; in both variants. *)
Theorem create_then_delete_restores_the_store {num : Type} `{Number num}
    (fromisoformat : string → result Z) (indexed : bool) (uuid4 : string)
    (now : datetime) (object_id : value num) (expense : ExpenseCreate num)
    (debt : DebtCreate.t num) (db : database num) :
  fresh uuid4 (expenses db) = true → fresh uuid4 (debts db) = true →
  Server.delete_expense uuid4
    (Server.create_expense fromisoformat indexed uuid4 now object_id
       expense db).1
  = (db, Ok {["message" := VStr "Expense deleted successfully"]})
  ∧ Backend.delete_expense uuid4
      (Backend.create_expense uuid4 now object_id expense db).1
    = (db, Ok {["message" := VStr "Expense deleted successfully"]})
  ∧ Server.delete_debt uuid4
      (Server.create_debt fromisoformat indexed uuid4 now object_id debt db).1
    = (db, Ok {["message" := VStr "Debt deleted successfully"]})
  ∧ Backend.delete_debt uuid4
      (Backend.create_debt uuid4 now object_id debt db).1
    = (db, Ok {["message" := VStr "Debt deleted successfully"]}).
Proof.
  intros He Hd.
  assert (∀ (coll : list (gmap string (value num))) x,
            fresh uuid4 coll = true → has_id uuid4 x = true →
            delete_one uuid4 (coll ++ [x]) = (coll, 1)) as Hdel.
  { intros coll x Hc Hx.
    rewrite (delete_one_first uuid4 coll [] x Hc Hx), app_nil_r.
    reflexivity. }
  split; [| split; [| split]].
  - unfold Server.create_expense. cbv zeta.
    change (Server.parse_timestamp fromisoformat
              (Expense.model_dump (Server.new_expense uuid4 now expense)))
      with (Ok (Expense.model_dump (Server.new_expense uuid4 now expense))
            : result _).
    cbv iota beta. rewrite (insert_one_fresh _ _ _ _ _ He).
    unfold Server.delete_expense. simpl.
    rewrite Hdel by (exact He || (apply has_id_stored; reflexivity)).
    simpl. destruct db; reflexivity.
  - unfold Backend.create_expense. cbv zeta.
    rewrite (insert_one_fresh _ _ _ _ _ He).
    unfold Backend.delete_expense. simpl.
    rewrite Hdel by (exact He || (apply has_id_stored; reflexivity)).
    simpl. destruct db; reflexivity.
  - unfold Server.create_debt. cbv zeta.
    change (Server.parse_timestamp fromisoformat
              (Debt.model_dump (Server.new_debt uuid4 now debt)))
      with (Ok (Debt.model_dump (Server.new_debt uuid4 now debt)) : result _).
    cbv iota beta. rewrite (insert_one_fresh _ _ _ _ _ Hd).
    unfold Server.delete_debt. simpl.
    rewrite Hdel by (exact Hd || (apply has_id_stored; reflexivity)).
    simpl. destruct db; reflexivity.
  - unfold Backend.create_debt. cbv zeta.
    rewrite (insert_one_fresh _ _ _ _ _ Hd).
    unfold Backend.delete_debt. simpl.
    rewrite Hdel by (exact Hd || (apply has_id_stored; reflexivity)).
    simpl. destruct db; reflexivity.
Qed.

Lemma create_then_delete_restores_the_store_witness :
  Server.delete_expense "e4"
    (Server.create_expense (λ _, Raise ValueError) true "e4"
       Samples.a_little_later (VStr "oid4") Samples.dinner Samples.db).1
  = (Samples.db, Ok {["message" := VStr "Expense deleted successfully"]})
  ∧ Backend.delete_expense "e4"
      (Backend.create_expense "e4" Samples.a_little_later (VStr "oid4")
         Samples.dinner Samples.db).1
    = (Samples.db, Ok {["message" := VStr "Expense deleted successfully"]})
  ∧ Server.delete_debt "e4"
      (Server.create_debt (λ _, Raise ValueError) true "e4"
         Samples.a_little_later (VStr "oid4") Samples.loan Samples.db).1
    = (Samples.db, Ok {["message" := VStr "Debt deleted successfully"]})
  ∧ Backend.delete_debt "e4"
      (Backend.create_debt "e4" Samples.a_little_later (VStr "oid4")
         Samples.loan Samples.db).1
    = (Samples.db, Ok {["message" := VStr "Debt deleted successfully"]}).
Proof.
  apply (create_then_delete_restores_the_store (λ _, Raise ValueError) true
           "e4" Samples.a_little_later (VStr "oid4") Samples.dinner
           Samples.loan Samples.db); reflexivity.
Defined.

(** X10. [delete_expense] deletes one expense or none. Either no stored
    expense has the id, and the route raises 404 "Expense not found" and
    leaves the store as it was; or the route returns its message and the
    store is the one before the call without the first expense of that id,
    every other document in its place, debts and limits untouched. The
    routes of the two variants are the same function, and [delete_debt] is
    to the debts what [delete_expense] is to the expenses. *)
Theorem delete_removes_the_first_of_the_id {num : Type} `{Number num}
    (key : string) (db : database num) :
  (fresh key (expenses db) = true
   ∧ Server.delete_expense key db
     = (db, Raise (HTTPException 404 "Expense not found"))
   ∨ ∃ before d after,
       expenses db = (before ++ d :: after)%list
       ∧ fresh key before = true ∧ has_id key d = true
       ∧ Server.delete_expense key db
         = (with_expenses (before ++ after) db,
            Ok {["message" := VStr "Expense deleted successfully"]}))
  ∧ (fresh key (debts db) = true
     ∧ Server.delete_debt key db
       = (db, Raise (HTTPException 404 "Debt not found"))
     ∨ ∃ before d after,
         debts db = (before ++ d :: after)%list
         ∧ fresh key before = true ∧ has_id key d = true
         ∧ Server.delete_debt key db
           = (with_debts (before ++ after) db,
              Ok {["message" := VStr "Debt deleted successfully"]}))
  ∧ Backend.delete_expense key db = Server.delete_expense key db
  ∧ Backend.delete_debt key db = Server.delete_debt key db.
Proof.
  split; [| split; [| split; reflexivity]].
  - destruct (fresh_or_first key (expenses db))
      as [Hfresh | (before & d & after & Heq & Hfresh & Hd)].
    + left. split; [exact Hfresh |]. unfold Server.delete_expense.
      rewrite (delete_one_fresh key _ Hfresh). simpl. destruct db; reflexivity.
    + right. exists before, d, after. split; [exact Heq |].
      split; [exact Hfresh |]. split; [exact Hd |].
      unfold Server.delete_expense.
      rewrite Heq, (delete_one_first key before after d Hfresh Hd).
      reflexivity.
  - destruct (fresh_or_first key (debts db))
      as [Hfresh | (before & d & after & Heq & Hfresh & Hd)].
    + left. split; [exact Hfresh |]. unfold Server.delete_debt.
      rewrite (delete_one_fresh key _ Hfresh). simpl. destruct db; reflexivity.
    + right. exists before, d, after. split; [exact Heq |].
      split; [exact Hfresh |]. split; [exact Hd |].
      unfold Server.delete_debt.
      rewrite Heq, (delete_one_first key before after d Hfresh Hd).
      reflexivity.
Qed.

(** ** Updates *)

Section Updating.
Context {num : Type} `{Number num}.

Abbreviation doc := (gmap string (value num)).

(** An update that does not set the id leaves a document under its id, and
    a second update with the same fields changes nothing. *)
Lemma has_id_union (key : string) (fields d : doc) :
  fields !! "id" = None → has_id key (fields ∪ d) = has_id key d.
Proof.
  intros Hid. unfold has_id. rewrite lookup_union_r by exact Hid.
  reflexivity.
Qed.

Lemma union_twice (fields d : doc) : fields ∪ (fields ∪ d) = fields ∪ d.
Proof. rewrite (assoc_L (∪)), (idemp_L (∪)). reflexivity. Qed.

Lemma find_one_and_update_twice (key : string) (fields : doc)
    (coll : list doc) :
  fields !! "id" = None →
  find_one_and_update key fields (find_one_and_update key fields coll).1
  = find_one_and_update key fields coll.
Proof.
  intros Hid.
  destruct (fresh_or_first key coll)
    as [Hfresh | (before & d & after & -> & Hfresh & Hd)].
  - rewrite (find_one_and_update_fresh key fields coll Hfresh). simpl.
    apply find_one_and_update_fresh, Hfresh.
  - rewrite (find_one_and_update_first key fields before after d Hfresh Hd).
    simpl. rewrite (find_one_and_update_first key fields before after _ Hfresh)
      by (rewrite has_id_union; assumption).
    rewrite union_twice. reflexivity.
Qed.

Lemma model_dump_no_id (input : ExpenseCreate num) :
  Server.model_dump input !! "id" = None.
Proof. reflexivity. Qed.

Lemma update_expense_store (fromisoformat : string → result Z)
    (key : string) (input : ExpenseCreate num) (db : database num) :
  (Server.update_expense fromisoformat key input db).1
  = with_expenses
      (find_one_and_update key (Server.model_dump input) (expenses db)).1 db.
Proof.
  unfold Server.update_expense.
  destruct (find_one_and_update _ _ _) as [coll [r|]]; reflexivity.
Qed.

Lemma update_debt_store (fromisoformat : string → result Z)
    (key : string) (input : DebtUpdate) (db : database num) :
  (Server.update_debt fromisoformat key input db).1
  = with_debts
      (find_one_and_update key {["status" := VStr (status input)]}
         (debts db)).1 db.
Proof.
  unfold Server.update_debt.
  destruct (find_one_and_update _ _ _) as [coll [r|]]; reflexivity.
Qed.
End Updating.

(** X11. [update_expense] updates one expense or none. Either no stored
    expense has the id, and the route raises 404 "Expense not found" and
    leaves the store as it was; or the first stored expense of that id takes
    the title, the amount, the date and the category of the request and
    keeps its id, every other document stays as it is in its place, and
    [src/server.py] answers with that expense without its [_id], its
    timestamp read. [src/backend/server.py] leaves the same store in both
    cases and raises the same 404. *)
Theorem update_expense_finds_the_first_of_the_id {num : Type} `{Number num}
    (fromisoformat : string → result Z)
    (float_of_str : string → option num)
    (datetime_of_str : string → option Z) (datetime_of_num : num → option Z)
    (uuid4 : string) (now : datetime)
    (key : string) (input : ExpenseCreate num) (db : database num) :
  (fresh key (expenses db) = true
   ∧ Server.update_expense fromisoformat key input db
     = (db, Raise (HTTPException 404 "Expense not found"))
   ∧ Backend.update_expense fromisoformat float_of_str datetime_of_str
       datetime_of_num uuid4 now key input db
     = (db, Raise (HTTPException 404 "Expense not found")))
  ∨ ∃ before d after updated,
      expenses db = (before ++ d :: after)%list
      ∧ fresh key before = true ∧ has_id key d = true
      ∧ updated = Server.model_dump input ∪ d
      ∧ updated !! "title" = Some (VStr (title input))
      ∧ updated !! "amount" = Some (VNum (amount input))
      ∧ updated !! "date" = Some (VStr (date input))
      ∧ updated !! "category" = Some (VStr (category input))
      ∧ updated !! "id" = Some (VStr key)
      ∧ Server.update_expense fromisoformat key input db
        = (with_expenses (before ++ updated :: after) db,
           Server.parse_timestamp fromisoformat (delete "_id" updated))
      ∧ (Backend.update_expense fromisoformat float_of_str datetime_of_str
           datetime_of_num uuid4 now key input db).1
        = with_expenses (before ++ updated :: after) db.
Proof.
  destruct (fresh_or_first key (expenses db))
    as [Hfresh | (before & d & after & Heq & Hfresh & Hd)].
  - left. split; [exact Hfresh |].
    unfold Server.update_expense, Backend.update_expense.
    rewrite (find_one_and_update_fresh key _ _ Hfresh).
    destruct db; split; reflexivity.
  - right. exists before, d, after, (Server.model_dump input ∪ d).
    split; [exact Heq |]. split; [exact Hfresh |]. split; [exact Hd |].
    split; [reflexivity |].
    do 4 (split; [apply lookup_union_Some_l; reflexivity |]).
    split.
    { rewrite lookup_union_r by reflexivity. unfold has_id in Hd.
      destruct (d !! "id") as [[s| |]|]; try discriminate.
      apply String.eqb_eq in Hd. subst s. reflexivity. }
    unfold Server.update_expense, Backend.update_expense.
    rewrite Heq, (find_one_and_update_first key _ before after d Hfresh Hd).
    split; reflexivity.
Qed.

(** X12. An update made twice is the update made once. [update_expense] and
    [update_debt], of either variant, called again with the same id and the
    same request on the store the first call has left, leave that store as
    it is and give the answer of the first call. *)
Theorem update_twice_is_update_once {num : Type} `{Number num}
    (fromisoformat : string → result Z)
    (float_of_str : string → option num)
    (datetime_of_str : string → option Z) (datetime_of_num : num → option Z)
    (uuid4 : string) (now : datetime)
    (key : string) (expense : ExpenseCreate num) (debt : DebtUpdate)
    (db : database num) :
  let server_expense := Server.update_expense fromisoformat key expense in
  let server_debt := Server.update_debt fromisoformat key debt in
  let backend_expense :=
    Backend.update_expense fromisoformat float_of_str datetime_of_str
      datetime_of_num uuid4 now key expense in
  let backend_debt :=
    Backend.update_debt fromisoformat float_of_str datetime_of_str
      datetime_of_num uuid4 now key debt in
  server_expense (server_expense db).1 = server_expense db
  ∧ server_debt (server_debt db).1 = server_debt db
  ∧ backend_expense (backend_expense db).1 = backend_expense db
  ∧ backend_debt (backend_debt db).1 = backend_debt db.
Proof.
  cbv zeta.
  pose proof (find_one_and_update_twice key (Server.model_dump expense)
                (expenses db) eq_refl) as He.
  pose proof (find_one_and_update_twice key
                {["status" := VStr (status debt)]} (debts db) eq_refl) as Hd.
  unfold Server.update_expense, Server.update_debt, Backend.update_expense,
    Backend.update_debt.
  destruct (find_one_and_update key (Server.model_dump expense) (expenses db))
    as [ecoll er] eqn:Hefind.
  destruct (find_one_and_update key {["status" := VStr (status debt)]}
              (debts db)) as [dcoll dr] eqn:Hdfind.
  simpl in He, Hd.
  repeat split.
  - destruct er; simpl; rewrite He; reflexivity.
  - destruct dr; simpl; rewrite Hd; reflexivity.
  - destruct er; simpl; rewrite He; reflexivity.
  - destruct dr; simpl; rewrite Hd; reflexivity.
Qed.

(** X13. The update is stored before the answer is made. When the first
    stored expense of the id has no [timestamp] field, [update_expense] of
    [src/backend/server.py] raises [KeyError("timestamp")]; when its
    timestamp is a string that [fromisoformat] refuses, [update_expense] of
    both variants raises what [fromisoformat] raised; and in both cases the
    stored expense has taken the four fields of the request. *)
Theorem update_is_stored_before_the_answer_fails {num : Type} `{Number num}
    (fromisoformat : string → result Z)
    (float_of_str : string → option num)
    (datetime_of_str : string → option Z) (datetime_of_num : num → option Z)
    (uuid4 : string) (now : datetime)
    (key : string) (input : ExpenseCreate num)
    (before after : list (gmap string (value num)))
    (d : gmap string (value num)) (db : database num) :
  expenses db = (before ++ d :: after)%list →
  fresh key before = true → has_id key d = true →
  let db' :=
    with_expenses (before ++ (Server.model_dump input ∪ d) :: after) db in
  (d !! "timestamp" = None →
   Backend.update_expense fromisoformat float_of_str datetime_of_str
     datetime_of_num uuid4 now key input db
   = (db', Raise (KeyError "timestamp")))
  ∧ (∀ s e, d !! "timestamp" = Some (VStr s) → fromisoformat s = Raise e →
     Server.update_expense fromisoformat key input db = (db', Raise e)
     ∧ Backend.update_expense fromisoformat float_of_str datetime_of_str
         datetime_of_num uuid4 now key input db
       = (db', Raise e)).
Proof.
  intros Heq Hfresh Hd db'.
  assert (∀ v, d !! "timestamp" = v →
               delete "_id" (Server.model_dump input ∪ d) !! "timestamp" = v)
    as Hts.
  { intros v Hv. rewrite lookup_delete_ne by discriminate.
    rewrite lookup_union_r by reflexivity. exact Hv. }
  unfold Server.update_expense, Backend.update_expense.
  rewrite Heq, (find_one_and_update_first key _ before after d Hfresh Hd).
  split.
  - intros Hnone. unfold Backend.parse_timestamp, getitem.
    rewrite (Hts _ Hnone). reflexivity.
  - intros s e Hs He.
    unfold Server.parse_timestamp, Backend.parse_timestamp, getitem.
    rewrite (Hts _ Hs). cbn [bind]. rewrite He. split; reflexivity.
Qed.

(** The expense without a timestamp of the sample store takes the dinner
    and the route raises. *)
Lemma update_is_stored_before_the_answer_fails_witness :
  Backend.update_expense (λ _, Raise ValueError) (λ _, None) (λ _, None)
    (λ _, None) "e9" Samples.thursday "u" Samples.dinner Samples.unstamped
  = (with_expenses
       [Samples.expense "e1" "2024-06-20" 40%float;
        Server.model_dump Samples.dinner ∪ Samples.unstamped_expense]
       Samples.unstamped,
     Raise (KeyError "timestamp")).
Proof.
  apply (update_is_stored_before_the_answer_fails (λ _, Raise ValueError)
           (λ _, None) (λ _, None) (λ _, None) "e9" Samples.thursday "u"
           Samples.dinner [Samples.expense "e1" "2024-06-20" 40%float] []
           Samples.unstamped_expense Samples.unstamped);
    reflexivity.
Defined.

Section Paying.
Context {num : Type} `{Number num}.

Abbreviation doc := (gmap string (value num)).

Lemma total_where_skip (p : doc → bool) (before after : list doc) (d : doc) :
  p d = false →
  total_where p (before ++ d :: after) = total_where p (before ++ after).
Proof.
  intros Hd. unfold total_where. rewrite !List.filter_app. simpl.
  rewrite Hd. reflexivity.
Qed.

(** A debt stays a debt under a new status, and is pending no more when the
    status is not "pending". *)
Lemma is_debt_status (s : string) (d : doc) :
  is_debt d = true → is_debt ({["status" := VStr s]} ∪ d) = true.
Proof.
  unfold is_debt. rewrite (lookup_union_r _ _ "debt_type") by reflexivity.
  rewrite (lookup_union_r _ _ "amount") by reflexivity.
  rewrite (lookup_union_Some_l _ _ "status" (VStr s)) by reflexivity.
  destruct (d !! "debt_type") as [[]|]; try discriminate.
  destruct (d !! "status") as [[]|]; try discriminate. auto.
Qed.

Lemma not_pending_status (debt_type s : string) (d : doc) :
  String.eqb s "pending" = false →
  pending_debt debt_type ({["status" := VStr s]} ∪ d) = false.
Proof.
  intros Hs. unfold pending_debt, field_is.
  rewrite (lookup_union_Some_l _ _ "status" (VStr s)) by reflexivity.
  rewrite Hs. apply andb_false_r.
Qed.
End Paying.

(** X14. A debt that is no longer pending leaves the two totals. On a store
    of well-shaped documents with at most 10000 debts, after [update_debt]
    has given the first debt of an id a status other than "pending", the
    summary of both variants has [money_gave] and [money_owe] equal to the
    sums over the other debts: the sum of [amount] over the debts before and
    after it that are pending, of type "gave" and of type "owe". *)
Theorem settled_debt_leaves_the_totals {num : Type} `{Number num}
    (fromisoformat : string → result Z) (now : datetime)
    (key : string) (update : DebtUpdate)
    (before after : list (gmap string (value num)))
    (d : gmap string (value num)) (db : database num) :
  stored_ok db = true →
  debts db = (before ++ d :: after)%list →
  fresh key before = true → has_id key d = true →
  (length (debts db) ≤ Z.to_nat 10000)%nat →
  String.eqb (status update) "pending" = false →
  let db' := (Server.update_debt fromisoformat key update db).1 in
  ∃ s, Server.get_summary now db' = Ok s ∧ Backend.get_summary now db' = Ok s
       ∧ money_gave s = total_where (pending_debt "gave") (before ++ after)
       ∧ money_owe s = total_where (pending_debt "owe") (before ++ after).
Proof.
  intros Hok Heq Hfresh Hd Hlen Hstatus db'.
  assert (db' = with_debts
                  (before ++ ({["status" := VStr (status update)]} ∪ d)
                   :: after) db) as Hdb'.
  { unfold db'. rewrite update_debt_store, Heq.
    rewrite (find_one_and_update_first key _ before after d Hfresh Hd).
    reflexivity. }
  assert (stored_ok db' = true) as Hok'.
  { rewrite Hdb'. unfold stored_ok, limit_record, with_debts in *. simpl.
    rewrite Heq in Hok. rewrite !andb_true_iff in *.
    destruct Hok as [[He Hdebts] Hl]. split; [split; [exact He |] | exact Hl].
    rewrite forallb_app in *. simpl in *. rewrite !andb_true_iff in *.
    destruct Hdebts as [Hb [Hdd Ha]].
    auto using is_debt_status. }
  exists (summary_of now db').
  split; [apply server_get_summary_stored, Hok' |].
  split; [apply backend_get_summary_stored, Hok' |].
  rewrite Hdb'. unfold summary_of, with_debts. simpl.
  rewrite first_10000_short.
  2:{ rewrite Heq in Hlen. rewrite length_app in *. simpl in *. lia. }
  rewrite !total_where_skip by (apply not_pending_status, Hstatus).
  auto.
Qed.

(** The first debt of the sample store, 100 given, is paid: nothing given
    is pending, 50 are owed. *)
Lemma settled_debt_leaves_the_totals_witness :
  ∃ s, Server.get_summary Samples.thursday
         (Server.update_debt (λ _, Raise ValueError) "d1" Samples.paid
            Samples.db).1 = Ok s
       ∧ Backend.get_summary Samples.thursday
           (Server.update_debt (λ _, Raise ValueError) "d1" Samples.paid
              Samples.db).1 = Ok s
       ∧ money_gave s
         = total_where (pending_debt "gave")
             [Samples.debt "d2" "owe" "pending" 50%float]
       ∧ money_owe s
         = total_where (pending_debt "owe")
             [Samples.debt "d2" "owe" "pending" 50%float].
Proof.
  apply (settled_debt_leaves_the_totals (λ _, Raise ValueError)
           Samples.thursday "d1" Samples.paid []
           [Samples.debt "d2" "owe" "pending" 50%float]
           (Samples.debt "d1" "gave" "pending" 100%float) Samples.db);
    try reflexivity.
  simpl. lia.
Defined.

(** ** The limit record *)

Section Limits.
Context {num : Type} `{Number num}.

Abbreviation doc := (gmap string (value num)).

Lemma find_fresh (key : string) (coll : list doc) :
  fresh key coll = true → List.find (has_id key) coll = None.
Proof.
  induction coll as [|d coll IH]; [reflexivity |].
  rewrite fresh_cons. intros Hfresh. apply andb_true_iff in Hfresh as [Hd Hc].
  apply negb_true_iff in Hd. simpl. rewrite Hd. apply IH, Hc.
Qed.

Lemma find_first (key : string) (before after : list doc) (d : doc) :
  fresh key before = true → has_id key d = true →
  List.find (has_id key) (before ++ d :: after) = Some d.
Proof.
  intros Hfresh Hd. induction before as [|d0 before IH]; simpl.
  - rewrite Hd. reflexivity.
  - rewrite fresh_cons in Hfresh. apply andb_true_iff in Hfresh as [Hd0 Hb].
    apply negb_true_iff in Hd0. rewrite Hd0. apply IH, Hb.
Qed.

Lemma existsb_fresh (key : string) (coll : list doc) :
  existsb (has_id key) coll = negb (fresh key coll).
Proof. unfold fresh. rewrite negb_involutive. reflexivity. Qed.

(** The collection of the limits after [update_one]: the first record of
    the settings with the new fields over its own, or one new record at the
    end. *)
Lemma update_one_limits (object_id : value num) (l : Limit.t num)
    (coll : list doc) :
  Limit.id l = "limit_settings" →
  (∃ before d after,
     coll = (before ++ d :: after)%list
     ∧ fresh "limit_settings" before = true
     ∧ has_id "limit_settings" d = true
     ∧ update_one object_id "limit_settings" (Limit.model_dump l) coll
       = (before ++ (Limit.model_dump l ∪ d) :: after)%list)
  ∨ (fresh "limit_settings" coll = true
     ∧ update_one object_id "limit_settings" (Limit.model_dump l) coll
       = (coll ++ [<["_id" := object_id]> (Limit.model_dump l)])%list).
Proof.
  intros Hid. unfold update_one. rewrite existsb_fresh, bson_limit.
  destruct (fresh_or_first "limit_settings" coll)
    as [Hfresh | (before & d & after & -> & Hfresh & Hd)].
  - right. split; [exact Hfresh |]. rewrite Hfresh. simpl.
    assert (bson (Limit.model_dump l ∪ {["id" := VStr "limit_settings"]})
            = Limit.model_dump l) as ->; [| reflexivity].
    unfold bson, Limit.model_dump. rewrite Hid.
    rewrite map_fmap_union, !fmap_insert, fmap_empty, map_fmap_singleton.
    reflexivity.
  - left. exists before, d, after. split; [reflexivity |].
    split; [exact Hfresh |]. split; [exact Hd |].
    rewrite fresh_app, fresh_cons, Hd, andb_false_r. simpl.
    rewrite (find_one_and_update_first _ _ before after d Hfresh Hd).
    reflexivity.
Qed.

(** The record [find_one] reads after [update_one] holds the limits set. *)
Lemma limit_record_set (object_id : value num) (l : Limit.t num)
    (db : database num) :
  Limit.id l = "limit_settings" →
  ∃ r, limit_record
         (with_limits
            (update_one object_id "limit_settings" (Limit.model_dump l)
               (limits db)) db) = Some r
       ∧ r !! "id" = Some (VStr "limit_settings")
       ∧ r !! "weekly_limit" = Some (VNum (Limit.weekly_limit l))
       ∧ r !! "monthly_limit" = Some (VNum (Limit.monthly_limit l)).
Proof.
  intros Hid. unfold limit_record, with_limits. simpl.
  destruct (update_one_limits object_id l (limits db) Hid)
    as [(before & d & after & _ & Hfresh & Hd & ->) | [Hfresh ->]].
  - exists (Limit.model_dump l ∪ d). split.
    + apply find_first; [exact Hfresh |].
      unfold has_id. rewrite (lookup_union_Some_l _ _ _ (VStr (Limit.id l)))
        by reflexivity.
      rewrite Hid. reflexivity.
    + rewrite <- Hid at 1.
      repeat split; apply lookup_union_Some_l; reflexivity.
  - exists (<["_id" := object_id]> (Limit.model_dump l)). split.
    + rewrite <- (app_nil_r [_]). rewrite <- app_comm_cons.
      apply find_first; [exact Hfresh |]. unfold has_id.
      rewrite lookup_insert_ne by discriminate.
      change (Limit.model_dump l !! "id") with (Some (VStr (Limit.id l) : value num)).
      rewrite Hid. reflexivity.
    + rewrite <- Hid at 1. repeat split; reflexivity.
Qed.
End Limits.

(** X15. The limits set are the limits read. Whatever the store holds,
    after [create_or_update_limit], which is the same function in the two
    variants and changes neither the expenses nor the debts, [get_limit] of
    [src/server.py] returns a record with the id "limit_settings" and the
    two limits of the request, without [_id], and [get_limit] of
    [src/backend/server.py] returns the [Limit] the write returned. *)
Theorem limit_set_is_the_limit_read {num : Type} `{Number num}
    (float_of_str : string → option num) (object_id : value num)
    (input : LimitCreate.t num) (db : database num) :
  let db' := (Server.create_or_update_limit object_id input db).1 in
  Server.create_or_update_limit object_id input db
  = (db', Server.new_limit input)
  ∧ Backend.create_or_update_limit object_id input db
    = (db', Server.new_limit input)
  ∧ expenses db' = expenses db ∧ debts db' = debts db
  ∧ (∃ r, Server.get_limit db' = Server.LimitDict r
          ∧ r !! "id" = Some (VStr "limit_settings")
          ∧ r !! "weekly_limit"
            = Some (VNum (LimitCreate.weekly_limit input))
          ∧ r !! "monthly_limit"
            = Some (VNum (LimitCreate.monthly_limit input))
          ∧ r !! "_id" = None)
  ∧ Backend.get_limit float_of_str db' = Ok (Server.new_limit input).
Proof.
  intros db'. split; [reflexivity |]. split; [reflexivity |].
  split; [reflexivity |]. split; [reflexivity |].
  destruct (limit_record_set object_id (Server.new_limit input) db eq_refl)
    as (r & Hr & Hid & Hw & Hm).
  change (with_limits _ db) with db' in Hr.
  split.
  - exists (without_id r). unfold Server.get_limit.
    rewrite find_one_limit, Hr. cbn [fmap option_fmap option_map].
    rewrite (limit_record_truthy db' r Hr). cbn [default]. unfold id.
    rewrite !lookup_without_id by discriminate.
    split; [reflexivity |]. do 3 (split; [assumption |]).
    unfold without_id. apply lookup_delete_eq.
  - unfold Backend.get_limit. rewrite find_one_limit, Hr.
    cbn [fmap option_fmap option_map].
    rewrite (limit_record_truthy db' r Hr). cbn [default]. unfold id.
    unfold Backend.validate_limit, Backend.with_default,
      Backend.validate_float, Backend.validate_str.
    rewrite !lookup_without_id by discriminate. rewrite Hid, Hw, Hm.
    reflexivity.
Qed.

(** X16. The limits set are the limits of the summary. On a store whose
    expenses and debts are well shaped, whatever its limit records, the
    summary of both variants after [create_or_update_limit] carries the two
    limits of the request, and what is left of them. *)
Theorem limit_set_is_the_limit_of_the_summary {num : Type} `{Number num}
    (now : datetime) (object_id : value num) (input : LimitCreate.t num)
    (db : database num) :
  forallb is_expense (expenses db) = true →
  forallb is_debt (debts db) = true →
  let db' := (Server.create_or_update_limit object_id input db).1 in
  ∃ s, Server.get_summary now db' = Ok s ∧ Backend.get_summary now db' = Ok s
       ∧ weekly_limit s = LimitCreate.weekly_limit input
       ∧ monthly_limit s = LimitCreate.monthly_limit input
       ∧ remaining_week s
         = sub (LimitCreate.weekly_limit input) (total_week s)
       ∧ remaining_month s
         = sub (LimitCreate.monthly_limit input) (total_month s).
Proof.
  intros He Hd db'.
  destruct (limit_record_set object_id (Server.new_limit input) db eq_refl)
    as (r & Hr & Hid & Hw & Hm).
  change (with_limits _ db) with db' in Hr.
  assert (stored_ok db' = true) as Hok.
  { unfold stored_ok. rewrite Hr. unfold db'. simpl. rewrite He, Hd. simpl.
    unfold is_limit. rewrite Hw, Hm. reflexivity. }
  exists (summary_of now db').
  split; [apply server_get_summary_stored, Hok |].
  split; [apply backend_get_summary_stored, Hok |].
  unfold summary_of, limit_of. rewrite Hr, Hw, Hm. simpl. auto.
Qed.

(** Limits of 250 and 900 set on the sample store. *)
Lemma limit_set_is_the_limit_of_the_summary_witness :
  ∃ s, Server.get_summary Samples.thursday
         (Server.create_or_update_limit (VStr "oid5") Samples.budget
            Samples.db).1 = Ok s
       ∧ Backend.get_summary Samples.thursday
           (Server.create_or_update_limit (VStr "oid5") Samples.budget
              Samples.db).1 = Ok s
       ∧ weekly_limit s = 250%float ∧ monthly_limit s = 900%float
       ∧ remaining_week s = sub 250%float (total_week s)
       ∧ remaining_month s = sub 900%float (total_month s).
Proof.
  apply (limit_set_is_the_limit_of_the_summary Samples.thursday (VStr "oid5")
           Samples.budget Samples.db); reflexivity.
Defined.

Section Last_write.
Context {num : Type} `{Number num}.

Abbreviation doc := (gmap string (value num)).

(** The fields of a second [Limit] over those of a first leave nothing of
    the first. *)
Lemma limit_over_limit (a b : Limit.t num) (d : doc) :
  Limit.model_dump b ∪ (Limit.model_dump a ∪ d) = Limit.model_dump b ∪ d.
Proof.
  apply map_eq. intros k. rewrite !lookup_union.
  unfold Limit.model_dump.
  destruct (decide (k = "id")) as [->|Hid];
    [rewrite !lookup_insert_eq; destruct (d !! "id"); reflexivity |].
  rewrite !(lookup_insert_ne _ "id") by congruence.
  destruct (decide (k = "weekly_limit")) as [->|Hw];
    [rewrite !lookup_insert_eq; destruct (d !! "weekly_limit");
     reflexivity |].
  rewrite !(lookup_insert_ne _ "weekly_limit") by congruence.
  destruct (decide (k = "monthly_limit")) as [->|Hm];
    [rewrite !lookup_insert_eq; destruct (d !! "monthly_limit");
     reflexivity |].
  rewrite !(lookup_insert_ne _ "monthly_limit") by congruence.
  rewrite !lookup_empty. destruct (d !! k); reflexivity.
Qed.

Lemma filter_has_id_fresh (key : string) (coll : list doc) :
  fresh key coll = true → List.filter (has_id key) coll = [].
Proof.
  induction coll as [|d coll IH]; [reflexivity |].
  rewrite fresh_cons. intros Hfresh. apply andb_true_iff in Hfresh as [Hd Hc].
  apply negb_true_iff in Hd. simpl. rewrite Hd. apply IH, Hc.
Qed.
End Last_write.

(** X17. The last limits set win, and one record holds them. Setting limits
    a second time leaves the store that setting the second limits alone
    would have left; a call adds a record only to a store without a record
    of the settings, and then exactly one, so that a store with at most one
    such record has exactly one after the call. *)
Theorem last_limit_set_wins {num : Type} `{Number num}
    (first_id second_id : value num) (first second : LimitCreate.t num)
    (db : database num) :
  let records (db : database num) :=
    length (List.filter (has_id "limit_settings") (limits db)) in
  (Server.create_or_update_limit second_id second
     (Server.create_or_update_limit first_id first db).1).1
  = (Server.create_or_update_limit first_id second db).1
  ∧ records (Server.create_or_update_limit first_id first db).1
    = Nat.max 1 (records db)
  ∧ length (limits (Server.create_or_update_limit first_id first db).1)
    = (length (limits db) + (1 - records db))%nat.
Proof.
  cbv zeta. unfold Server.create_or_update_limit. simpl.
  destruct (update_one_limits first_id (Server.new_limit first) (limits db)
              eq_refl)
    as [(before & d & after & Heq & Hfresh & Hd & Hupd) | [Hfresh Hupd]].
  - rewrite Hupd.
    assert (has_id "limit_settings"
              (Limit.model_dump (Server.new_limit first) ∪ d) = true) as Hd1.
    { unfold has_id.
      rewrite (lookup_union_Some_l _ _ _ (VStr "limit_settings"))
        by reflexivity.
      reflexivity. }
    split; [| split].
    + f_equal. unfold update_one. rewrite Heq.
      rewrite !existsb_fresh, !fresh_app, !fresh_cons, Hd, Hd1, !andb_false_r.
      simpl. rewrite bson_limit.
      rewrite (find_one_and_update_first _ _ before after _ Hfresh Hd1).
      rewrite (find_one_and_update_first _ _ before after _ Hfresh Hd).
      simpl. rewrite limit_over_limit. reflexivity.
    + rewrite Heq, !List.filter_app. simpl. rewrite Hd, Hd1. simpl.
      rewrite !length_app. simpl. lia.
    + rewrite Heq, !List.filter_app, !length_app. simpl. rewrite Hd. simpl.
      lia.
  - rewrite Hupd.
    assert (has_id "limit_settings"
              (<["_id" := first_id]>
                 (Limit.model_dump (Server.new_limit first))) = true) as Hd1
      by reflexivity.
    split; [| split].
    + f_equal. unfold update_one.
      rewrite !existsb_fresh, fresh_app, fresh_cons, Hfresh, Hd1. simpl.
      rewrite bson_limit.
      rewrite (find_one_and_update_first _ _ (limits db) [] _ Hfresh Hd1).
      reflexivity.
    + rewrite List.filter_app, (filter_has_id_fresh _ _ Hfresh). simpl.
      rewrite Hd1. reflexivity.
    + rewrite (filter_has_id_fresh _ _ Hfresh), length_app. simpl. lia.
Qed.

(** ** Documents the summary cannot read *)

Section Unreadable.
Context {num : Type} `{Number num}.

Abbreviation doc := (gmap string (value num)).

(** The generator sum stops at the first document on which the test
    raises. *)
Lemma sum_amounts_raise (cond : doc → result bool) (l1 l2 : list doc)
    (e : doc) (err : exn) (acc : num) :
  Forall (λ d, ∃ b, cond d = Ok b
                    ∧ (b = true → ∃ x, d !! "amount" = Some (VNum x))) l1 →
  cond e = Raise err →
  sum_amounts cond (l1 ++ e :: l2) acc = Raise err.
Proof.
  intros Hall He. revert acc.
  induction Hall as [|d l1 (b & Hb & Hamount) _ IH]; intros acc; simpl.
  - rewrite He. reflexivity.
  - rewrite Hb. simpl. destruct b; [| apply IH].
    destruct (Hamount eq_refl) as [x Hx]. unfold getitem. rewrite Hx. simpl.
    apply IH.
Qed.

(** The first 10000 documents of a collection that holds a document within
    them. *)
Lemma first_10000_middle (before after : list doc) (e : doc) :
  (length before < Z.to_nat 10000)%nat →
  ∃ after', first_10000 (before ++ e :: after) = (before ++ e :: after')%list
            ∧ ∀ p, Forall p after → Forall p after'.
Proof.
  intros Hlen. unfold first_10000. rewrite take_app_ge by lia.
  destruct (Z.to_nat 10000 - length before)%nat as [|n] eqn:Hn; [lia |].
  simpl. exists (take n after). split; [reflexivity |].
  intros p Hp. apply Forall_take, Hp.
Qed.

(** The summary of [src/server.py] on a store whose limit record may lack
    a limit. *)
Lemma server_get_summary_lenient (now : datetime) (db : database num) :
  forallb is_expense (expenses db) = true →
  forallb is_debt (debts db) = true →
  (∀ r, limit_record db = Some r →
        (r !! "weekly_limit" = None ∨ ∃ x, r !! "weekly_limit" = Some (VNum x))
        ∧ (r !! "monthly_limit" = None
           ∨ ∃ x, r !! "monthly_limit" = Some (VNum x))) →
  Server.get_summary now db = Ok (summary_of now db).
Proof.
  intros He Hd Hl.
  apply forallb_first_10000 in He, Hd.
  unfold Server.get_summary. cbv zeta. rewrite !to_list_find_all.
  rewrite (py_sum_total _ (on_day (strftime_ymd now))); cycle 1.
  { eapply Forall_impl; [exact He |]. intros d Hd'. simpl.
    rewrite (expense_on_day d _ Hd'). auto using expense_amount. }
  rewrite (py_sum_total _ (since (week_start_of now))); cycle 1.
  { eapply Forall_impl; [exact He |]. intros d Hd'. simpl.
    split; [apply expense_since, Hd' | auto using expense_amount]. }
  rewrite (py_sum_total _ (since (month_start_of now))); cycle 1.
  { eapply Forall_impl; [exact He |]. intros d Hd'. simpl.
    split; [apply expense_since, Hd' | auto using expense_amount]. }
  rewrite (py_sum_total _ (pending_debt "gave")); cycle 1.
  { eapply Forall_impl; [exact Hd |]. intros d Hd'. simpl.
    rewrite !py_eq_str_field by discriminate. auto using debt_amount. }
  rewrite (py_sum_total _ (pending_debt "owe")); cycle 1.
  { eapply Forall_impl; [exact Hd |]. intros d Hd'. simpl.
    rewrite !py_eq_str_field by discriminate. auto using debt_amount. }
  cbn [bind]. rewrite find_one_limit. unfold summary_of, limit_of.
  destruct (limit_record db) as [r|] eqn:Hlim; [| reflexivity].
  cbn [fmap option_fmap option_map]. rewrite (limit_record_truthy db r Hlim).
  cbn [default]. unfold id. rewrite !lookup_without_id by discriminate.
  destruct (Hl r eq_refl) as [[Hw | [w Hw]] [Hm | [m Hm]]];
    rewrite Hw, Hm; reflexivity.
Qed.
End Unreadable.

(** X18. A limit record without a limit. On a store whose expenses and
    debts are well shaped and whose limit record has no [weekly_limit]
    field, [get_summary] of [src/server.py] takes the weekly limit to be
    zero, so that the weekly warning is "none" whatever was spent, and
    [get_summary] of [src/backend/server.py] raises
    [KeyError("weekly_limit")]. *)
Theorem limit_record_without_a_limit {num : Type} `{NumberOrder num}
    (now : datetime) (db : database num) (r : gmap string (value num)) :
  forallb is_expense (expenses db) = true →
  forallb is_debt (debts db) = true →
  limit_record db = Some r →
  r !! "weekly_limit" = None →
  (r !! "monthly_limit" = None ∨ ∃ x, r !! "monthly_limit" = Some (VNum x)) →
  (∃ s, Server.get_summary now db = Ok s
        ∧ weekly_limit s = of_int 0 ∧ weekly_warning s = "none"
        ∧ remaining_week s = sub (of_int 0) (total_week s))
  ∧ Backend.get_summary now db = Raise (KeyError "weekly_limit").
Proof.
  intros He Hd Hr Hw Hm. split.
  - exists (summary_of now db). split.
    + apply server_get_summary_lenient; [exact He | exact Hd |].
      intros r' Hr'. rewrite Hr in Hr'. injection Hr' as <-. auto.
    + unfold summary_of, limit_of. rewrite Hr, Hw. simpl.
      unfold warning. rewrite (leb_not_ltb _ _ leb_zero). auto.
  - apply forallb_first_10000 in He, Hd.
    unfold Backend.get_summary. cbv zeta. rewrite !to_list_find_all.
    rewrite (py_sum_total _ (on_day (strftime_ymd now))); cycle 1.
    { eapply Forall_impl; [exact He |]. intros d Hd'. simpl.
      split; [apply backend_date_is, Hd' | auto using expense_amount]. }
    rewrite (py_sum_total _ (since (week_start_of now))); cycle 1.
    { eapply Forall_impl; [exact He |]. intros d Hd'. simpl.
      split; [apply backend_date_from, Hd' | auto using expense_amount]. }
    rewrite (py_sum_total _ (since (month_start_of now))); cycle 1.
    { eapply Forall_impl; [exact He |]. intros d Hd'. simpl.
      split; [apply backend_date_from, Hd' | auto using expense_amount]. }
    cbn [bind]. rewrite find_one_limit, Hr.
    cbn [fmap option_fmap option_map]. rewrite (limit_record_truthy db r Hr).
    cbn [default]. unfold id, getitem.
    rewrite !lookup_without_id by discriminate. rewrite Hw. reflexivity.
Qed.

(** The sample store with a limit record that holds a monthly limit only. *)
Lemma limit_record_without_a_limit_witness :
  (∃ s, Server.get_summary Samples.thursday Samples.monthly_only = Ok s
        ∧ weekly_limit s = of_int 0 ∧ weekly_warning s = "none"
        ∧ remaining_week s = sub (of_int 0) (total_week s))
  ∧ Backend.get_summary Samples.thursday Samples.monthly_only
    = Raise (KeyError "weekly_limit").
Proof.
  apply (limit_record_without_a_limit Samples.thursday Samples.monthly_only
           {[ "id" := VStr "limit_settings";
              "monthly_limit" := VNum 500%float ]});
    try reflexivity.
  right. exists 500%float. reflexivity.
Defined.

(** X19. [get_summary] of [src/backend/server.py] subscripts the date of
    every expense it reads. When one of the first 10000 stored expenses has
    no [date] field and the expenses stored before it are well shaped, the
    route raises [KeyError("date")], whatever else the store holds. *)
Theorem backend_summary_needs_every_date {num : Type} `{Number num}
    (now : datetime) (before after : list (gmap string (value num)))
    (e : gmap string (value num)) (db : database num) :
  expenses db = (before ++ e :: after)%list →
  (length before < Z.to_nat 10000)%nat →
  forallb is_expense before = true →
  e !! "date" = None →
  Backend.get_summary now db = Raise (KeyError "date").
Proof.
  intros Heq Hlen Hbefore He.
  unfold Backend.get_summary. cbv zeta. rewrite !to_list_find_all, Heq.
  destruct (first_10000_middle before after e Hlen) as (after' & -> & _).
  rewrite fmap_app, fmap_cons. unfold py_sum at 1.
  rewrite (sum_amounts_raise _ _ _ _ (KeyError "date")); [reflexivity | |].
  - apply Forall_fmap, Forall_forall. intros d Hd. simpl.
    rewrite forallb_forall in Hbefore.
    specialize (Hbefore d (proj1 (list_elem_of_In _ _) Hd)).
    exists (on_day (strftime_ymd now) d).
    split; [apply backend_date_is, Hbefore |]. intros _.
    rewrite lookup_without_id by discriminate.
    apply expense_amount, Hbefore.
  - unfold Backend.date_is, getitem. rewrite lookup_without_id by discriminate.
    rewrite He. reflexivity.
Qed.

(** The sample store with an expense without a date. *)
Lemma backend_summary_needs_every_date_witness :
  Backend.get_summary Samples.thursday Samples.with_undated
  = Raise (KeyError "date").
Proof.
  apply (backend_summary_needs_every_date Samples.thursday []
           [Samples.expense "e1" "2024-06-20" 40%float] Samples.undated
           Samples.with_undated); try reflexivity.
  simpl. lia.
Defined.

(** X20. A date that is not a string. When one of the first 10000 stored
    expenses has a [date] that is a number or a datetime, and the other
    expenses among them are well shaped, [get_summary] raises [TypeError] in
    both variants: the test for today takes the date for another day, the
    test for the week compares it with a string. *)
Theorem date_of_another_type_is_a_type_error {num : Type} `{Number num}
    (now : datetime) (before after : list (gmap string (value num)))
    (e : gmap string (value num)) (v : value num) (db : database num) :
  expenses db = (before ++ e :: after)%list →
  (length before < Z.to_nat 10000)%nat →
  forallb is_expense (before ++ after) = true →
  e !! "date" = Some v → (∀ s, v ≠ VStr s) →
  Server.get_summary now db = Raise TypeError
  ∧ Backend.get_summary now db = Raise TypeError.
Proof.
  intros Heq Hlen Hothers He Hv.
  rewrite forallb_app in Hothers.
  apply andb_true_iff in Hothers as [Hbefore Hafter].
  destruct (first_10000_middle before after e Hlen) as (after' & Hcut & Hkeep).
  assert (Forall (λ d, is_expense d = true) after') as Hafter'.
  { apply Hkeep, Forall_forall. intros d Hd. rewrite forallb_forall in Hafter.
    apply Hafter, list_elem_of_In, Hd. }
  assert (Forall (λ d, is_expense d = true) before) as Hbefore'.
  { apply Forall_forall. intros d Hd. rewrite forallb_forall in Hbefore.
    apply Hbefore, list_elem_of_In, Hd. }
  assert (Forall (λ d, is_expense d = true) (before ++ after')) as Hall
    by (apply Forall_app; split; assumption).
  split.
  - unfold Server.get_summary. cbv zeta. rewrite !to_list_find_all, Heq, Hcut.
    rewrite fmap_app, fmap_cons. unfold py_sum at 1.
    rewrite sum_amounts_skip; cycle 1.
    { rewrite lookup_without_id by discriminate. rewrite He.
      destruct v as [s| |]; [destruct (Hv s eq_refl) | reflexivity ..]. }
    rewrite <- fmap_app.
    rewrite (sum_amounts_total _ (on_day (strftime_ymd now))); cycle 1.
    { eapply Forall_impl; [exact Hall |]. intros d Hd'. simpl.
      rewrite (expense_on_day d _ Hd'). auto using expense_amount. }
    cbn [bind]. unfold py_sum at 1.
    rewrite (sum_amounts_raise _ _ _ _ TypeError); [reflexivity | |].
    + apply Forall_fmap. eapply Forall_impl; [exact Hbefore' |].
      intros d Hd'. simpl. exists (since (week_start_of now) d).
      split; [apply expense_since, Hd' |]. intros _.
      rewrite lookup_without_id by discriminate. apply expense_amount, Hd'.
    + rewrite lookup_without_id by discriminate. rewrite He. simpl.
      destruct v as [s| |]; [destruct (Hv s eq_refl) | reflexivity ..].
  - unfold Backend.get_summary. cbv zeta. rewrite !to_list_find_all, Heq, Hcut.
    rewrite fmap_app, fmap_cons. unfold py_sum at 1.
    rewrite sum_amounts_skip; cycle 1.
    { unfold Backend.date_is, getitem.
      rewrite lookup_without_id by discriminate. rewrite He. simpl.
      destruct v as [s| |]; [destruct (Hv s eq_refl) | reflexivity ..]. }
    rewrite <- fmap_app.
    rewrite (sum_amounts_total _ (on_day (strftime_ymd now))); cycle 1.
    { eapply Forall_impl; [exact Hall |]. intros d Hd'. simpl.
      split; [apply backend_date_is, Hd' | auto using expense_amount]. }
    cbn [bind]. unfold py_sum at 1.
    rewrite (sum_amounts_raise _ _ _ _ TypeError); [reflexivity | |].
    + apply Forall_fmap. eapply Forall_impl; [exact Hbefore' |].
      intros d Hd'. simpl. exists (since (week_start_of now) d).
      split; [apply backend_date_from, Hd' |]. intros _.
      rewrite lookup_without_id by discriminate. apply expense_amount, Hd'.
    + unfold Backend.date_from, getitem.
      rewrite lookup_without_id by discriminate. rewrite He. simpl.
      destruct v as [s| |]; [destruct (Hv s eq_refl) | reflexivity ..].
Qed.

(** An expense whose date is the number 20240620, behind one of today. *)
Lemma date_of_another_type_is_a_type_error_witness :
  Server.get_summary Samples.thursday Samples.numbered = Raise TypeError
  ∧ Backend.get_summary Samples.thursday Samples.numbered = Raise TypeError.
Proof.
  apply (date_of_another_type_is_a_type_error Samples.thursday
           [Samples.expense "e1" "2024-06-20" 40%float] []
           (<["date" := VNum 20240620%float]>
              (Samples.expense "n" "2024-06-20" 3%float))
           (VNum 20240620%float) Samples.numbered); try reflexivity.
  - simpl. lia.
  - intros s. discriminate.
Defined.

(** ** The windows on the calendar *)

(** On printable dates the order of the strings is the order of the dates,
    both ways. *)
Lemma strftime_ymd_leb (d1 d2 : datetime) :
  printable d1 → printable d2 →
  String.leb (strftime_ymd d1) (strftime_ymd d2) = true ↔ date_le d1 d2.
Proof.
  intros (Hy1 & Hm1 & Hd1) (Hy2 & Hm2 & Hd2).
  unfold String.leb, strftime_ymd, pad4, pad2. simpl.
  rewrite !digit_compare.
  change (Ascii.compare "-" "-") with Eq. cbv iota.
  unfold date_le.
  repeat match goal with
  | |- context [?a ?= ?b] => destruct (Z.compare_spec a b)
  end.
  all: split; [intros Hleb | intros Hle]; try reflexivity;
    try discriminate Hleb.
  all: try (exfalso; Z.div_mod_to_equations; lia).
  all: Z.div_mod_to_equations; lia.
Qed.

Lemma strftime_ymd_eqb (d1 d2 : datetime) :
  printable d1 → printable d2 →
  String.eqb (strftime_ymd d1) (strftime_ymd d2) = true
  ↔ year d1 = year d2 ∧ month d1 = month d2 ∧ day d1 = day d2.
Proof.
  intros Hp1 Hp2. rewrite string_eqb_leb, andb_true_iff.
  rewrite !strftime_ymd_leb by assumption. unfold date_le. lia.
Qed.

(** The day of the year of a date of the calendar. *)
Lemma day_of_year_bounds (d : datetime) :
  valid_date d →
  1 ≤ days_before_month (year d) (month d) + day d
    ≤ (if is_leap (year d) then 366 else 365).
Proof.
  intros (Hy & Hm & Hd).
  assert (month d = 1 ∨ month d = 2 ∨ month d = 3 ∨ month d = 4 ∨
          month d = 5 ∨ month d = 6 ∨ month d = 7 ∨ month d = 8 ∨
          month d = 9 ∨ month d = 10 ∨ month d = 11 ∨ month d = 12)
    as Hcases by lia.
  unfold days_in_month, days_before_month in *.
  destruct (is_leap (year d));
    repeat destruct Hcases as [Hcases|Hcases]; rewrite Hcases in *;
    simpl in *; lia.
Qed.

Lemma days_before_year_mono (y1 y2 : Z) :
  y1 ≤ y2 → days_before_year y1 ≤ days_before_year y2.
Proof.
  intros Hle.
  assert (∀ k, 0 ≤ k → days_before_year y1 ≤ days_before_year (y1 + k))
    as Hk.
  { apply natlike_ind.
    - rewrite Z.add_0_r. lia.
    - intros k Hk IH. replace (y1 + Z.succ k) with (y1 + k + 1) by lia.
      rewrite days_before_year_succ. destruct (is_leap (y1 + k)); lia. }
  replace y2 with (y1 + (y2 - y1)) by lia. apply Hk. lia.
Qed.

(** A later month begins later in the year. *)
Lemma days_before_month_next (y m1 m2 : Z) :
  1 ≤ m1 → m1 < m2 → m2 ≤ 12 →
  days_before_month y m1 + days_in_month y m1 ≤ days_before_month y m2.
Proof.
  intros H1 Hlt H2.
  assert (m1 = 1 ∨ m1 = 2 ∨ m1 = 3 ∨ m1 = 4 ∨ m1 = 5 ∨ m1 = 6 ∨ m1 = 7 ∨
          m1 = 8 ∨ m1 = 9 ∨ m1 = 10 ∨ m1 = 11) as Hc1 by lia.
  assert (m2 = 2 ∨ m2 = 3 ∨ m2 = 4 ∨ m2 = 5 ∨ m2 = 6 ∨ m2 = 7 ∨
          m2 = 8 ∨ m2 = 9 ∨ m2 = 10 ∨ m2 = 11 ∨ m2 = 12) as Hc2 by lia.
  unfold days_in_month, days_before_month.
  destruct (is_leap y);
    repeat destruct Hc1 as [Hc1|Hc1]; rewrite Hc1 in *;
    repeat destruct Hc2 as [Hc2|Hc2]; rewrite Hc2 in *;
    simpl; lia.
Qed.

(** An earlier date has a smaller ordinal. *)
Lemma toordinal_lt (d1 d2 : datetime) :
  valid_date d1 → valid_date d2 →
  year d1 < year d2
  ∨ (year d1 = year d2
     ∧ (month d1 < month d2 ∨ (month d1 = month d2 ∧ day d1 < day d2))) →
  toordinal d1 < toordinal d2.
Proof.
  intros Hv1 Hv2 Hlt.
  pose proof (day_of_year_bounds d1 Hv1) as Hb1.
  pose proof (day_of_year_bounds d2 Hv2) as Hb2.
  destruct Hv1 as (Hy1 & Hm1 & Hd1). destruct Hv2 as (Hy2 & Hm2 & Hd2).
  unfold toordinal. destruct Hlt as [Hy | [Hy [Hm | [Hm Hd]]]].
  - pose proof (days_before_year_mono (year d1 + 1) (year d2) ltac:(lia)).
    rewrite days_before_year_succ in *. destruct (is_leap (year d1)); lia.
  - rewrite Hy in *.
    pose proof (days_before_month_next (year d2) (month d1) (month d2)
                  ltac:(lia) Hm ltac:(lia)).
    lia.
  - rewrite Hy, Hm. lia.
Qed.

(** The order of the dates of the calendar is the order of their
    ordinals. *)
Lemma toordinal_le (d1 d2 : datetime) :
  valid_date d1 → valid_date d2 →
  date_le d1 d2 ↔ toordinal d1 ≤ toordinal d2.
Proof.
  intros Hv1 Hv2. split.
  - intros Hle. unfold date_le in Hle.
    destruct (Z.eq_dec (day d1) (day d2)) as [Hd | Hd].
    + destruct Hle as [Hy | [Hy [Hm | [Hm _]]]].
      * apply Z.lt_le_incl, toordinal_lt; auto.
      * apply Z.lt_le_incl, toordinal_lt; auto.
      * unfold toordinal. rewrite Hy, Hm, Hd. lia.
    + apply Z.lt_le_incl, toordinal_lt; [assumption .. |]. lia.
  - intros Hle. unfold date_le.
    destruct (Z.lt_trichotomy (year d1) (year d2)) as [Hy | [Hy | Hy]];
      [lia | |].
    + destruct (Z.lt_trichotomy (month d1) (month d2)) as [Hm | [Hm | Hm]];
        [lia | |].
      * destruct (Z_le_gt_dec (day d1) (day d2)) as [Hd | Hd]; [lia |].
        pose proof (toordinal_lt d2 d1 Hv2 Hv1). lia.
      * pose proof (toordinal_lt d2 d1 Hv2 Hv1). lia.
    + pose proof (toordinal_lt d2 d1 Hv2 Hv1). lia.
Qed.

Lemma valid_replace_day1 (d : datetime) :
  valid_date d → valid_date (replace_day1 d).
Proof.
  intros (Hy & Hm & Hd). unfold valid_date, replace_day1. simpl.
  pose proof (days_in_month_bounds (year d) (month d)). lia.
Qed.

(** X21. What the three windows are on the calendar. For an expense whose
    date string is the string of a date of the calendar, at an instant of
    the calendar: the test for today holds exactly when the date is today's;
    the test for the week holds exactly when the date is not before the
    Monday of the current week, [weekday] days before today; and the test
    for the month holds exactly when the date is not before the first day of
    the current month. No window has an end: an expense dated after today,
    in a later week, month or year, passes the tests for the week and for
    the month. *)
Theorem windows_on_the_calendar {num : Type} `{Number num}
    (now d : datetime) (e : gmap string (value num)) :
  valid_date now → valid_date d → date_of e = strftime_ymd d →
  (on_day (strftime_ymd now) e = true ↔ toordinal d = toordinal now)
  ∧ (since (week_start_of now) e = true
     ↔ toordinal now - weekday now ≤ toordinal d)
  ∧ (since (month_start_of now) e = true
     ↔ toordinal now - (day now - 1) ≤ toordinal d)
  ∧ (toordinal now ≤ toordinal d →
     since (week_start_of now) e = true
     ∧ since (month_start_of now) e = true).
Proof.
  intros Hnow Hd He.
  destruct (week_start_spec now Hnow) as (Hmonday & Hord & _ & _).
  pose proof (valid_replace_day1 now Hnow) as Hfirst.
  assert (toordinal (replace_day1 now) = toordinal now - (day now - 1))
    as Hord1 by (unfold toordinal, replace_day1; simpl; lia).
  assert (on_day (strftime_ymd now) e = true ↔ toordinal d = toordinal now)
    as Hday.
  { unfold on_day. rewrite He.
    rewrite strftime_ymd_eqb by auto using valid_date_printable.
    split.
    - intros (Hy & Hm & Hdd). unfold toordinal. rewrite Hy, Hm, Hdd.
      reflexivity.
    - intros Heq.
      pose proof (proj2 (toordinal_le d now Hd Hnow) ltac:(lia)) as H1.
      pose proof (proj2 (toordinal_le now d Hnow Hd) ltac:(lia)) as H2.
      unfold date_le in H1, H2. lia. }
  assert (since (week_start_of now) e = true
          ↔ toordinal now - weekday now ≤ toordinal d) as Hweek.
  { unfold since, week_start_of. rewrite He.
    rewrite strftime_ymd_leb by auto using valid_date_printable.
    rewrite (toordinal_le _ d Hmonday Hd), Hord. reflexivity. }
  assert (since (month_start_of now) e = true
          ↔ toordinal now - (day now - 1) ≤ toordinal d) as Hmonth.
  { unfold since, month_start_of. rewrite He.
    rewrite strftime_ymd_leb by auto using valid_date_printable.
    rewrite (toordinal_le _ d Hfirst Hd), Hord1. reflexivity. }
  split; [exact Hday |]. split; [exact Hweek |]. split; [exact Hmonth |].
  intros Hlater.
  pose proof (toordinal_pos now Hnow) as Hpos.
  destruct (weekday_bounds now Hpos) as [Hw _].
  destruct Hnow as (_ & _ & Hdn).
  split; [apply Hweek | apply Hmonth]; lia.
Qed.

(** An expense planned for New Year's Eve is an expense of the week and of
    the month of 20 June 2024, and not one of that day. *)
Lemma windows_on_the_calendar_witness :
  on_day "2024-06-20" (Samples.expense "p" "2024-12-31" 80%float) = false
  ∧ since "2024-06-17" (Samples.expense "p" "2024-12-31" 80%float) = true
  ∧ since "2024-06-01" (Samples.expense "p" "2024-12-31" 80%float) = true.
Proof.
  destruct (windows_on_the_calendar Samples.thursday
              {| year := 2024; month := 12; day := 31;
                 hour := 0; minute := 0; second := 0; microsecond := 0 |}
              (Samples.expense "p" "2024-12-31" 80%float))
    as (Hday & _ & _ & Hlater);
    [repeat split; vm_compute; discriminate ..| reflexivity |].
  split; [| apply Hlater; vm_compute; discriminate].
  destruct (on_day _ _); [| reflexivity].
  apply proj1 in Hday. specialize (Hday eq_refl). vm_compute in Hday.
  discriminate Hday.
Defined.

(** * Accounts: registering, logging in and reading a token *)

Section Accounts.
Import Auth.

Lemma has_email_not_empty (e : string) (d : document) :
  has_email (Str e) d = true → d ≠ ∅.
Proof.
  intros H ->. discriminate H.
Qed.

Lemma find_one_registered (e : string) (users : list document) :
  find_one (Str e) users = head (registered e users).
Proof.
  unfold find_one, registered.
  induction users as [|d users IH]; [reflexivity |].
  cbn [List.find List.filter]. destruct (has_email (Str e) d); [reflexivity |].
  exact IH.
Qed.

Lemma truthy_find_one (e : string) (users : list document) :
  truthy (find_one (Str e) users)
  = negb (bool_decide (registered e users = [])).
Proof.
  rewrite find_one_registered.
  destruct (registered e users) as [|d l] eqn:Hr; [reflexivity |].
  assert (has_email (Str e) d = true) as Hd.
  { assert (In d (registered e users)) as Hin by (rewrite Hr; left; reflexivity).
    unfold registered in Hin. apply List.filter_In in Hin. tauto. }
  cbn [head truthy]. rewrite (bool_decide_eq_false_2 (d = ∅)).
  - reflexivity.
  - eauto using has_email_not_empty.
Qed.

Lemma registered_app (e : string) (l1 l2 : list document) :
  registered e (l1 ++ l2) = (registered e l1 ++ registered e l2)%list.
Proof. apply List.filter_app. Qed.

Lemma has_email_account (e : string) (user : UserIn)
    (hashed object_id : string) :
  has_email (Str e) (account user hashed object_id)
  = bool_decide (email user = e).
Proof.
  unfold has_email.
  assert (account user hashed object_id !! "email" = Some (Str (email user)))
    as -> by reflexivity.
  destruct (decide (email user = e)) as [-> | Hne].
  - rewrite !bool_decide_eq_true_2; reflexivity.
  - rewrite !bool_decide_eq_false_2; [reflexivity | exact Hne | congruence].
Qed.

Lemma registered_account (user : UserIn) (hashed object_id : string)
    (users : list document) :
  registered (email user) users = [] →
  registered (email user) (insert_one object_id
    {[ "email" := Str (email user); "password" := Str hashed;
       "full_name" := optional (full_name user) ]} users)
  = [account user hashed object_id].
Proof.
  intros Hnone. unfold insert_one. rewrite registered_app, Hnone.
  change (<["_id" := ObjectId object_id]> _)
    with (account user hashed object_id).
  unfold registered. cbn [List.filter app].
  rewrite has_email_account, bool_decide_eq_true_2; reflexivity.
Qed.

Lemma register_returns (pwd_hash : string → string → outcome string)
    (user : UserIn) (salt object_id hashed : string)
    (users : list document) :
  registered (email user) users = [] →
  pwd_hash salt (password user) = Returns hashed →
  register pwd_hash user salt object_id users
  = Returns (user_out user,
             (users ++ [account user hashed object_id])%list).
Proof.
  intros Hnone Hhash. unfold register, get_password_hash.
  rewrite truthy_find_one, Hnone, Hhash. reflexivity.
Qed.

Lemma register_inv (pwd_hash : string → string → outcome string)
    (user : UserIn) (salt object_id : string)
    (users users' : list document) (out : document) :
  register pwd_hash user salt object_id users = Returns (out, users') →
  registered (email user) users = []
  ∧ ∃ hashed, pwd_hash salt (password user) = Returns hashed
      ∧ out = user_out user
      ∧ users' = (users ++ [account user hashed object_id])%list.
Proof.
  unfold register, get_password_hash. rewrite truthy_find_one.
  destruct (decide (registered (email user) users = [])) as [Hnone | Hsome].
  - rewrite bool_decide_eq_true_2 by exact Hnone. cbn [negb].
    destruct (pwd_hash salt (password user)) as [hashed | e];
      cbn [and_then]; [| discriminate].
    intros [= <- <-]. split; [exact Hnone |]. exists hashed. auto.
  - rewrite bool_decide_eq_false_2 by exact Hsome. discriminate.
Qed.

Lemma plus_in_range (t delta : Z) :
  0 ≤ t + delta ≤ datetime_max → plus t delta = Returns (t + delta).
Proof.
  intros [H0 H1]. unfold plus.
  rewrite (proj2 (Z.leb_le _ _) H0), (proj2 (Z.leb_le _ _) H1). reflexivity.
Qed.

Lemma timedelta_minutes_in_range (m : Z) :
  -999999999 ≤ m * 60000000 / 86400000000 ≤ 999999999 →
  timedelta_minutes m = Returns (m * 60000000).
Proof.
  intros [H0 H1]. unfold timedelta_minutes. cbv zeta.
  rewrite (proj2 (Z.leb_le _ _) H0), (proj2 (Z.leb_le _ _) H1). reflexivity.
Qed.

(** The token of a lifetime of [m] minutes: the lifetime given and the
    default are the same here, so a lifetime of zero makes no
    difference. *)
Lemma create_access_token_minutes (SECRET_KEY ALGORITHM : string) (m : Z)
    (jwt_encode : document → string → string → outcome string)
    (whole_seconds : Z → Z) (data : document) (utcnow utcnow' : Z)
    (token : string) :
  -999999999 ≤ m * 60000000 / 86400000000 ≤ 999999999 →
  0 ≤ utcnow + m * 60000000 ≤ datetime_max →
  jwt_encode (<["exp" := Time (utcnow + m * 60000000)]> data)
    SECRET_KEY ALGORITHM = Returns token →
  create_access_token SECRET_KEY ALGORITHM m jwt_encode whole_seconds data
    (Some (m * 60000000)) utcnow utcnow'
  = Returns (token, whole_seconds (utcnow + m * 60000000 - utcnow')).
Proof.
  intros Hm Ht Henc. unfold create_access_token. cbv zeta.
  rewrite (timedelta_minutes_in_range m Hm). cbn [and_then].
  assert ((if m * 60000000 =? 0 then plus utcnow (m * 60000000)
           else plus utcnow (m * 60000000))
          = Returns (utcnow + m * 60000000)) as ->.
  { rewrite (plus_in_range _ _ Ht). destruct (_ =? _); reflexivity. }
  cbn [and_then]. rewrite Henc. reflexivity.
Qed.

Lemma find_one_account (user : UserIn) (hashed object_id : string)
    (users : list document) :
  registered (email user) users = [] →
  find_one (Str (email user))
    (users ++ [account user hashed object_id])%list
  = Some (account user hashed object_id).
Proof.
  intros Hnone. rewrite find_one_registered, registered_app, Hnone.
  unfold registered. cbn [List.filter app].
  rewrite has_email_account, bool_decide_eq_true_2; reflexivity.
Qed.
End Accounts.

(** X22. [register] keeps every address registered at most once: on a
    collection where no address is registered twice it either refuses an
    address that is registered, with HTTP 400 and nothing stored, or fails
    as the hashing fails, or appends one document that holds the address, the
    hash and the name, answers with the address and the name alone, and
    leaves a collection where still no address is registered twice. *)
Theorem register_keeps_one_account_each
    (pwd_hash : string → string → Auth.outcome string)
    (user : Auth.UserIn) (salt object_id : string)
    (users : list Auth.document) :
  Auth.one_account_each users →
  match Auth.register pwd_hash user salt object_id users with
  | Auth.Returns (out, users') =>
      Auth.registered (Auth.email user) users = []
      ∧ out = Auth.user_out user
      ∧ out !! "password" = None
      ∧ (∃ hashed,
          pwd_hash salt (Auth.password user) = Auth.Returns hashed
          ∧ users' = (users ++ [Auth.account user hashed object_id])%list)
      ∧ Auth.one_account_each users'
  | Auth.Raises e =>
      (Auth.registered (Auth.email user) users ≠ []
       ∧ e = Auth.HTTPException 400 "Email already registered" [])
      ∨ (Auth.registered (Auth.email user) users = []
         ∧ pwd_hash salt (Auth.password user) = Auth.Raises e)
  end.
Proof.
  intros Hone.
  destruct (decide (Auth.registered (Auth.email user) users = []))
    as [Hnone | Hsome].
  - destruct (pwd_hash salt (Auth.password user)) as [hashed | e] eqn:Hhash.
    + rewrite (register_returns _ _ _ _ hashed) by assumption.
      split; [exact Hnone |]. split; [reflexivity |].
      split; [reflexivity |]. split; [eauto |].
      intros e. rewrite registered_app.
      unfold Auth.registered at 2. cbn [List.filter].
      rewrite has_email_account, length_app.
      destruct (decide (Auth.email user = e)) as [<- | Hne].
      * rewrite Hnone, bool_decide_eq_true_2 by reflexivity. simpl. lia.
      * rewrite bool_decide_eq_false_2 by exact Hne. simpl.
        specialize (Hone e). lia.
    + unfold Auth.register, Auth.get_password_hash.
      rewrite truthy_find_one, bool_decide_eq_true_2 by exact Hnone.
      cbn [negb]. rewrite Hhash. cbn [Auth.and_then]. right. auto.
  - unfold Auth.register. rewrite truthy_find_one.
    rewrite bool_decide_eq_false_2 by exact Hsome. cbn [negb]. left. auto.
Qed.

Lemma register_keeps_one_account_each_witness :
  Auth.one_account_each Samples.members
  ∧ Auth.register Samples.wrap Samples.ann "pepper" "65f1" Samples.members
    = Auth.Returns
        (Auth.user_out Samples.ann,
         (Samples.members
          ++ [Auth.account Samples.ann "pepper$correct horse" "65f1"])%list)
  ∧ Auth.one_account_each
      (Samples.members
       ++ [Auth.account Samples.ann "pepper$correct horse" "65f1"])%list.
Proof.
  assert (Auth.one_account_each Samples.members) as Hone.
  { intros e. unfold Auth.registered, Samples.members. cbn [List.filter].
    destruct (Auth.has_email _ _); simpl; lia. }
  split; [exact Hone |].
  assert (Auth.register Samples.wrap Samples.ann "pepper" "65f1"
            Samples.members
          = Auth.Returns
              (Auth.user_out Samples.ann,
               (Samples.members
                ++ [Auth.account Samples.ann "pepper$correct horse" "65f1"])%list))
    as Hr by (apply register_returns; reflexivity).
  split; [exact Hr |].
  pose proof (register_keeps_one_account_each Samples.wrap Samples.ann
                "pepper" "65f1" Samples.members Hone) as H.
  rewrite Hr in H. apply H.
Defined.

(** X23. A user who has registered can log in: on the collection [register]
    left, [login] with the address and the password of the registration, when
    the password verifies against the stored hash and the token is encoded,
    answers with that token, the type ["bearer"] and the seconds left of the
    configured minutes at the second reading of the clock; the token carries
    the address as [sub] and the first reading plus the minutes as [exp].
    A password that does not verify gets HTTP 400, the same error as an
    address that is not registered. *)
Theorem login_after_register
    (SECRET_KEY ALGORITHM : string) (minutes : Z)
    (pwd_hash : string → string → Auth.outcome string)
    (pwd_verify : string → Auth.field → Auth.outcome bool)
    (jwt_encode : Auth.document → string → string → Auth.outcome string)
    (whole_seconds : Z → Z)
    (user : Auth.UserIn) (salt object_id hashed token : string)
    (users users' : list Auth.document) (out : Auth.document)
    (utcnow utcnow' : Z) :
  Auth.register pwd_hash user salt object_id users
    = Auth.Returns (out, users') →
  pwd_hash salt (Auth.password user) = Auth.Returns hashed →
  pwd_verify (Auth.password user) (Auth.Str hashed) = Auth.Returns true →
  -999999999 ≤ minutes * 60000000 / 86400000000 ≤ 999999999 →
  0 ≤ utcnow + minutes * 60000000 ≤ Auth.datetime_max →
  jwt_encode {[ "sub" := Auth.Str (Auth.email user);
                "exp" := Auth.Time (utcnow + minutes * 60000000) ]}
    SECRET_KEY ALGORITHM = Auth.Returns token →
  Auth.login SECRET_KEY ALGORITHM minutes pwd_verify jwt_encode whole_seconds
    (Auth.email user) (Auth.password user) utcnow utcnow' users'
  = Auth.Returns
      {| Auth.access_token := token;
         Auth.token_type := "bearer";
         Auth.expires_in :=
           whole_seconds (utcnow + minutes * 60000000 - utcnow') |}
  ∧ (∀ wrong,
       pwd_verify wrong (Auth.Str hashed) = Auth.Returns false →
       Auth.login SECRET_KEY ALGORITHM minutes pwd_verify jwt_encode
         whole_seconds (Auth.email user) wrong utcnow utcnow' users'
       = Auth.Raises Auth.incorrect)
  ∧ (∀ stranger secret,
       Auth.registered stranger users' = [] →
       Auth.login SECRET_KEY ALGORITHM minutes pwd_verify jwt_encode
         whole_seconds stranger secret utcnow utcnow' users'
       = Auth.Raises Auth.incorrect).
Proof.
  intros Hreg Hhash Hverify Hm Ht Henc.
  destruct (register_inv _ _ _ _ _ _ _ Hreg)
    as (Hnone & hashed' & Hhash' & -> & ->).
  assert (hashed' = hashed) as -> by congruence.
  assert (Auth.truthy (Auth.find_one (Auth.Str (Auth.email user))
            (users ++ [Auth.account user hashed object_id])%list) = true)
    as Htruthy.
  { rewrite truthy_find_one, registered_app, Hnone.
    unfold Auth.registered. cbn [List.filter app].
    rewrite has_email_account.
    rewrite (bool_decide_eq_true_2 (Auth.email user = Auth.email user))
      by reflexivity.
    reflexivity. }
  split; [| split].
  - unfold Auth.login. rewrite Htruthy. cbn [negb].
    rewrite (find_one_account _ _ _ _ Hnone). cbn [from_option id].
    assert (Auth.account user hashed object_id !! "password"
            = Some (Auth.Str hashed)) as -> by reflexivity.
    assert (Auth.subscript (Auth.account user hashed object_id) "email"
            = Auth.Returns (Auth.Str (Auth.email user))) as -> by reflexivity.
    unfold Auth.verify_password. cbn [from_option id]. rewrite Hverify.
    cbn [Auth.and_then negb].
    rewrite (timedelta_minutes_in_range minutes Hm). cbn [Auth.and_then].
    rewrite (create_access_token_minutes _ _ _ _ _ _ _ _ token Hm Ht).
    + reflexivity.
    + exact Henc.
  - intros wrong Hwrong. unfold Auth.login. rewrite Htruthy. cbn [negb].
    rewrite (find_one_account _ _ _ _ Hnone). cbn [from_option id].
    assert (Auth.account user hashed object_id !! "password"
            = Some (Auth.Str hashed)) as -> by reflexivity.
    unfold Auth.verify_password. cbn [from_option id]. rewrite Hwrong. reflexivity.
  - intros stranger secret Hs. unfold Auth.login.
    rewrite truthy_find_one, bool_decide_eq_true_2 by exact Hs. reflexivity.
Qed.

Lemma login_after_register_witness :
  Auth.login "changeme" "HS256" 60 Samples.unwrap Samples.sign
    Samples.seconds "ann@example.org" "correct horse"
    Samples.noon Samples.after_noon
    (Samples.members
     ++ [Auth.account Samples.ann "pepper$correct horse" "65f1"])%list
  = Auth.Returns
      {| Auth.access_token := "token of ann@example.org";
         Auth.token_type := "bearer";
         Auth.expires_in := 3599 |}
  ∧ Auth.login "changeme" "HS256" 60 Samples.unwrap Samples.sign
      Samples.seconds "ann@example.org" "battery staple"
      Samples.noon Samples.after_noon
      (Samples.members
       ++ [Auth.account Samples.ann "pepper$correct horse" "65f1"])%list
    = Auth.Raises Auth.incorrect.
Proof.
  destruct (login_after_register "changeme" "HS256" 60 Samples.wrap
              Samples.unwrap Samples.sign Samples.seconds Samples.ann
              "pepper" "65f1" "pepper$correct horse"
              "token of ann@example.org" Samples.members
              (Samples.members
               ++ [Auth.account Samples.ann "pepper$correct horse" "65f1"])%list
              (Auth.user_out Samples.ann) Samples.noon Samples.after_noon)
    as (Hin & Hwrong & _).
  - reflexivity.
  - reflexivity.
  - reflexivity.
  - vm_compute. split; discriminate.
  - vm_compute. split; discriminate.
  - reflexivity.
  - split; [exact Hin |]. apply Hwrong. reflexivity.
Defined.

(** X24. [get_current_user] returns a stored user without the password:
    what it returns is the first document whose address is the [sub] of the
    decoded token, with the [password] field taken out, and every failure
    that is not an exception of the decoding other than [JWTError] is the
    one HTTP 401: a token that does not decode, a token without [sub], a
    subject that is not stored. *)
Theorem current_user_has_no_password
    (SECRET_KEY ALGORITHM : string)
    (jwt_decode : Z → string → string → list string
                  → Auth.outcome Auth.document)
    (token : string) (utcnow : Z) (users : list Auth.document) :
  match Auth.get_current_user SECRET_KEY ALGORITHM jwt_decode token utcnow
          users with
  | Auth.Returns user_doc =>
      user_doc !! "password" = None
      ∧ ∃ payload sub stored,
          jwt_decode utcnow token SECRET_KEY [ALGORITHM]
            = Auth.Returns payload
          ∧ payload !! "sub" = Some sub ∧ sub ≠ Auth.Null
          ∧ head (List.filter (Auth.has_email sub) users) = Some stored
          ∧ stored !! "email" = Some sub
          ∧ user_doc = delete "password" stored
  | Auth.Raises e =>
      e = Auth.credentials_exception
      ∨ (e ≠ Auth.JWTError
         ∧ jwt_decode utcnow token SECRET_KEY [ALGORITHM] = Auth.Raises e)
  end.
Proof.
  unfold Auth.get_current_user.
  destruct (jwt_decode utcnow token SECRET_KEY [ALGORITHM])
    as [payload | e] eqn:Hdec.
  - cbv zeta. destruct (payload !! "sub") as [sub |] eqn:Hsub; cbn [from_option id].
    + destruct (decide (sub = Auth.Null)) as [-> | Hnn].
      * rewrite bool_decide_eq_true_2 by reflexivity. cbn [Auth.and_then].
        left. reflexivity.
      * rewrite bool_decide_eq_false_2 by exact Hnn. cbn [Auth.and_then].
        destruct (Auth.find_one sub users) as [stored |] eqn:Hfind;
          cbn [fmap option_fmap option_map].
        2: { left. reflexivity. }
        split.
        { unfold Auth.without_password. apply lookup_delete_eq. }
        exists payload, sub, stored. split; [reflexivity |].
        split; [exact Hsub |]. split; [exact Hnn |].
        assert (Auth.has_email sub stored = true) as Hhas.
        { unfold Auth.find_one in Hfind.
          apply List.find_some in Hfind. tauto. }
        split; [| split; [| reflexivity]].
        -- clear Hhas. unfold Auth.find_one in Hfind.
           induction users as [|d users IH]; [discriminate |].
           cbn [List.find List.filter] in *.
           destruct (Auth.has_email sub d); [exact Hfind | auto].
        -- unfold Auth.has_email in Hhas.
           destruct (stored !! "email") as [w |].
           ++ rewrite bool_decide_eq_true in Hhas. congruence.
           ++ rewrite bool_decide_eq_true in Hhas. contradiction.
    + rewrite bool_decide_eq_true_2 by reflexivity. left. reflexivity.
  - destruct e; cbn [Auth.and_then];
      first [ left; reflexivity | right; split; [discriminate | reflexivity] ].
Qed.

(** X25. The token of a login names its user: after [register] and a
    [login] that returned a token, if the token decodes to claims whose
    [sub] is the address, [get_current_user] returns the registered user as
    stored, with the [_id] of the document, the address and the name, and
    without the password. *)
Theorem token_names_its_user
    (SECRET_KEY ALGORITHM : string) (minutes : Z)
    (pwd_hash : string → string → Auth.outcome string)
    (pwd_verify : string → Auth.field → Auth.outcome bool)
    (jwt_encode : Auth.document → string → string → Auth.outcome string)
    (jwt_decode : Z → string → string → list string
                  → Auth.outcome Auth.document)
    (whole_seconds : Z → Z)
    (user : Auth.UserIn) (salt object_id : string)
    (users users' : list Auth.document) (out payload : Auth.document)
    (granted : Auth.Token) (utcnow utcnow' later : Z) :
  Auth.register pwd_hash user salt object_id users
    = Auth.Returns (out, users') →
  Auth.login SECRET_KEY ALGORITHM minutes pwd_verify jwt_encode whole_seconds
    (Auth.email user) (Auth.password user) utcnow utcnow' users'
    = Auth.Returns granted →
  jwt_decode later (Auth.access_token granted) SECRET_KEY [ALGORITHM]
    = Auth.Returns payload →
  payload !! "sub" = Some (Auth.Str (Auth.email user)) →
  Auth.get_current_user SECRET_KEY ALGORITHM jwt_decode
    (Auth.access_token granted) later users'
  = Auth.Returns {[ "_id" := Auth.ObjectId object_id;
                    "email" := Auth.Str (Auth.email user);
                    "full_name" := Auth.optional (Auth.full_name user) ]}.
Proof.
  intros Hreg _ Hdec Hsub.
  destruct (register_inv _ _ _ _ _ _ _ Hreg)
    as (Hnone & hashed & _ & -> & ->).
  unfold Auth.get_current_user. rewrite Hdec. cbv zeta. rewrite Hsub.
  cbn [from_option id]. rewrite bool_decide_eq_false_2 by discriminate.
  cbn [Auth.and_then]. rewrite (find_one_account _ _ _ _ Hnone).
  reflexivity.
Qed.

Lemma token_names_its_user_witness :
  Auth.get_current_user "changeme" "HS256" Samples.read_token
    "token of ann@example.org" Samples.after_noon
    (Samples.members
     ++ [Auth.account Samples.ann "pepper$correct horse" "65f1"])%list
  = Auth.Returns {[ "_id" := Auth.ObjectId "65f1";
                    "email" := Auth.Str "ann@example.org";
                    "full_name" := Auth.Null ]}.
Proof.
  apply (token_names_its_user "changeme" "HS256" 60 Samples.wrap
           Samples.unwrap Samples.sign Samples.read_token Samples.seconds
           Samples.ann "pepper" "65f1" Samples.members
           (Samples.members
            ++ [Auth.account Samples.ann "pepper$correct horse" "65f1"])%list
           (Auth.user_out Samples.ann)
           {[ "sub" := Auth.Str "ann@example.org";
              "exp" := Auth.Int 1718892429 ]}
           {| Auth.access_token := "token of ann@example.org";
              Auth.token_type := "bearer";
              Auth.expires_in := 3599 |}
           Samples.noon Samples.after_noon Samples.after_noon);
    reflexivity.
Defined.

(** * The allowed origins *)

Section Marks.
Variable marks : list (list ascii).
Hypothesis marks_not_empty : Forall (λ w, w ≠ []) marks.

Lemma without_prefix_app (w s r : list ascii) :
  without_prefix w s = Some r ↔ s = (w ++ r)%list.
Proof.
  revert s. induction w as [|a w IH]; intros s; simpl.
  - split; [intros [= ->]; reflexivity | intros ->; reflexivity].
  - destruct s as [|b s]; [split; discriminate |].
    destruct (Ascii.eqb a b) eqn:Hab.
    + apply Ascii.eqb_eq in Hab as ->. rewrite IH.
      split; [intros ->; reflexivity | intros [= ->]; reflexivity].
    + split; [discriminate |]. intros [= -> _].
      rewrite Ascii.eqb_refl in Hab. discriminate.
Qed.

Lemma after_mark_some (s r : list ascii) :
  after_mark marks s = Some r → ∃ w, w ∈ marks ∧ s = (w ++ r)%list.
Proof.
  unfold after_mark. intros Hhead.
  assert (r ∈ omap (λ w, without_prefix w s) marks) as Hin.
  { destruct (omap _ marks) as [|x l]; [discriminate |].
    injection Hhead as ->. left. }
  apply list_elem_of_omap in Hin as (w & Hw & Hr).
  exists w. split; [exact Hw |]. apply without_prefix_app, Hr.
Qed.

Lemma after_mark_starts (w t : list ascii) :
  w ∈ marks → is_Some (after_mark marks (w ++ t)).
Proof.
  intros Hw. unfold after_mark.
  assert (t ∈ omap (λ w', without_prefix w' (w ++ t)%list) marks) as Hin.
  { apply list_elem_of_omap. exists w. split; [exact Hw |].
    apply without_prefix_app. reflexivity. }
  destruct (omap _ marks) as [|x l]; [inversion Hin | eexists; reflexivity].
Qed.

Lemma after_mark_shorter (s r : list ascii) :
  after_mark marks s = Some r → (length r < length s)%nat.
Proof.
  intros (w & Hw & ->)%after_mark_some.
  rewrite Forall_forall in marks_not_empty.
  specialize (marks_not_empty w Hw).
  rewrite length_app. destruct w; [contradiction | simpl; lia].
Qed.

(** What is taken off is a run of marks. *)
Lemma without_marks_run (n : nat) (s : list ascii) :
  ∃ ws, Forall (λ w, w ∈ marks) ws
        ∧ s = (mjoin ws ++ without_marks marks n s)%list.
Proof.
  revert s. induction n as [|n IH]; intros s; simpl.
  - exists []. split; [constructor | reflexivity].
  - destruct (after_mark marks s) as [r |] eqn:Hr.
    + destruct (after_mark_some _ _ Hr) as (w & Hw & ->).
      destruct (IH r) as (ws & Hws & Heq).
      exists (w :: ws). split; [constructor; assumption |].
      simpl. rewrite <- app_assoc, <- Heq. reflexivity.
    + exists []. split; [constructor | reflexivity].
Qed.

Lemma without_marks_done (n : nat) (s : list ascii) :
  (length s ≤ n)%nat → after_mark marks (without_marks marks n s) = None.
Proof.
  revert s. induction n as [|n IH]; intros s Hn; simpl.
  - destruct s; [| simpl in Hn; lia].
    destruct (after_mark marks []) as [r |] eqn:Hr; [| reflexivity].
    apply after_mark_shorter in Hr. simpl in Hr. lia.
  - destruct (after_mark marks s) as [r |] eqn:Hr; [| exact Hr].
    apply IH. apply after_mark_shorter in Hr. lia.
Qed.

Lemma without_marks_fixed (n : nat) (s : list ascii) :
  after_mark marks s = None → without_marks marks n s = s.
Proof. intros Hs. destruct n; simpl; [| rewrite Hs]; reflexivity. Qed.

Lemma without_marks_twice (m n : nat) (s : list ascii) :
  (length s ≤ n)%nat →
  without_marks marks m (without_marks marks n s) = without_marks marks n s.
Proof. intros Hn. apply without_marks_fixed, without_marks_done, Hn. Qed.

Lemma after_mark_prefix (a t : list ascii) :
  after_mark marks (a ++ t) = None → after_mark marks a = None.
Proof.
  intros Hnone. destruct (after_mark marks a) as [r |] eqn:Hr; [| reflexivity].
  destruct (after_mark_some _ _ Hr) as (w & Hw & ->).
  destruct (after_mark_starts w (r ++ t) Hw) as [x Hx].
  rewrite app_assoc in Hx. congruence.
Qed.
End Marks.

Lemma whitespace_not_empty : Forall (λ w, w ≠ []) whitespace.
Proof. repeat constructor; discriminate. Qed.

Lemma whitespace_reversed_not_empty :
  Forall (λ w, w ≠ []) (reverse <$> whitespace).
Proof. repeat constructor; discriminate. Qed.

Lemma whitespace_no_comma : Forall (λ w, ","%char ∉ w) whitespace.
Proof.
  repeat constructor;
    intros Hin; repeat (apply elem_of_cons in Hin as [Hin | Hin];
                        [discriminate |]); inversion Hin.
Qed.

Lemma lstrip_done (s : list ascii) : after_mark whitespace (lstrip s) = None.
Proof. apply without_marks_done; [exact whitespace_not_empty | lia]. Qed.

Lemma lstrip_fixed (s : list ascii) :
  after_mark whitespace s = None → lstrip s = s.
Proof. apply without_marks_fixed. Qed.

Lemma rstrip_prefix (s : list ascii) : ∃ t, s = (rstrip s ++ t)%list.
Proof.
  unfold rstrip.
  destruct (without_marks_run (reverse <$> whitespace) (length s) (reverse s))
    as (ws & _ & Heq).
  exists (reverse (mjoin ws)).
  rewrite <- reverse_app, <- Heq, reverse_involutive. reflexivity.
Qed.

Lemma rstrip_twice (s : list ascii) : rstrip (rstrip s) = rstrip s.
Proof.
  unfold rstrip. rewrite reverse_involutive. f_equal.
  apply without_marks_twice; [exact whitespace_reversed_not_empty |].
  rewrite length_reverse. lia.
Qed.

Lemma strip_list_twice (s : list ascii) :
  rstrip (lstrip (rstrip (lstrip s))) = rstrip (lstrip s).
Proof.
  destruct (rstrip_prefix (lstrip s)) as [t Ht].
  rewrite (lstrip_fixed (rstrip (lstrip s))).
  - apply rstrip_twice.
  - apply (after_mark_prefix whitespace _ t). rewrite <- Ht. apply lstrip_done.
Qed.

Lemma strip_twice (s : string) : strip (strip s) = strip s.
Proof.
  unfold strip. rewrite list_ascii_of_string_of_list_ascii, strip_list_twice.
  reflexivity.
Qed.

Lemma reverse_mjoin (rs : list (list ascii)) :
  reverse (mjoin rs) = mjoin (reverse (reverse <$> rs)).
Proof.
  induction rs as [|r rs IH]; [reflexivity |].
  rewrite fmap_cons, reverse_cons, join_app.
  change (mjoin (r :: rs)) with (r ++ mjoin rs)%list.
  rewrite reverse_app, IH. simpl. rewrite app_nil_r. reflexivity.
Qed.

(** What [strip] keeps lies between two runs of white space. *)
Lemma strip_list_between (s : list ascii) :
  ∃ before after,
    Forall (λ w, w ∈ whitespace) before
    ∧ Forall (λ w, w ∈ whitespace) after
    ∧ s = (mjoin before ++ rstrip (lstrip s) ++ mjoin after)%list.
Proof.
  destruct (without_marks_run whitespace (length s) s) as (ws & Hws & Heq).
  fold (lstrip s) in Heq.
  destruct (without_marks_run (reverse <$> whitespace) (length (lstrip s))
              (reverse (lstrip s))) as (rs & Hrs & Hrev).
  exists ws, (reverse (reverse <$> rs)). split; [exact Hws |]. split.
  - apply Forall_reverse, Forall_fmap.
    eapply Forall_impl; [exact Hrs |]. intros w Hw. simpl.
    apply list_elem_of_fmap in Hw as (w' & -> & Hw').
    rewrite reverse_involutive. exact Hw'.
  - rewrite Heq at 1. f_equal.
    apply (f_equal reverse) in Hrev. rewrite reverse_involutive in Hrev.
    rewrite Hrev at 1. rewrite reverse_app. unfold rstrip. f_equal.
    apply reverse_mjoin.
Qed.

Lemma mjoin_no_comma (ws : list (list ascii)) :
  Forall (λ w, w ∈ whitespace) ws → ","%char ∉ mjoin ws.
Proof.
  pose proof whitespace_no_comma as Hno. rewrite Forall_forall in Hno.
  induction 1 as [|w ws Hw _ IH]; simpl.
  - apply not_elem_of_nil.
  - rewrite elem_of_app. intros [Hin | Hin]; [exact (Hno w Hw Hin) | auto].
Qed.

(** ** Pieces *)

Lemma pieces_not_nil (sep : ascii) (s : list ascii) : pieces sep s ≠ [].
Proof.
  induction s as [|c s IH]; simpl; [discriminate |].
  destruct (Ascii.eqb c sep); [discriminate |].
  destruct (pieces sep s); discriminate.
Qed.

Lemma pieces_without (sep : ascii) (s : list ascii) :
  sep ∉ s → pieces sep s = [s].
Proof.
  induction s as [|c s IH]; intros Hs; simpl; [reflexivity |].
  apply not_elem_of_cons in Hs as [Hc Hs].
  destruct (Ascii.eqb c sep) eqn:Hcs.
  - apply Ascii.eqb_eq in Hcs. congruence.
  - rewrite (IH Hs). reflexivity.
Qed.

Lemma pieces_free (sep : ascii) (s : list ascii) :
  Forall (λ p, sep ∉ p) (pieces sep s).
Proof.
  induction s as [|c s IH]; simpl.
  - repeat constructor. apply not_elem_of_nil.
  - destruct (Ascii.eqb c sep) eqn:Hcs.
    + constructor; [apply not_elem_of_nil | exact IH].
    + destruct (pieces sep s) as [|p rest].
      * repeat constructor. apply not_elem_of_cons. split.
        -- intros ->. rewrite Ascii.eqb_refl in Hcs. discriminate.
        -- apply not_elem_of_nil.
      * inversion IH as [|? ? Hp Hrest]; subst. constructor; [| exact Hrest].
        apply not_elem_of_cons. split; [| exact Hp].
        intros ->. rewrite Ascii.eqb_refl in Hcs. discriminate.
Qed.

Lemma pieces_join (sep : ascii) (s : list ascii) :
  String.concat (String sep "") (string_of_list_ascii <$> pieces sep s)
  = string_of_list_ascii s.
Proof.
  induction s as [|c s IH]; [reflexivity |].
  cbn [pieces]. pose proof (pieces_not_nil sep s) as Hne.
  destruct (Ascii.eqb c sep) eqn:Hcs.
  - apply Ascii.eqb_eq in Hcs as ->.
    destruct (pieces sep s) as [|p rest]; [contradiction |].
    rewrite !fmap_cons. rewrite fmap_cons in IH.
    change (String.concat (String sep "")
              (string_of_list_ascii []
               :: string_of_list_ascii p :: (string_of_list_ascii <$> rest)))
      with (String sep
              (String.concat (String sep "")
                 (string_of_list_ascii p :: (string_of_list_ascii <$> rest)))).
    rewrite IH. reflexivity.
  - destruct (pieces sep s) as [|p rest]; [contradiction |].
    rewrite fmap_cons. rewrite fmap_cons in IH.
    cbn [string_of_list_ascii]. rewrite <- IH.
    destruct rest; reflexivity.
Qed.

(** A string without commas is its own only piece. *)
Lemma str_split_without (o : string) :
  ","%char ∉ list_ascii_of_string o → str_split "," o = [o].
Proof.
  intros Ho. unfold str_split. rewrite (pieces_without _ _ Ho).
  simpl. rewrite string_of_list_ascii_of_string. reflexivity.
Qed.

Lemma strip_list_free (s : list ascii) :
  ","%char ∉ s → ","%char ∉ rstrip (lstrip s).
Proof.
  destruct (strip_list_between s) as (ws & rs & _ & _ & Heq).
  intros Hs Hin. apply Hs. rewrite Heq, !elem_of_app. auto.
Qed.

Lemma strip_blank_free (s : list ascii) :
  rstrip (lstrip s) = [] → ","%char ∉ s.
Proof.
  destruct (strip_list_between s) as (ws & rs & Hws & Hrs & Heq).
  intros Hnil. rewrite Heq, Hnil, !elem_of_app.
  intros [Hin | [Hin | Hin]].
  - exact (mjoin_no_comma ws Hws Hin).
  - inversion Hin.
  - exact (mjoin_no_comma rs Hrs Hin).
Qed.

Lemma string_of_list_ascii_nil (l : list ascii) :
  string_of_list_ascii l = "" → l = [].
Proof. destruct l; [reflexivity | discriminate]. Qed.

(** X26. The origins that [src/server.py] hands to the CORS middleware are
    clean, whatever the environment holds: none is empty, none has white
    space at either end (stripping it again changes nothing), and none
    contains a comma. *)
Theorem server_origins_are_clean (environ : gmap string string) :
  Forall (λ o, o ≠ "" ∧ strip o = o ∧ str_split "," o = [o])
    (Server.CORS_ORIGINS environ).
Proof.
  unfold Server.CORS_ORIGINS. cbv zeta.
  destruct (_ || _).
  - repeat constructor. discriminate.
  - apply Forall_fmap, Forall_forall. intros p Hp. simpl.
    apply list_elem_of_In, List.filter_In in Hp as [Hp Hne].
    split; [| split].
    + unfold nonempty in Hne. apply negb_true_iff, String.eqb_neq in Hne.
      exact Hne.
    + apply strip_twice.
    + apply str_split_without. unfold strip.
      rewrite list_ascii_of_string_of_list_ascii. apply strip_list_free.
      unfold str_split in Hp. apply list_elem_of_In in Hp.
      apply list_elem_of_fmap in Hp as (l & -> & Hl).
      rewrite list_ascii_of_string_of_list_ascii.
      pose proof (pieces_free ","
                    (list_ascii_of_string
                       (default "*" (environ !! "CORS_ORIGINS")))) as Hfree.
      rewrite Forall_forall in Hfree. exact (Hfree l Hl).
Qed.

(** X27. [src/backend/server.py] hands the middleware the setting cut at
    its commas and nothing else: joined with commas the origins give the
    setting back, so white space and empty entries are kept; there is
    always at least one origin, and none contains a comma. *)
Theorem backend_origins_are_the_pieces (environ : gmap string string) :
  String.concat "," (Backend.CORS_ORIGINS environ)
  = default "*" (environ !! "CORS_ORIGINS")
  ∧ Backend.CORS_ORIGINS environ ≠ []
  ∧ Forall (λ o, str_split "," o = [o]) (Backend.CORS_ORIGINS environ).
Proof.
  unfold Backend.CORS_ORIGINS, str_split. split; [| split].
  - rewrite pieces_join. apply string_of_list_ascii_of_string.
  - intros Hnil. apply fmap_nil_inv in Hnil.
    exact (pieces_not_nil _ _ Hnil).
  - apply Forall_fmap. eapply Forall_impl; [apply pieces_free |].
    intros p Hp. simpl. apply str_split_without.
    rewrite list_ascii_of_string_of_list_ascii. exact Hp.
Qed.

(** X28. A setting that is empty or white space only opens
    [src/server.py] to every origin and [src/backend/server.py] to none:
    the first takes the wildcard, the second the setting itself as its one
    origin, which is not the wildcard. *)
Theorem blank_setting_of_origins (environ : gmap string string) (s : string) :
  environ !! "CORS_ORIGINS" = Some s →
  strip s = "" →
  Server.CORS_ORIGINS environ = ["*"]
  ∧ Backend.CORS_ORIGINS environ = [s]
  ∧ s ≠ "*".
Proof.
  intros Henv Hblank. split; [| split].
  - unfold Server.CORS_ORIGINS. rewrite Henv. cbn [default from_option id].
    rewrite Hblank. reflexivity.
  - unfold Backend.CORS_ORIGINS. rewrite Henv. cbn [default from_option id].
    apply str_split_without, strip_blank_free.
    apply string_of_list_ascii_nil. exact Hblank.
  - intros ->. vm_compute in Hblank. discriminate.
Qed.

Lemma blank_setting_of_origins_witness :
  Server.CORS_ORIGINS {[ "CORS_ORIGINS" := "  " ]} = ["*"]
  ∧ Backend.CORS_ORIGINS {[ "CORS_ORIGINS" := "  " ]} = ["  "]
  ∧ "  " ≠ "*".
Proof.
  apply (blank_setting_of_origins {[ "CORS_ORIGINS" := "  " ]} "  ");
    reflexivity.
Defined.

(** * The test script against the two servers *)

Section Served.
Variable fromisoformat : string → result Z.
Variable indexed : bool.
Variable float_of_str : string → option float.
Variable datetime_of_str : string → option Z.
Variable datetime_of_num : float → option Z.

Abbreviation doc := (gmap string (value float)).

Lemma with_debts_own (db : database float) : with_debts (debts db) db = db.
Proof. destruct db. reflexivity. Qed.

Lemma forallb_snoc (p : doc → bool) (l : list doc) (d : doc) :
  forallb p (l ++ [d]) = forallb p l && p d.
Proof. rewrite forallb_app. simpl. rewrite andb_true_r. reflexivity. Qed.

Lemma is_debt_paid (key s : string) (coll : list doc) :
  forallb is_debt coll = true →
  forallb is_debt
    (find_one_and_update key {["status" := VStr s]} coll).1 = true.
Proof.
  destruct (fresh_or_first key coll)
    as [Hf | (before & d & after & -> & Hf & Hd)].
  - rewrite find_one_and_update_fresh by exact Hf. auto.
  - rewrite find_one_and_update_first by assumption. cbn [fst].
    rewrite !forallb_app. cbn [forallb]. intros Hall.
    apply andb_true_iff in Hall as [Hb Hall].
    apply andb_true_iff in Hall as [Hd' Ha].
    rewrite Hb, Ha, (is_debt_status s d Hd'). reflexivity.
Qed.

Lemma is_debt_inserted (unique : bool) (object_id : value float)
    (key : string) (d : doc) (coll : list doc) :
  is_debt (<["_id" := object_id]> (bson d)) = true →
  forallb is_debt coll = true →
  forallb is_debt (default coll (insert_one unique object_id key d coll))
  = true.
Proof.
  intros Hd Hall. unfold insert_one.
  destruct (unique && existsb (has_id key) coll); cbn [default from_option id].
  - exact Hall.
  - rewrite forallb_snoc, Hall, Hd. reflexivity.
Qed.

Lemma the_server_serves :
  BackendTest.serves (BackendTest.the_server fromisoformat indexed).
Proof.
  split; [| split; [| split; [| split]]].
  - intros u t oid input db Hf. cbn [BackendTest.create_expense
      BackendTest.the_server]. unfold Server.create_expense.
    cbv zeta. cbn [Server.parse_timestamp].
    assert (Server.parse_timestamp fromisoformat
              (Expense.model_dump (Server.new_expense u t input))
            = Ok (Expense.model_dump (Server.new_expense u t input)))
      as -> by reflexivity.
    rewrite (insert_one_fresh _ _ _ _ _ Hf).
    eexists. split; [reflexivity |].
    split; [reflexivity |]. split; [reflexivity |]. split; [reflexivity |].
    apply has_id_stored. reflexivity.
  - intros u t oid input db. cbn [BackendTest.create_debt
      BackendTest.the_server]. unfold Server.create_debt. cbv zeta.
    assert (Server.parse_timestamp fromisoformat
              (Debt.model_dump (Server.new_debt u t input))
            = Ok (Debt.model_dump (Server.new_debt u t input)))
      as -> by reflexivity.
    exists (default (debts db)
              (insert_one indexed oid u
                 (Debt.model_dump (Server.new_debt u t input)) (debts db))).
    split.
    + destruct (insert_one _ _ _ _ _); cbn [fst default from_option id];
        [reflexivity | symmetry; apply with_debts_own].
    + apply is_debt_inserted. reflexivity.
  - intros u t debt_id input db. cbn [BackendTest.update_debt
      BackendTest.the_server].
    exists (find_one_and_update debt_id {["status" := VStr (status input)]}
              (debts db)).1.
    split; [| apply is_debt_paid].
    rewrite <- update_debt_store with (fromisoformat := fromisoformat).
    destruct (Server.update_debt _ _ _ _). reflexivity.
  - reflexivity.
  - intros now db. apply server_get_summary_stored.
Qed.

Lemma the_backend_serves :
  BackendTest.serves
    (BackendTest.the_backend fromisoformat float_of_str datetime_of_str
       datetime_of_num).
Proof.
  split; [| split; [| split; [| split]]].
  - intros u t oid input db Hf. cbn [BackendTest.create_expense
      BackendTest.the_backend]. unfold Backend.create_expense. cbv zeta.
    rewrite (insert_one_fresh _ _ _ _ _ Hf).
    eexists. split; [reflexivity |].
    split; [reflexivity |]. split; [reflexivity |]. split; [reflexivity |].
    apply has_id_stored. reflexivity.
  - intros u t oid input db. cbn [BackendTest.create_debt
      BackendTest.the_backend]. unfold Backend.create_debt. cbv zeta.
    exists (default (debts db)
              (insert_one false oid u
                 (<["timestamp" := VStr (isoformat t)]>
                    (Debt.model_dump (Server.new_debt u t input)))
                 (debts db))).
    split.
    + destruct (insert_one _ _ _ _ _); cbn [fst default from_option id];
        [reflexivity | symmetry; apply with_debts_own].
    + apply is_debt_inserted. reflexivity.
  - intros u t debt_id input db. cbn [BackendTest.update_debt
      BackendTest.the_backend].
    exists (find_one_and_update debt_id {["status" := VStr (status input)]}
              (debts db)).1.
    split; [| apply is_debt_paid].
    unfold Backend.update_debt.
    destruct (find_one_and_update _ _ _) as [coll [found |]]; reflexivity.
  - reflexivity.
  - intros now db. apply backend_get_summary_stored.
Qed.
End Served.

(** The Monday of the week on the calendar. *)
Lemma week_start_leb (now d : datetime) :
  valid_date now → valid_date d →
  String.leb (week_start_of now) (strftime_ymd d)
  = (toordinal now - weekday now <=? toordinal d).
Proof.
  intros Hn Hd. destruct (week_start_spec now Hn) as (Hm & Hord & _ & _).
  cbv zeta in Hm, Hord. apply Bool.eq_iff_eq_true. unfold week_start_of.
  rewrite strftime_ymd_leb by auto using valid_date_printable.
  rewrite toordinal_le by assumption. rewrite Hord, Z.leb_le. reflexivity.
Qed.

Lemma has_id_other (u u' : string) (e : gmap string (value float)) :
  has_id u e = true → u ≠ u' → has_id u' e = false.
Proof.
  unfold has_id. destruct (e !! "id") as [[s | |] |]; try discriminate.
  intros ->%String.eqb_eq Hne. apply String.eqb_neq. exact Hne.
Qed.

Lemma fresh_snoc (u u' : string) (l : list (gmap string (value float)))
    (e : gmap string (value float)) :
  fresh u' l = true → has_id u e = true → u ≠ u' →
  fresh u' (l ++ [e]) = true.
Proof.
  intros Hl He Hne. rewrite fresh_app, fresh_cons, Hl.
  rewrite (has_id_other u u' e He Hne). reflexivity.
Qed.

Lemma total_where_quiet (p : gmap string (value float) → bool)
    (l : list (gmap string (value float))) :
  forallb (λ e, negb (p e)) l = true → total_where p l = of_int 0.
Proof.
  intros Hl. unfold total_where. rewrite (filter_none p l Hl). reflexivity.
Qed.

Section Run.
Variable api : BackendTest.server.
Hypothesis served : BackendTest.serves api.

Lemma test_create_expense_store (d : BackendTest.drawn) (title : string)
    (amount : float) (date category : string) (db : database float) :
  fresh (BackendTest.uuid4 d) (expenses db) = true →
  ∃ e id,
    BackendTest.test_create_expense api d title amount date category db
    = (with_expenses (expenses db ++ [e])%list db, id)
    ∧ BackendTest.booked date amount e
    ∧ has_id (BackendTest.uuid4 d) e = true.
Proof.
  intros Hf. destruct served as (Hcreate & _).
  destruct (Hcreate (BackendTest.uuid4 d) (BackendTest.clock d)
              (BackendTest.object_id d)
              {| title := title; amount := amount; date := date;
                 category := category |} db Hf)
    as (e & He & Hdate & Hamount & Hexp & Hid).
  unfold BackendTest.test_create_expense.
  destruct (BackendTest.create_expense api _ _ _ _ _) as [db' response].
  cbn [fst] in He. subst db'. exists e. eexists. split; [reflexivity |].
  split; [| exact Hid]. repeat split; assumption.
Qed.

Lemma test_create_debt_store (d : BackendTest.drawn) (name : string)
    (amount : float) (reason date debt_type : string) (db : database float) :
  ∃ ds id,
    BackendTest.test_create_debt api d name amount reason date debt_type db
    = (with_debts ds db, id)
    ∧ (forallb is_debt (debts db) = true → forallb is_debt ds = true).
Proof.
  destruct served as (_ & Hcreate & _).
  destruct (Hcreate (BackendTest.uuid4 d) (BackendTest.clock d)
              (BackendTest.object_id d)
              {| DebtCreate.name := name; DebtCreate.amount := amount;
                 DebtCreate.reason := reason; DebtCreate.date := date;
                 DebtCreate.status := "pending";
                 DebtCreate.debt_type := debt_type |} db)
    as (ds & Hds & Hall).
  unfold BackendTest.test_create_debt.
  destruct (BackendTest.create_debt api _ _ _ _ _) as [db' response].
  cbn [fst] in Hds. subst db'. exists ds. eexists. split; [reflexivity |].
  exact Hall.
Qed.

Lemma test_update_debt_status_store (d : BackendTest.drawn)
    (debt_id : option string) (s : string) (db : database float) :
  ∃ ds,
    match debt_id with
    | Some debt_id =>
        if nonempty debt_id then
          (BackendTest.test_update_debt_status api d debt_id s db).1
        else db
    | None => db
    end = with_debts ds db
    ∧ (forallb is_debt (debts db) = true → forallb is_debt ds = true).
Proof.
  destruct served as (_ & _ & Hupdate & _).
  destruct debt_id as [debt_id |]; [destruct (nonempty debt_id) |].
  - apply Hupdate.
  - exists (debts db). split; [symmetry; apply with_debts_own | auto].
  - exists (debts db). split; [symmetry; apply with_debts_own | auto].
Qed.

Lemma test_create_or_update_limit_store (oid : value float)
    (weekly monthly : float) (db : database float) :
  BackendTest.test_create_or_update_limit api oid weekly monthly db
  = with_limits
      (update_one oid "limit_settings"
         (Limit.model_dump
            {| Limit.id := "limit_settings"; Limit.weekly_limit := weekly;
               Limit.monthly_limit := monthly |}) (limits db)) db.
Proof.
  destruct served as (_ & _ & _ & Hlimit & _).
  unfold BackendTest.test_create_or_update_limit. rewrite Hlimit. reflexivity.
Qed.

(** The store the summary of the 80% check is read from. *)
Lemma before_summary_80_store (r : BackendTest.run) (db : database float) :
  BackendTest.new_ids r db →
  ∃ e1 e2 e3 e4 e5 ds record,
    expenses (BackendTest.before_summary_80 api r db)
    = (((((expenses db ++ [e1]) ++ [e2]) ++ [e3]) ++ [e4]) ++ [e5])%list
    ∧ debts (BackendTest.before_summary_80 api r db) = ds
    ∧ limit_record (BackendTest.before_summary_80 api r db) = Some record
    ∧ BackendTest.booked (BackendTest.today r) 50 e1
    ∧ BackendTest.booked (BackendTest.today r) 15.5 e2
    ∧ BackendTest.booked (BackendTest.week_ago r) 12.99 e3
    ∧ BackendTest.booked (BackendTest.today r) 40 e4
    ∧ BackendTest.booked (BackendTest.today r) 40 e5
    ∧ (forallb is_debt (debts db) = true → forallb is_debt ds = true)
    ∧ record !! "weekly_limit" = Some (VNum 100%float)
    ∧ record !! "monthly_limit" = Some (VNum 500%float).
Proof.
  intros [Hnodup Hfresh]. cbv zeta in Hnodup, Hfresh.
  simpl in Hnodup, Hfresh.
  apply NoDup_cons in Hnodup as [H1 Hnodup].
  apply NoDup_cons in Hnodup as [H2 Hnodup].
  apply NoDup_cons in Hnodup as [H3 Hnodup].
  apply NoDup_cons in Hnodup as [H4 _].
  repeat match goal with
         | H : _ ∉ _ :: _ |- _ => apply not_elem_of_cons in H as [? H]
         end.
  apply Forall_cons in Hfresh as [F1 Hfresh].
  apply Forall_cons in Hfresh as [F2 Hfresh].
  apply Forall_cons in Hfresh as [F3 Hfresh].
  apply Forall_cons in Hfresh as [F4 Hfresh].
  apply Forall_cons in Hfresh as [F5 _].
  unfold BackendTest.before_summary_80, BackendTest.suites_1_to_3.
  destruct (test_create_expense_store (BackendTest.expense1 r)
              "Grocery Shopping" 50 (BackendTest.today r) "Food" db F1)
    as (e1 & id1 & -> & B1 & I1).
  destruct (test_create_expense_store (BackendTest.expense2 r)
              "Uber Ride" 15.5 (BackendTest.today r) "Travel"
              (with_expenses (expenses db ++ [e1]) db))
    as (e2 & id2 & -> & B2 & I2).
  { cbn [expenses with_expenses]. eauto using fresh_snoc. }
  cbn [expenses with_expenses].
  destruct (test_create_expense_store (BackendTest.expense3 r)
              "Netflix Subscription" 12.99 (BackendTest.week_ago r)
              "Entertainment"
              (with_expenses ((expenses db ++ [e1]) ++ [e2])
                 (with_expenses (expenses db ++ [e1]) db)))
    as (e3 & id3 & -> & B3 & I3).
  { cbn [expenses with_expenses]. eauto using fresh_snoc. }
  cbn [expenses with_expenses].
  match goal with
  | |- context [BackendTest.test_create_debt api ?d ?n ?a ?re ?dt ?ty ?s] =>
      destruct (test_create_debt_store d n a re dt ty s)
        as (ds1 & debt1_id & -> & D1)
  end.
  match goal with
  | |- context [BackendTest.test_create_debt api ?d ?n ?a ?re ?dt ?ty ?s] =>
      destruct (test_create_debt_store d n a re dt ty s)
        as (ds2 & debt2_id & -> & D2)
  end.
  match goal with
  | |- context [BackendTest.test_update_debt_status api ?d _ ?st ?s] =>
      destruct (test_update_debt_status_store d debt1_id st s)
        as (ds3 & -> & D3)
  end.
  rewrite !test_create_or_update_limit_store.
  match goal with
  | |- context [BackendTest.test_create_expense api ?d ?t ?a ?dt ?c ?s] =>
      destruct (test_create_expense_store d t a dt c s)
        as (e4 & id4 & -> & B4 & I4)
  end.
  { cbn [expenses with_expenses with_debts with_limits].
    eauto 6 using fresh_snoc. }
  match goal with
  | |- context [BackendTest.test_create_expense api ?d ?t ?a ?dt ?c ?s] =>
      destruct (test_create_expense_store d t a dt c s)
        as (e5 & id5 & -> & B5 & I5)
  end.
  { cbn [expenses with_expenses with_debts with_limits].
    eauto 7 using fresh_snoc. }
  cbn [expenses debts limits with_expenses with_debts with_limits] in *.
  match goal with
  | |- context [update_one ?oid2 _ ?dump2 (update_one ?oid1 _ ?dump1 ?ls)] =>
      destruct (limit_record_set oid2
                  {| Limit.id := "limit_settings";
                     Limit.weekly_limit := 100%float;
                     Limit.monthly_limit := 500%float |}
                  {| expenses := []; debts := [];
                     limits := update_one oid1 "limit_settings" dump1 ls |}
                  eq_refl)
        as (record & Hrecord & _ & Hweekly & Hmonthly)
  end.
  exists e1, e2, e3, e4, e5, ds3, record.
  split; [reflexivity |]. split; [reflexivity |].
  split; [exact Hrecord |].
  repeat (split; [assumption |]).
  split; [auto |]. split; assumption.
Qed.
End Run.

(** X29. The 80% check of the test script cannot see yellow where the
    script has run from its start. On a store of well-shaped documents that
    holds no expense of the server's current week, with room for five more
    below the 10000 that are read and with new ids drawn for them, when the
    script's day lies in that week and its day a week ago before it, the
    summary the script reads for its 80% check, from either server, has a
    week's total of 145.5 against the limit of 100: the 50 and the 15.5 of
    suite 1 are still stored beside the two expenses of 40. The warning is
    red and the script prints that yellow was expected. *)
Theorem suite_5_sees_red_for_yellow
    (fromisoformat : string → result Z) (indexed : bool)
    (float_of_str : string → option float)
    (datetime_of_str : string → option Z)
    (datetime_of_num : float → option Z)
    (api : BackendTest.server) (r : BackendTest.run) (db : database float) :
  api = BackendTest.the_server fromisoformat indexed
  ∨ api = BackendTest.the_backend fromisoformat float_of_str datetime_of_str
            datetime_of_num →
  stored_ok db = true →
  (length (expenses db) + 5 ≤ 10000)%nat →
  forallb (λ e, negb (since (week_start_of (BackendTest.summary_second r)) e))
    (expenses db) = true →
  BackendTest.new_ids r db →
  BackendTest.in_the_week r →
  ∃ summary,
    BackendTest.summary_80 api r db = Some summary
    ∧ total_week summary = 145.5%float
    ∧ weekly_limit summary = 100%float
    ∧ weekly_warning summary = "red"
    ∧ BackendTest.yellow_check api r db = Some false.
Proof.
  intros Hapi Hok Hlen Hquiet Hids Hweek.
  assert (BackendTest.serves api) as Hs.
  { destruct Hapi as [-> | ->];
      [apply the_server_serves | apply the_backend_serves]. }
  destruct (before_summary_80_store api Hs r db Hids)
    as (e1 & e2 & e3 & e4 & e5 & ds & record & Hexp & Hdebts & Hrecord
        & (D1 & A1 & E1) & (D2 & A2 & E2) & (D3 & A3 & E3) & (D4 & A4 & E4)
        & (D5 & A5 & E5) & Hds & Hweekly & Hmonthly).
  unfold stored_ok in Hok.
  apply andb_true_iff in Hok as [Hok _].
  apply andb_true_iff in Hok as [Hexpenses Hdebts_ok].
  assert (stored_ok (BackendTest.before_summary_80 api r db) = true) as Hok'.
  { unfold stored_ok. rewrite Hexp, Hdebts, Hrecord, !forallb_snoc.
    rewrite Hexpenses, E1, E2, E3, E4, E5, (Hds Hdebts_ok).
    unfold is_limit. rewrite Hweekly, Hmonthly. reflexivity. }
  destruct Hweek as (Hnow & Hstart & Hagain & Hseven & Hmonday & Hbefore).
  cbv zeta in Hmonday, Hbefore.
  destruct (minus_days_spec (BackendTest.started_again r) 7 Hagain)
    as (Hago & Hago_ord & _); [lia |].
  assert (since (week_start_of (BackendTest.summary_second r)) e1 = true
          ∧ since (week_start_of (BackendTest.summary_second r)) e2 = true
          ∧ since (week_start_of (BackendTest.summary_second r)) e3 = false
          ∧ since (week_start_of (BackendTest.summary_second r)) e4 = true
          ∧ since (week_start_of (BackendTest.summary_second r)) e5 = true)
    as (S1 & S2 & S3 & S4 & S5).
  { unfold since. rewrite D1, D2, D3, D4, D5.
    unfold BackendTest.today, BackendTest.week_ago.
    rewrite !week_start_leb by assumption. rewrite Hago_ord.
    repeat split; first [apply Z.leb_le; lia | apply Z.leb_gt; lia]. }
  assert (total_week
            (summary_of (BackendTest.summary_second r)
               (BackendTest.before_summary_80 api r db)) = 145.5%float)
    as Htotal.
  { unfold summary_of. cbn [total_week].
    rewrite first_10000_short
      by (rewrite Hexp, !length_app; simpl; change (Z.to_nat 10000) with 10000%nat; lia).
    rewrite Hexp, !total_where_snoc, S1, S2, S3, S4, S5.
    rewrite (total_where_quiet _ _ Hquiet), A1, A2, A4, A5. reflexivity. }
  assert (weekly_limit
            (summary_of (BackendTest.summary_second r)
               (BackendTest.before_summary_80 api r db)) = 100%float)
    as Hlimit.
  { unfold summary_of. cbn [weekly_limit]. unfold limit_of.
    rewrite Hrecord, Hweekly. reflexivity. }
  assert (weekly_warning
            (summary_of (BackendTest.summary_second r)
               (BackendTest.before_summary_80 api r db)) = "red")
    as Hwarning.
  { pose proof Htotal as Ht. pose proof Hlimit as Hl.
    unfold summary_of in Ht, Hl |- *. cbn [total_week weekly_limit] in Ht, Hl.
    cbn [weekly_warning]. rewrite Ht, Hl. reflexivity. }
  destruct Hs as (_ & _ & _ & _ & Hsummary).
  assert (BackendTest.summary_80 api r db
          = Some (summary_of (BackendTest.summary_second r)
                    (BackendTest.before_summary_80 api r db))) as Hread.
  { unfold BackendTest.summary_80, BackendTest.test_get_summary.
    rewrite (Hsummary _ _ Hok'). reflexivity. }
  eexists. split; [exact Hread |].
  split; [exact Htotal |]. split; [exact Hlimit |]. split; [exact Hwarning |].
  unfold BackendTest.yellow_check. rewrite Hread. cbn [fmap option_fmap option_map].
  rewrite Hwarning. reflexivity.
Qed.

Lemma suite_5_sees_red_for_yellow_witness :
  ∃ summary,
    BackendTest.summary_80
      (BackendTest.the_server Samples.reads_a_little_later true)
      Samples.first_run Samples.empty = Some summary
    ∧ total_week summary = 145.5%float
    ∧ weekly_limit summary = 100%float
    ∧ weekly_warning summary = "red"
    ∧ BackendTest.yellow_check
        (BackendTest.the_server Samples.reads_a_little_later true)
        Samples.first_run Samples.empty = Some false.
Proof.
  apply (suite_5_sees_red_for_yellow Samples.reads_a_little_later true
           (λ _, None) (λ _, None) (λ _, None)).
  - left. reflexivity.
  - reflexivity.
  - apply Nat.leb_le. vm_compute. reflexivity.
  - reflexivity.
  - split; simpl.
    + repeat (apply NoDup_cons; split;
              [intros Hin;
               repeat (apply elem_of_cons in Hin as [Hin | Hin];
                       [discriminate |]); inversion Hin |]).
      apply NoDup_nil. exact I.
    + repeat constructor.
  - unfold BackendTest.in_the_week. cbv zeta.
    repeat split; vm_compute; congruence.
Defined.

(** X30. The warning check of suite 4 cannot fail: for a summary that
    either server has returned, the warning the script counts from the
    week's total and the weekly limit is the warning in the summary, so the
    script prints that the calculation is correct whenever the weekly limit
    is above zero, and prints nothing about it otherwise. *)
Theorem warning_check_agrees (now : datetime) (db : database float)
    (summary : Summary float) :
  Server.get_summary now db = Ok summary
  ∨ Backend.get_summary now db = Ok summary →
  BackendTest.warning_check summary
  = if ltb (of_int 0) (weekly_limit summary) then Some true else None.
Proof.
  intros Hsummary.
  destruct (get_summary_derived now db summary Hsummary) as (_ & _ & Hw & _).
  unfold BackendTest.warning_check. cbv zeta. rewrite Hw. unfold warning.
  destruct (ltb (of_int 0) (weekly_limit summary)); [| reflexivity].
  cbv zeta.
  destruct (leb (of_int 100) _); [reflexivity |].
  destruct (leb (of_int 80) _); reflexivity.
Qed.

Lemma warning_check_agrees_witness :
  BackendTest.warning_check Samples.db_summary = Some true.
Proof.
  apply (warning_check_agrees Samples.thursday Samples.db Samples.db_summary).
  left. reflexivity.
Defined.
